(** * Lost-and-found backend: authorization and item lifecycle

    A shallow embedding of the route handlers of the lost-and-found
    backend (Express handlers over Mongoose models) and the properties of
    its authorization and item-lifecycle rules.

    Conventions of the embedding.
    - A collection is a finite map from [_id] to the document's fields; a
      document read from a collection is the pair of its [_id] and fields.
    - An [ObjectId] is its text: every non-empty text stands for a
      well-formed id, the empty text is no id.  Request parameters and
      token payloads carry well-formed ids.
    - A handler is a function on the [World] (the four collections, the
      ids handed out so far and the calls made to the image host) that
      yields a reply; [await] is sequencing.
    - The store answers every call: a handler fails only where its own
      code or a schema validator makes it fail.
    - A collection stores the ids of its references.  The [pre('find')]
      and [pre('findOne')] hooks of the item schemas populate [foundBy]
      (with [supervisor] and [deliveredBy]) on every document that
      [find], [findOne] and [findById] return: such a path then holds
      the referenced user, or [null] when no such user is stored.  The
      LostItem hooks are those of the schema whose vocabulary the
      routers write; [findByIdAndUpdate] and [findByIdAndDelete] run no
      such hook.
    - The image host, the token library, the clock, date parsing, regular
      expressions and the User schema are collaborators outside the
      sources; they are the fields of [Env]. *)

From stdpp Require Import gmap strings list fin_maps sorting.

Open Scope string_scope.

(** ** JavaScript strings *)

(** [!!s] for a string: only the empty string is falsy. *)
Definition truthy (s : string) : bool := negb (String.eqb s "").

(** [!!v] for a value that may be [undefined]. *)
Definition truthy_opt (v : option string) : bool :=
  match v with
  | Some s => truthy s
  | None => false
  end.

(** [toLowerCase] on one character: the letters A-Z move to a-z. *)
Definition lower_ascii (c : Ascii.ascii) : Ascii.ascii :=
  let n := Ascii.N_of_ascii c in
  if bool_decide (65 ≤ n ≤ 90)%N then Ascii.ascii_of_N (n + 32) else c.

(** [String.prototype.toLowerCase].  A character outside ASCII is left as
    it is; none of them lower-cases to an ASCII letter that occurs in a
    key of the tables below. *)
Fixpoint toLowerCase (s : string) : string :=
  match s with
  | EmptyString => EmptyString
  | String c s' => String (lower_ascii c) (toLowerCase s')
  end.

(** [strip_prefix p s] is [Some r] when [s = p ++ r]. *)
Fixpoint strip_prefix (p s : string) : option string :=
  match p with
  | EmptyString => Some s
  | String a p' =>
      match s with
      | EmptyString => None
      | String b s' => if Ascii.eqb a b then strip_prefix p' s' else None
      end
  end.

(** [s.replace(pat, rep)] with a string pattern: the first occurrence of
    [pat] is replaced, the rest of [s] is kept. *)
Fixpoint replace (pat rep s : string) : string :=
  match strip_prefix pat s with
  | Some rest => rep +:+ rest
  | None =>
      match s with
      | EmptyString => EmptyString
      | String c s' => String c (replace pat rep s')
      end
  end.

(** ** normalizeStatus

    [statusMap[key]] is a property read on an object literal: an own
    property gives its text, a name inherited from [Object.prototype]
    gives that member (not a string), anything else [undefined]. *)

Inductive PropertyRead :=
  | OwnText (v : string)
  | Inherited (member : string)
  | Undefined.

Definition objectPrototype : list string :=
  [ "constructor"; "__proto__"; "__defineGetter__"; "__defineSetter__";
    "__lookupGetter__"; "__lookupSetter__"; "hasOwnProperty";
    "isPrototypeOf"; "propertyIsEnumerable"; "toLocaleString";
    "toString"; "valueOf" ].

Fixpoint assoc (key : string) (table : list (string * string)) : option string :=
  match table with
  | [] => None
  | (k, v) :: rest => if String.eqb k key then Some v else assoc key rest
  end.

Definition read_property (table : list (string * string)) (key : string) : PropertyRead :=
  match assoc key table with
  | Some v => OwnText v
  | None => if bool_decide (key ∈ objectPrototype) then Inherited key else Undefined
  end.

Definition statusMap : list (string * string) :=
  [ ("on-hand", "onHand"); ("in-process", "inProcess"); ("delivered", "delivered") ].

(** What [normalizeStatus] returns: a status text, or (for the two inputs
    whose lower case names a member of [Object.prototype]) that member. *)
Inductive StatusValue :=
  | StatusText (s : string)
  | PrototypeMember (member : string).

(** [statusMap[status.toLowerCase()] || status] — the helper is the same
    in the lost-items and in the delivered-items router. *)
Definition normalizeStatus (status : string) : StatusValue :=
  match read_property statusMap (toLowerCase status) with
  | OwnText v => if truthy v then StatusText v else StatusText status
  | Inherited member => PrototypeMember member
  | Undefined => StatusText status
  end.

(** ** Data model *)

Abbreviation ObjectId := string.
Abbreviation Date := Z.

(** A document read from a collection: its [_id] and its fields. *)
Definition Doc (A : Type) : Type := ObjectId * A.
Definition _id {A : Type} (d : Doc A) : ObjectId := fst d.
Definition fields {A : Type} (d : Doc A) : A := snd d.

(** An image on the image host; an absent text is the empty string. *)
Record ImageInfo := {
  url : string;
  publicId : string;
  thumbnailUrl : string
}.

(** A file of a multipart request, as multer's memory storage keeps it. *)
Record UploadedFile := {
  buffer : string;
  mimetype : string;
  originalname : string
}.

(** Modelled from the spec: the User model is not among the sources.  A
    user is the identity record of the data model (employee identifier,
    hashed secret, first and last name, role, permission references),
    with the time stamps that the middleware copies into [req.user]. *)
Module User.
Record t := {
  employeeNumber : string;
  password : string;
  firstName : string;
  lastName : string;
  role : string;
  permissions : list ObjectId;
  createdAt : Date;
  updatedAt : Date
}.

Definition set_permissions (ps : list ObjectId) (u : t) : t :=
  {| employeeNumber := employeeNumber u; password := password u;
     firstName := firstName u; lastName := lastName u; role := role u;
     permissions := ps; createdAt := createdAt u; updatedAt := updatedAt u |}.
End User.

Module Permission.
Record t := {
  name : string;
  description : string
}.
End Permission.

Module LostItem.
Record CustomerInfo := {
  name : string;
  email : string;
  phone : string;
  deliveryDate : option Date
}.

Record t := {
  itemName : string;
  description : string;
  location : string;
  category : string;
  status : string;
  images : list ImageInfo;
  foundBy : ObjectId;
  supervisor : ObjectId;
  customerInfo : option CustomerInfo;
  deliveredBy : option ObjectId;
  deliveredAt : option Date;
  flightNumber : string;
  dateFound : option Date;
  createdAt : Date;
  updatedAt : Date
}.

(** The options in which the two LostItem schemas differ. *)
Record SchemaOptions := {
  statusEnum : list string;
  statusDefault : string
}.
End LostItem.

(** The schema of [models/LostItem.ts]. *)
Definition LostItemSchema_pending : LostItem.SchemaOptions :=
  {| LostItem.statusEnum := ["pending"; "delivered"; "archived"];
     LostItem.statusDefault := "pending" |}.

(** The schema of the other LostItem model, the one whose status
    vocabulary the routers write (['onHand'] on creation). *)
Definition LostItemSchema : LostItem.SchemaOptions :=
  {| LostItem.statusEnum := ["pending"; "onHand"; "delivered"; "archived"];
     LostItem.statusDefault := "onHand" |}.

Module DeliveredItem.
(** The customer block of a delivered item.  The two DeliveredItem
    schemas differ here: one has [identification] and [signature], the
    other [deliveryDate]; a document holds what its writer's schema
    keeps. *)
Record CustomerInfo := {
  name : string;
  email : string;
  phone : string;
  identification : option string;
  signature : option string;
  deliveryDate : option Date
}.

Record t := {
  itemName : string;
  description : string;
  location : string;
  category : string;
  images : list ImageInfo;
  foundBy : ObjectId;
  deliveredBy : option ObjectId;
  flightNumber : string;
  dateFound : option Date;
  dateDelivered : Date;
  archived : bool;
  customerInfo : CustomerInfo;
  deliveryNotes : option string;
  deliveryPhotos : list ImageInfo;
  createdAt : Date;
  updatedAt : Date
}.
End DeliveredItem.

(** A populated reference with [select 'firstName lastName employeeNumber']. *)
Module UserInfo.
Record t := {
  _id : ObjectId;
  firstName : string;
  lastName : string;
  employeeNumber : string
}.
End UserInfo.

(** The value of a reference path of a document turned into a plain
    object: nothing ([null] or [undefined]), a string left in place, or
    the record that [populate] put there. *)
Inductive Ref :=
  | RefMissing
  | RefBare (id : string)
  | RefDoc (u : UserInfo.t).

(** [req.user], as the [auth] middleware attaches it. *)
Module AuthUser.
Record t := {
  _id : ObjectId;
  employeeNumber : string;
  firstName : string;
  lastName : string;
  role : string;
  permissions : list string;
  createdAt : Date;
  updatedAt : Date
}.
End AuthUser.

(** Two values of a path are the same value. *)
#[global] Instance ImageInfo_eq_dec : EqDecision ImageInfo.
Proof. solve_decision. Defined.
#[global] Instance LostItem_CustomerInfo_eq_dec : EqDecision LostItem.CustomerInfo.
Proof. solve_decision. Defined.
#[global] Instance LostItem_eq_dec : EqDecision LostItem.t.
Proof. solve_decision. Defined.

(** ** The world: the four collections, the ObjectId generator and the
    calls made to the image host *)

Inductive HostCall :=
  | Upload (file : UploadedFile) (folder flightNumber : string)
  | Delete (publicId : string).

Record World := {
  users : gmap string User.t;
  permissions : gmap string Permission.t;
  lostItems : gmap string LostItem.t;
  deliveredItems : gmap string DeliveredItem.t;
  issued : gset string;
  hostCalls : list HostCall
}.

Definition set_users (m : gmap string User.t) (w : World) : World :=
  {| users := m; permissions := permissions w; lostItems := lostItems w;
     deliveredItems := deliveredItems w; issued := issued w;
     hostCalls := hostCalls w |}.
Definition set_permissions (m : gmap string Permission.t) (w : World) : World :=
  {| users := users w; permissions := m; lostItems := lostItems w;
     deliveredItems := deliveredItems w; issued := issued w;
     hostCalls := hostCalls w |}.
Definition set_lostItems (m : gmap string LostItem.t) (w : World) : World :=
  {| users := users w; permissions := permissions w; lostItems := m;
     deliveredItems := deliveredItems w; issued := issued w;
     hostCalls := hostCalls w |}.
Definition set_deliveredItems (m : gmap string DeliveredItem.t) (w : World) : World :=
  {| users := users w; permissions := permissions w; lostItems := lostItems w;
     deliveredItems := m; issued := issued w; hostCalls := hostCalls w |}.
Definition set_issued (s : gset string) (w : World) : World :=
  {| users := users w; permissions := permissions w; lostItems := lostItems w;
     deliveredItems := deliveredItems w; issued := s;
     hostCalls := hostCalls w |}.
Definition set_hostCalls (l : list HostCall) (w : World) : World :=
  {| users := users w; permissions := permissions w; lostItems := lostItems w;
     deliveredItems := deliveredItems w; issued := issued w; hostCalls := l |}.

(** Every id in use: the ids of stored documents and the ids handed out
    to objects that were never stored. *)
Definition usedIds (w : World) : gset string :=
  issued w ∪ dom (users w) ∪ dom (permissions w)
           ∪ dom (lostItems w) ∪ dom (deliveredItems w).

(** ** Replies *)

(** What a handler can throw into its [catch]. *)
Inductive Error :=
  | ValidationError (path : string)
  | CastError (path : string)
  | SyntaxError
  | TypeError
  | UploadRejected
  | DeleteRejected.

(** An entry of the [users] list of the PERMISSION_IN_USE reply. *)
Module UserSummary.
Record t := {
  id : string;
  name : string;
  employeeNumber : string
}.
End UserSummary.

(** A lost item of the cleaned list: the plain object and its three
    reference paths. *)
Module CleanedLostItem.
Record t := {
  item : Doc LostItem.t;
  foundBy : UserInfo.t;
  supervisor : UserInfo.t;
  deliveredBy : UserInfo.t
}.
End CleanedLostItem.

Module CleanedDeliveredItem.
Record t := {
  item : Doc DeliveredItem.t;
  foundBy : UserInfo.t;
  deliveredBy : UserInfo.t
}.
End CleanedDeliveredItem.

(** The [user] object of the replies of the auth routers. *)
Module UserView.
Record t := {
  _id : ObjectId;
  employeeNumber : string;
  firstName : string;
  lastName : string;
  role : string;
  permissions : option (list ObjectId);
  populated : list (Doc Permission.t)
}.
End UserView.

Inductive Body :=
  | Null
  | Message (message : string)
  | Coded (message code : string)
  | Failure (message : string) (error : Error)
  | PermissionInUse (message code : string) (users : list UserSummary.t)
  | LostItemBody (item : Doc LostItem.t) (populated : list (string * Ref))
  | LostItemsBody (items : list CleanedLostItem.t)
  | DeliveredItemBody (item : Doc DeliveredItem.t)
  | DeliveredItemsBody (items : list CleanedDeliveredItem.t)
  | RevertedBody (message : string) (item : Doc LostItem.t)
  | RegisteredBody (token : string) (user : UserView.t)
  | UserBody (user : UserView.t).

(** [res.status(status).json(body)]. *)
Record Reply := {
  status : nat;
  body : Body
}.

Definition json (b : Body) : Reply := {| status := 200; body := b |}.
Definition status_json (s : nat) (b : Body) : Reply := {| status := s; body := b |}.

(** ** Collaborators outside the sources *)

(** What [jwt.verify] throws. [JsonWebTokenError] is every verification
    failure other than expiry: a token that is malformed or whose
    signature does not verify under the server's secret. *)
Inductive JwtError :=
  | TokenExpiredError
  | JsonWebTokenError.

(** [jwt.verify(token, secret) as JwtPayload]: the decoded [id], absent
    when the payload has no such member. *)
Inductive JwtOutcome :=
  | JwtThrows (e : JwtError)
  | JwtDecoded (id : option ObjectId).

(** The payloads the two register routes sign. *)
Inductive TokenPayload :=
  | PayloadId (id employeeNumber role : string)
  | Payload_id (_id employeeNumber role : string).

(** The input of [User.create] and [new User]. *)
Module UserInput.
Record t := {
  employeeNumber : option string;
  password : option string;
  firstName : option string;
  lastName : option string;
  role : string;
  permissions : list ObjectId
}.
End UserInput.

Record Env := {
  (** [new Date()]: the instant of the request. *)
  now : Date;
  (** [new Date(text)]; [None] is an invalid date. *)
  parseDate : string → option Date;
  (** [jwt.verify(token, process.env.JWT_SECRET)]. *)
  jwt_verify : string → JwtOutcome;
  (** [jwt.sign(payload, secret, { expiresIn: '24h' })]. *)
  jwt_sign : TokenPayload → string;
  (** [cloudinaryService.uploadFile(buffer, mimetype, originalname,
      folder, flightNumber)]; [None] is a rejected promise. *)
  uploadFile : UploadedFile → string → string → option ImageInfo;
  (** [cloudinaryService.deleteFile(publicId)]; [false] is a rejection. *)
  deleteFile : string → bool;
  (** A [$regex] filter with option [i]: pattern, then subject. *)
  regexTest : string → string → bool;
  (** The User model is not among the sources: its validation and its
      password hashing are taken as given. *)
  userSchemaAccepts : UserInput.t → bool;
  hashPassword : string → string
}.

(** ** Handlers as state transformers with early replies and exceptions *)

Inductive Outcome (A : Type) :=
  | Value (a : A)
  | Respond (r : Reply)
  | Throw (e : Error).
Arguments Value {A} a.
Arguments Respond {A} r.
Arguments Throw {A} e.

Definition Handler (A : Type) : Type := World → World * Outcome A.

Definition ret {A} (a : A) : Handler A := λ w, (w, Value a).
Definition respond {A} (r : Reply) : Handler A := λ w, (w, Respond r).
Definition throw {A} (e : Error) : Handler A := λ w, (w, Throw e).

Definition bind {A B} (m : Handler A) (k : A → Handler B) : Handler B :=
  λ w,
    match m w with
    | (w', Value a) => k a w'
    | (w', Respond r) => (w', Respond r)
    | (w', Throw e) => (w', Throw e)
    end.

Notation "'let*' x := m 'in' k" := (bind m (λ x, k))
  (at level 10, x pattern, m at level 100, k at level 200).

(** [try { ... } catch (error) { res.status(..).json(..) }]: what the body
    did to the world before it threw stays done. *)
Definition try_catch (h : Handler Reply) (handler : Error → Reply) (w : World) : World * Reply :=
  match h w with
  | (w', Value r) => (w', r)
  | (w', Respond r) => (w', r)
  | (w', Throw e) => (w', handler e)
  end.

(** [Promise.all(xs.map(f))]: every call is made, one rejection rejects
    the whole. *)
Fixpoint all {A B} (f : A → option B) (xs : list A) : option (list B) :=
  match xs with
  | [] => Some []
  | x :: rest =>
      match f x, all f rest with
      | Some y, Some ys => Some (y :: ys)
      | _, _ => None
      end
  end.

Definition await {A} (p : option A) (e : Error) : Handler A :=
  match p with
  | Some a => ret a
  | None => throw e
  end.

(** [new Types.ObjectId()]: an id that no document and no earlier call
    has. *)
Definition newObjectId : Handler ObjectId :=
  λ w, let i := fresh (usedIds w) in (set_issued ({[i]} ∪ issued w) w, Value i).

(** ** Mongoose models over the world *)

Record Model (A : Type) := {
  collection : World → gmap string A;
  store : gmap string A → World → World
}.
Arguments collection {A} _ _.
Arguments store {A} _ _ _.

Definition UserModel : Model User.t :=
  {| collection := users; store := set_users |}.
Definition PermissionModel : Model Permission.t :=
  {| collection := permissions; store := set_permissions |}.
Definition LostItemModel : Model LostItem.t :=
  {| collection := lostItems; store := set_lostItems |}.
Definition DeliveredItemModel : Model DeliveredItem.t :=
  {| collection := deliveredItems; store := set_deliveredItems |}.

(** [Model.findById(id)]. *)
Definition findById {A} (M : Model A) (id : ObjectId) : Handler (option A) :=
  λ w, (w, Value (collection M w !! id)).

(** [Model.find(filter)], in the collection's natural order. *)
Definition find {A} (M : Model A) (filter : Doc A → bool) : Handler (list (Doc A)) :=
  λ w, (w, Value (List.filter filter (map_to_list (collection M w)))).

(** [Model.findOne(filter)]. *)
Definition findOne {A} (M : Model A) (filter : Doc A → bool) : Handler (option (Doc A)) :=
  λ w, (w, Value (head (List.filter filter (map_to_list (collection M w))))).

(** Writing the document [id]: [doc.save()] once validation has passed. *)
Definition write {A} (M : Model A) (id : ObjectId) (d : A) : Handler unit :=
  λ w, (store M (<[id := d]> (collection M w)) w, Value tt).

(** [Model.findByIdAndDelete(id)] and [doc.deleteOne()]. *)
Definition deleteOne {A} (M : Model A) (id : ObjectId) : Handler unit :=
  λ w, (store M (delete id (collection M w)) w, Value tt).

(** [populate(path, 'firstName lastName employeeNumber')] on one
    reference: the referenced user, or nothing when there is none. *)
Definition populate (w : World) (ref : option ObjectId) : Ref :=
  match ref with
  | None => RefMissing
  | Some id =>
      match users w !! id with
      | Some u =>
          RefDoc {| UserInfo._id := id;
                    UserInfo.firstName := User.firstName u;
                    UserInfo.lastName := User.lastName u;
                    UserInfo.employeeNumber := User.employeeNumber u |}
      | None => RefMissing
      end
  end.

Definition populated (ref : option ObjectId) : Handler Ref :=
  λ w, (w, Value (populate w ref)).

(** What a constructor keeps of a populated path that it is handed
    ([new Model({ foundBy: item.foundBy })]): the id of the user
    document, nothing for [null]. *)
Definition refId (ref : Ref) : option ObjectId :=
  match ref with
  | RefMissing => None
  | RefBare id => Some id
  | RefDoc u => Some (UserInfo._id u)
  end.

(** ** Calls to the image host *)

Definition logCalls (cs : list HostCall) : Handler unit :=
  λ w, (set_hostCalls (hostCalls w ++ cs) w, Value tt).

(** [Promise.all(files.map(file => cloudinaryService.uploadFile(..)))]. *)
Definition uploadFiles (env : Env) (files : list UploadedFile)
    (folder flightNumber : string) : Handler (list ImageInfo) :=
  let* _ := logCalls ((λ f, Upload f folder flightNumber) <$> files) in
  await (all (λ f, uploadFile env f folder flightNumber) files) UploadRejected.

(** [if (files && files.length > 0) { ... uploadFile ... }]: the uploaded
    images, none when the request has no file. *)
Definition uploadIfAny (env : Env) (files : list UploadedFile)
    (folder flightNumber : string) : Handler (list ImageInfo) :=
  match files with
  | [] => ret []
  | _ :: _ => uploadFiles env files folder flightNumber
  end.

(** The [publicId]s for which [image.publicId ? deleteFile(..) : ..]
    makes a call. *)
Definition hostedIds (images : list ImageInfo) : list string :=
  List.filter truthy (publicId <$> images).

(** Deleting the images, every rejection caught and logged. *)
Definition deleteImagesQuietly (images : list ImageInfo) : Handler unit :=
  logCalls (Delete <$> hostedIds images).

(** ** Middleware ([middleware/auth]) *)

(** A middleware either calls [next()] or sends the reply itself. *)
Inductive Step (A : Type) :=
  | Next (a : A)
  | Done (r : Reply).
Arguments Next {A} a.
Arguments Done {A} r.

(** [req.header('Authorization')?.replace('Bearer ', '')]. *)
Definition bearerToken (authorization : option string) : option string :=
  replace "Bearer " "" <$> authorization.

(** [User.findById(decoded.id)]; without an id the query finds nothing. *)
Definition findUser (w : World) (id : option ObjectId) : option User.t :=
  match id with
  | Some id => users w !! id
  | None => None
  end.

(** The identity that [auth] stores in [req.user]. *)
Definition identity (id : ObjectId) (user : User.t) : AuthUser.t :=
  {| AuthUser._id := id;
     AuthUser.employeeNumber := User.employeeNumber user;
     AuthUser.firstName := User.firstName user;
     AuthUser.lastName := User.lastName user;
     AuthUser.role := User.role user;
     AuthUser.permissions := User.permissions user;
     AuthUser.createdAt := User.createdAt user;
     AuthUser.updatedAt := User.updatedAt user |}.

(** [auth]: the world is read, never written. *)
Definition auth (env : Env) (authorization : option string) (w : World) : Step AuthUser.t :=
  match bearerToken authorization with
  | None =>
      Done (status_json 401
              (Coded "No authentication token, authorization denied" "NO_TOKEN"))
  | Some token =>
      if negb (truthy token) then
        Done (status_json 401
                (Coded "No authentication token, authorization denied" "NO_TOKEN"))
      else
        match jwt_verify env token with
        | JwtThrows _ =>
            Done (status_json 401 (Coded "Token is not valid" "INVALID_TOKEN"))
        | JwtDecoded id =>
            match id, findUser w id with
            | Some id, Some user => Next (identity id user)
            | _, _ => Done (status_json 401 (Coded "User not found" "USER_NOT_FOUND"))
            end
        end
  end.

(** [createAuthenticatedHandler(handler)]: a request without [req.user]
    is answered 401; the handlers below catch what they throw. *)
Definition createAuthenticatedHandler (handler : AuthUser.t → World → World * Reply)
    (user : option AuthUser.t) (w : World) : World * Reply :=
  match user with
  | None => (w, status_json 401 (Coded "Unauthorized" "UNAUTHORIZED"))
  | Some user => handler user w
  end.

(** [checkRole(allowedRoles)]. *)
Definition checkRole (allowedRoles : list string) (user : option AuthUser.t) : Step unit :=
  match user with
  | None => Done (status_json 401 (Coded "Unauthorized" "UNAUTHORIZED"))
  | Some user =>
      if bool_decide (AuthUser.role user ∈ allowedRoles) then Next tt
      else Done (status_json 403 (Coded "Access denied" "ACCESS_DENIED"))
  end.

(** A route [router.verb(path, auth, handler)]. *)
Definition authenticated (env : Env) (authorization : option string)
    (handler : option AuthUser.t → World → World * Reply) (w : World) : World * Reply :=
  match auth env authorization w with
  | Done r => (w, r)
  | Next user => handler (Some user) w
  end.

(** A route [router.verb(path, auth, checkRole(roles), handler)]. *)
Definition authorized (env : Env) (authorization : option string) (roles : list string)
    (handler : option AuthUser.t → World → World * Reply) (w : World) : World * Reply :=
  match auth env authorization w with
  | Done r => (w, r)
  | Next user =>
      match checkRole roles (Some user) with
      | Done r => (w, r)
      | Next _ => handler (Some user) w
      end
  end.

(** ** Schema validation on [save] *)

(** [required: true] on a String path. *)
Definition required (path value : string) : option Error :=
  if truthy value then None else Some (ValidationError path).

Definition required_opt (path : string) (value : option string) : option Error :=
  if truthy_opt value then None else Some (ValidationError path).

Definition required_date (path : string) (value : option Date) : option Error :=
  match value with
  | Some _ => None
  | None => Some (ValidationError path)
  end.

Definition first_error (checks : list (option Error)) : option Error :=
  head (omap id checks).

(** The paths both LostItem schemas require. *)
Definition LostItem_required (item : LostItem.t) : list (option Error) :=
  [ required "itemName" (LostItem.itemName item);
    required "description" (LostItem.description item);
    required "location" (LostItem.location item);
    required "category" (LostItem.category item);
    required "foundBy" (LostItem.foundBy item);
    required "supervisor" (LostItem.supervisor item);
    required "flightNumber" (LostItem.flightNumber item);
    required_date "dateFound" (LostItem.dateFound item) ].

(** The validators of a LostItem schema: the required paths and the
    status enumeration. *)
Definition LostItem_validate (schema : LostItem.SchemaOptions) (item : LostItem.t) : option Error :=
  first_error
    (LostItem_required item ++
     [ if bool_decide (LostItem.status item ∈ LostItem.statusEnum schema) then None
       else Some (ValidationError "status") ]).

(** The paths both DeliveredItem schemas require. *)
Definition DeliveredItem_required (item : DeliveredItem.t) : list (option Error) :=
  [ required "itemName" (DeliveredItem.itemName item);
    required "description" (DeliveredItem.description item);
    required "location" (DeliveredItem.location item);
    required "category" (DeliveredItem.category item);
    required "foundBy" (DeliveredItem.foundBy item);
    required "flightNumber" (DeliveredItem.flightNumber item);
    required_date "dateFound" (DeliveredItem.dateFound item);
    required "customerInfo.name" (DeliveredItem.name (DeliveredItem.customerInfo item));
    required "customerInfo.email" (DeliveredItem.email (DeliveredItem.customerInfo item));
    required "customerInfo.phone" (DeliveredItem.phone (DeliveredItem.customerInfo item)) ].

(** The DeliveredItem schema with identification and signature. *)
Definition DeliveredItem_validate (item : DeliveredItem.t) : option Error :=
  first_error
    (DeliveredItem_required item ++
     [ required_opt "customerInfo.identification"
         (DeliveredItem.identification (DeliveredItem.customerInfo item));
       required_opt "customerInfo.signature"
         (DeliveredItem.signature (DeliveredItem.customerInfo item)) ]).

(** The DeliveredItem schema with a delivery date in the customer block. *)
Definition DeliveredItem_validate_basic (item : DeliveredItem.t) : option Error :=
  first_error (DeliveredItem_required item).

(** [doc.save()]: validate, then write. *)
Definition save {A} (M : Model A) (validate : A → option Error) (id : ObjectId) (d : A) : Handler unit :=
  match validate d with
  | Some e => throw e
  | None => write M id d
  end.

(** [doc.save()] on a document that a query returned: the validators
    run on it; when no path was modified nothing is written and no time
    stamp moves, otherwise the document is written with [updatedAt]
    stamped ([timestamps: true]). *)
Definition saveFound {A} (M : Model A) (validate : A → option Error) (stamp : A → A)
    (id : ObjectId) (modified : bool) (d : A) : Handler unit :=
  match validate d with
  | Some e => throw e
  | None => if modified then write M id (stamp d) else ret tt
  end.

(** ** Writing the paths of a LostItem *)

Definition LostItem_set_status (v : string) (i : LostItem.t) : LostItem.t :=
  {| LostItem.itemName := LostItem.itemName i; LostItem.description := LostItem.description i;
     LostItem.location := LostItem.location i; LostItem.category := LostItem.category i;
     LostItem.status := v; LostItem.images := LostItem.images i;
     LostItem.foundBy := LostItem.foundBy i; LostItem.supervisor := LostItem.supervisor i;
     LostItem.customerInfo := LostItem.customerInfo i;
     LostItem.deliveredBy := LostItem.deliveredBy i;
     LostItem.deliveredAt := LostItem.deliveredAt i;
     LostItem.flightNumber := LostItem.flightNumber i;
     LostItem.dateFound := LostItem.dateFound i;
     LostItem.createdAt := LostItem.createdAt i; LostItem.updatedAt := LostItem.updatedAt i |}.

Definition LostItem_set_dateFound (v : option Date) (i : LostItem.t) : LostItem.t :=
  {| LostItem.itemName := LostItem.itemName i; LostItem.description := LostItem.description i;
     LostItem.location := LostItem.location i; LostItem.category := LostItem.category i;
     LostItem.status := LostItem.status i; LostItem.images := LostItem.images i;
     LostItem.foundBy := LostItem.foundBy i; LostItem.supervisor := LostItem.supervisor i;
     LostItem.customerInfo := LostItem.customerInfo i;
     LostItem.deliveredBy := LostItem.deliveredBy i;
     LostItem.deliveredAt := LostItem.deliveredAt i;
     LostItem.flightNumber := LostItem.flightNumber i;
     LostItem.dateFound := v;
     LostItem.createdAt := LostItem.createdAt i; LostItem.updatedAt := LostItem.updatedAt i |}.

Definition LostItem_set_images (v : list ImageInfo) (i : LostItem.t) : LostItem.t :=
  {| LostItem.itemName := LostItem.itemName i; LostItem.description := LostItem.description i;
     LostItem.location := LostItem.location i; LostItem.category := LostItem.category i;
     LostItem.status := LostItem.status i; LostItem.images := v;
     LostItem.foundBy := LostItem.foundBy i; LostItem.supervisor := LostItem.supervisor i;
     LostItem.customerInfo := LostItem.customerInfo i;
     LostItem.deliveredBy := LostItem.deliveredBy i;
     LostItem.deliveredAt := LostItem.deliveredAt i;
     LostItem.flightNumber := LostItem.flightNumber i;
     LostItem.dateFound := LostItem.dateFound i;
     LostItem.createdAt := LostItem.createdAt i; LostItem.updatedAt := LostItem.updatedAt i |}.

(** The [timestamps: true] option: every write stamps [updatedAt]. *)
Definition LostItem_touch (at_ : Date) (i : LostItem.t) : LostItem.t :=
  {| LostItem.itemName := LostItem.itemName i; LostItem.description := LostItem.description i;
     LostItem.location := LostItem.location i; LostItem.category := LostItem.category i;
     LostItem.status := LostItem.status i; LostItem.images := LostItem.images i;
     LostItem.foundBy := LostItem.foundBy i; LostItem.supervisor := LostItem.supervisor i;
     LostItem.customerInfo := LostItem.customerInfo i;
     LostItem.deliveredBy := LostItem.deliveredBy i;
     LostItem.deliveredAt := LostItem.deliveredAt i;
     LostItem.flightNumber := LostItem.flightNumber i;
     LostItem.dateFound := LostItem.dateFound i;
     LostItem.createdAt := LostItem.createdAt i; LostItem.updatedAt := at_ |}.

(** [{ status: 'delivered', deliveredBy, deliveredAt }] written on a
    stored item. *)
Definition LostItem_set_delivery (status : string) (by_ : ObjectId) (at_ : Date)
    (i : LostItem.t) : LostItem.t :=
  {| LostItem.itemName := LostItem.itemName i; LostItem.description := LostItem.description i;
     LostItem.location := LostItem.location i; LostItem.category := LostItem.category i;
     LostItem.status := status; LostItem.images := LostItem.images i;
     LostItem.foundBy := LostItem.foundBy i; LostItem.supervisor := LostItem.supervisor i;
     LostItem.customerInfo := LostItem.customerInfo i;
     LostItem.deliveredBy := Some by_;
     LostItem.deliveredAt := Some at_;
     LostItem.flightNumber := LostItem.flightNumber i;
     LostItem.dateFound := LostItem.dateFound i;
     LostItem.createdAt := LostItem.createdAt i; LostItem.updatedAt := LostItem.updatedAt i |}.

(** A member of an update object written on a text path: present, it
    replaces the stored text. *)
Definition assigned (updates : gmap string string) (path : string) (old : string) : string :=
  default old (updates !! path).

Definition assigned_opt (updates : gmap string string) (path : string)
    (old : option string) : option string :=
  match updates !! path with
  | Some v => Some v
  | None => old
  end.

(** [Object.assign(item, updates)] and [{ $set: updates }] on the text
    paths of the schema; a member that names no path of the schema is
    dropped. *)
Definition LostItem_assign (updates : gmap string string) (i : LostItem.t) : LostItem.t :=
  {| LostItem.itemName := assigned updates "itemName" (LostItem.itemName i);
     LostItem.description := assigned updates "description" (LostItem.description i);
     LostItem.location := assigned updates "location" (LostItem.location i);
     LostItem.category := assigned updates "category" (LostItem.category i);
     LostItem.status := assigned updates "status" (LostItem.status i);
     LostItem.images := LostItem.images i;
     LostItem.foundBy := assigned updates "foundBy" (LostItem.foundBy i);
     LostItem.supervisor := assigned updates "supervisor" (LostItem.supervisor i);
     LostItem.customerInfo := LostItem.customerInfo i;
     LostItem.deliveredBy := assigned_opt updates "deliveredBy" (LostItem.deliveredBy i);
     LostItem.deliveredAt := LostItem.deliveredAt i;
     LostItem.flightNumber := assigned updates "flightNumber" (LostItem.flightNumber i);
     LostItem.dateFound := LostItem.dateFound i;
     LostItem.createdAt := LostItem.createdAt i; LostItem.updatedAt := LostItem.updatedAt i |}.

(** A member of the update object is written on one of the reference
    paths.  Those paths of a found document hold what the hook
    populated, so that any id written on them is another value. *)
Definition refAssigned (updates : gmap string string) : bool :=
  bool_decide (is_Some (updates !! "foundBy"))
  || bool_decide (is_Some (updates !! "supervisor"))
  || bool_decide (is_Some (updates !! "deliveredBy")).

(** The reference paths of a LostItem that [findById] returns, as the
    [pre('findOne')] hook populated them. *)
Definition LostItem_populated (item : LostItem.t) : Handler (list (string * Ref)) :=
  let* foundBy := populated (Some (LostItem.foundBy item)) in
  let* supervisor := populated (Some (LostItem.supervisor item)) in
  let* deliveredBy := populated (LostItem.deliveredBy item) in
  ret [("foundBy", foundBy); ("supervisor", supervisor); ("deliveredBy", deliveredBy)].

(** The guard of the write routes:
    [req.user.role !== 'admin' && req.user.role !== 'supervisor' &&
     item.foundBy.toString() !== req.user._id.toString()],
    on the [foundBy] of a found document.  For an admin and for a
    supervisor the third operand is not evaluated.  Otherwise
    [item.foundBy] is what the hook populated: a user document, whose
    [toString()] is the printed document and never the text of an id,
    or [null], on which [toString] throws. *)
Definition notAuthorized (user : AuthUser.t) (foundBy : Ref) : Handler bool :=
  if String.eqb (AuthUser.role user) "admin"
     || String.eqb (AuthUser.role user) "supervisor"
  then ret false
  else
    match foundBy with
    | RefMissing => throw TypeError
    | RefBare id => ret (negb (String.eqb id (AuthUser._id user)))
    | RefDoc _ => ret true
    end.

(** ** The lost-items router with inline [isAuthenticated] guards
    (first router of [src/unnamed/part_001]) *)

Module LostItemsRouter.

(** [dateFound ? new Date(dateFound) : item.dateFound]; an invalid
    date fails the cast when the item is saved. *)
Definition dateFoundUpdate (env : Env) (dateFound : option string)
    (item : LostItem.t) : Handler (option Date) :=
  match dateFound with
  | Some text =>
      if truthy text then
        match parseDate env text with
        | Some d => ret (Some d)
        | None => throw (CastError "dateFound")
        end
      else ret (LostItem.dateFound item)
  | None => ret (LostItem.dateFound item)
  end.

(** [...(status && { status: normalizeStatus(status) })]; a value that
    is not a text fails the cast when the item is saved. *)
Definition statusUpdate (status : option string) (item : LostItem.t) : Handler LostItem.t :=
  match status with
  | Some text =>
      if truthy text then
        match normalizeStatus text with
        | StatusText s => ret (LostItem_set_status s item)
        | PrototypeMember _ => throw (CastError "status")
        end
      else ret item
  | None => ret item
  end.

(** [PUT /:id].  [Object.assign(item, updates)] modifies the found
    document where it writes another value: on a text or date path a
    value that differs from the stored one, on a reference path any
    value, on [images] the list of the uploads. *)
Definition put_id (env : Env) (schema : LostItem.SchemaOptions)
    (id : ObjectId) (body : gmap string string) (files : list UploadedFile)
    (user : option AuthUser.t) : World → World * Reply :=
  try_catch
    (match user with
     | None => respond (status_json 401 (Message "User not authenticated"))
     | Some user =>
         let* found := findById LostItemModel id in
         match found with
         | None => respond (status_json 404 (Message "Item not found"))
         | Some item =>
             let* foundBy := populated (Some (LostItem.foundBy item)) in
             let* refused := notAuthorized user foundBy in
             if refused then
               respond (status_json 403 (Message "Not authorized to update this item"))
             else
               let status := body !! "status" in
               let dateFound := body !! "dateFound" in
               let otherUpdates := delete "status" (delete "dateFound" body) in
               let* images :=
                 match files with
                 | [] => ret (LostItem.images item)
                 | _ :: _ =>
                     let* _ := logCalls (Delete <$> hostedIds (LostItem.images item)) in
                     let* _ := logCalls ((λ f, Upload f "lost" (LostItem.flightNumber item)) <$> files) in
                     if forallb (deleteFile env) (hostedIds (LostItem.images item)) then
                       await (all (λ f, uploadFile env f "lost" (LostItem.flightNumber item)) files)
                             UploadRejected
                     else throw DeleteRejected
                 end in
               let* date := dateFoundUpdate env dateFound item in
               let* updated :=
                 statusUpdate status
                   (LostItem_set_images images
                      (LostItem_set_dateFound date (LostItem_assign otherUpdates item))) in
               let modified :=
                 bool_decide (files ≠ []) || refAssigned otherUpdates
                 || bool_decide (updated ≠ item) in
               let* _ := saveFound LostItemModel (LostItem_validate schema)
                           (LostItem_touch (now env)) id modified updated in
               let* stored := findById LostItemModel id in
               match stored with
               | None => ret (json Null)
               | Some stored =>
                   let* refs := LostItem_populated stored in
                   ret (json (LostItemBody (id, stored) refs))
               end
         end
     end)
    (λ _, status_json 500 (Message "Error updating item")).

(** [DELETE /:id].  The reply is the first one sent: after a 404 or a
    403 the promise chain goes on to its [catch], whose second reply
    the response no longer takes. *)
Definition delete_id (env : Env) (id : ObjectId) (user : option AuthUser.t)
    : World → World * Reply :=
  try_catch
    (match user with
     | None => respond (status_json 401 (Message "User not authenticated"))
     | Some user =>
         let* found := findById LostItemModel id in
         match found with
         | None => respond (status_json 404 (Message "Item not found"))
         | Some item =>
             let* foundBy := populated (Some (LostItem.foundBy item)) in
             let* refused := notAuthorized user foundBy in
             if refused then
               respond (status_json 403 (Message "Not authorized to delete this item"))
             else
               let* _ := deleteImagesQuietly (LostItem.images item) in
               let* _ := deleteOne LostItemModel id in
               ret (json (Message "Item deleted successfully"))
         end
     end)
    (λ _, status_json 500 (Message "Error deleting item")).

End LostItemsRouter.

(** ** The lost-items router with the deliver route
    (second router of [src/unnamed/part_001]) *)

(** [for (const x of xs) { await f(x) }] and [xs.map(f)] for an [f] that
    acts on the world. *)
Fixpoint forEach {A B} (f : A → Handler B) (xs : list A) : Handler (list B) :=
  match xs with
  | [] => ret []
  | x :: rest =>
      let* y := f x in
      let* ys := forEach f rest in
      ret (y :: ys)
  end.

(** The placeholder of the cleaned lists:
    [{ _id: new Types.ObjectId(), firstName: 'Unknown', lastName: 'User',
       employeeNumber: 'N/A' }]. *)
Definition createPlaceholderUser : Handler UserInfo.t :=
  let* id := newObjectId in
  ret {| UserInfo._id := id;
         UserInfo.firstName := "Unknown";
         UserInfo.lastName := "User";
         UserInfo.employeeNumber := "N/A" |}.

(** [if (!ref || typeof ref === 'string') ref = placeholder]. *)
Definition cleanRef (ref : Ref) : Handler UserInfo.t :=
  match ref with
  | RefMissing => createPlaceholderUser
  | RefBare _ => createPlaceholderUser
  | RefDoc u => ret u
  end.

(** The parsed [req.body.customerInfo] of a deliver request. *)
Module ReceiverInfo.
Record t := {
  receiverName : option string;
  receiverEmail : option string;
  receiverPhone : option string;
  receiverIdentification : option string;
  notes : option string
}.
End ReceiverInfo.

Module DeliverRequest.
Record t := {
  (** [JSON.parse(req.body.customerInfo)]; [None] when it throws. *)
  customerInfo : option ReceiverInfo.t;
  signature : option string;
  files : list UploadedFile
}.
End DeliverRequest.

(** [a || b] on two texts. *)
Definition or_else (a b : string) : string := if truthy a then a else b.

Module LostItemRoutes.

(** The cast of [updates.dateFound] by [$set]: a truthy text goes
    through [new Date(..)], an empty text is cast to no date; an absent
    member ([None]) leaves the path alone. *)
Definition dateFoundUpdate (env : Env) (updates : gmap string string)
    : Handler (option (option Date)) :=
  match updates !! "dateFound" with
  | Some text =>
      if truthy text then
        match parseDate env text with
        | Some d => ret (Some (Some d))
        | None => throw (CastError "dateFound")
        end
      else ret (Some None)
  | None => ret None
  end.

(** The cast of a member of [$set] on a reference path: an id is kept,
    a text that is no id fails the cast. *)
Definition refUpdate (updates : gmap string string) (path : string) : Handler unit :=
  match updates !! path with
  | Some text => if truthy text then ret tt else throw (CastError path)
  | None => ret tt
  end.

(** [LostItem.findByIdAndUpdate(id, { $set: updates }, { new: true })]:
    the update is cast to the schema before the store is asked, and a
    failed cast refuses the whole update; no validator runs, and the
    update stamps [updatedAt]. *)
Definition findByIdAndUpdate (env : Env) (id : ObjectId) (updates : gmap string string)
    : Handler (option LostItem.t) :=
  let* date := dateFoundUpdate env updates in
  let* _ := refUpdate updates "foundBy" in
  let* _ := refUpdate updates "supervisor" in
  let* _ := refUpdate updates "deliveredBy" in
  let* found := findById LostItemModel id in
  match found with
  | None => ret None
  | Some item =>
      let updated :=
        LostItem_touch (now env)
          (LostItem_set_dateFound (default (LostItem.dateFound item) date)
             (LostItem_assign updates item)) in
      let* _ := write LostItemModel id updated in
      ret (Some updated)
  end.

(** [PUT /:id]. *)
Definition put_id (env : Env) (id : ObjectId) (body : gmap string string)
    (user : AuthUser.t) : World → World * Reply :=
  try_catch
    (let* found := findById LostItemModel id in
     match found with
     | None => respond (status_json 404 (Message "Item not found"))
     | Some _ =>
         let* updatedItem := findByIdAndUpdate env id body in
         match updatedItem with
         | None => respond (status_json 404 (Message "Item not found after update"))
         | Some item =>
             let* foundBy := populated (Some (LostItem.foundBy item)) in
             let* supervisor := populated (Some (LostItem.supervisor item)) in
             ret (json (LostItemBody (id, item)
                          [("foundBy", foundBy); ("supervisor", supervisor)]))
         end
     end)
    (λ _, status_json 500 (Message "Error updating item")).

(** [DELETE /:id]. *)
Definition delete_id (env : Env) (id : ObjectId) (user : AuthUser.t)
    : World → World * Reply :=
  try_catch
    (let* found := findById LostItemModel id in
     match found with
     | None => respond (status_json 404 (Message "Item not found"))
     | Some item =>
         let* _ := deleteImagesQuietly (LostItem.images item) in
         let* _ := deleteOne LostItemModel id in
         ret (json (Message "Item deleted successfully"))
     end)
    (λ _, status_json 500 (Message "Error deleting item")).

(** [POST /:id/images]. *)
Definition post_id_images (env : Env) (schema : LostItem.SchemaOptions)
    (id : ObjectId) (files : list UploadedFile) (user : AuthUser.t)
    : World → World * Reply :=
  try_catch
    (let* found := findById LostItemModel id in
     match found with
     | None => respond (status_json 404 (Message "Item not found"))
     | Some item =>
         let* foundBy := populated (Some (LostItem.foundBy item)) in
         let* refused := notAuthorized user foundBy in
         if refused then
           respond (status_json 403 (Message "Not authorized to update this item"))
         else
           match files with
           | [] => respond (status_json 400 (Message "No images provided"))
           | _ :: _ =>
               let* uploadedImages :=
                 uploadFiles env files "lost" (LostItem.flightNumber item) in
               let* _ :=
                 save LostItemModel (LostItem_validate schema) id
                   (LostItem_touch (now env)
                      (LostItem_set_images (LostItem.images item ++ uploadedImages) item)) in
               let* stored := findById LostItemModel id in
               match stored with
               | None => ret (json Null)
               | Some stored =>
                   let* refs := LostItem_populated stored in
                   ret (json (LostItemBody (id, stored) refs))
               end
           end
     end)
    (λ _, status_json 500 (Message "Error uploading images")).

(** One entry of [cleanedItems]. *)
Definition clean (item : Doc LostItem.t) : Handler CleanedLostItem.t :=
  let* foundBy0 := populated (Some (LostItem.foundBy (fields item))) in
  let* supervisor0 := populated (Some (LostItem.supervisor (fields item))) in
  let* deliveredBy0 := populated (LostItem.deliveredBy (fields item)) in
  let* foundBy := cleanRef foundBy0 in
  let* supervisor := cleanRef supervisor0 in
  let* deliveredBy := cleanRef deliveredBy0 in
  ret {| CleanedLostItem.item := item;
         CleanedLostItem.foundBy := foundBy;
         CleanedLostItem.supervisor := supervisor;
         CleanedLostItem.deliveredBy := deliveredBy |}.

(** [.sort({ createdAt: -1 })]. *)
Definition newestFirst (a b : Doc LostItem.t) : Prop :=
  (LostItem.createdAt (fields b) ≤ LostItem.createdAt (fields a))%Z.

#[global] Instance newestFirst_dec a b : Decision (newestFirst a b) :=
  Z_le_dec _ _.

(** [GET /]. *)
Definition get_all (user : AuthUser.t) : World → World * Reply :=
  try_catch
    (let* items := find LostItemModel (λ _, true) in
     let* cleanedItems := forEach clean (merge_sort newestFirst items) in
     ret (json (LostItemsBody cleanedItems)))
    (λ e, status_json 500 (Failure "Error fetching items" e)).

(** [PUT /:id/deliver].  The [foundBy] handed to [new DeliveredItem] is
    that of the found item, as the hook populated it: the new document
    keeps the id of the user, and nothing when the user is not stored.
    The [supervisor] handed to it names no path of the DeliveredItem
    schema and is dropped. *)
Definition put_id_deliver (env : Env) (id : ObjectId) (req : DeliverRequest.t)
    (user : AuthUser.t) : World → World * Reply :=
  try_catch
    (let* found := findById LostItemModel id in
     match found with
     | None => respond (status_json 404 (Message "Item not found"))
     | Some item =>
         let* foundBy := populated (Some (LostItem.foundBy item)) in
         let* customerInfo := await (DeliverRequest.customerInfo req) SyntaxError in
         let signature := DeliverRequest.signature req in
         let files := DeliverRequest.files req in
         if negb (truthy_opt (ReceiverInfo.receiverName customerInfo))
            || negb (truthy_opt (ReceiverInfo.receiverEmail customerInfo))
            || negb (truthy_opt (ReceiverInfo.receiverPhone customerInfo))
            || negb (truthy_opt (ReceiverInfo.receiverIdentification customerInfo))
            || negb (truthy_opt signature)
         then respond (status_json 400 (Message "Missing required fields"))
         else
           let* deliveryPhotos :=
             uploadIfAny env files "delivered" (LostItem.flightNumber item) in
           let currentDate := now env in
           let* newId := newObjectId in
           let deliveredItem :=
             {| DeliveredItem.itemName :=
                  or_else (LostItem.itemName item) (LostItem.description item);
                DeliveredItem.flightNumber := LostItem.flightNumber item;
                DeliveredItem.dateFound := LostItem.dateFound item;
                DeliveredItem.location := LostItem.location item;
                DeliveredItem.description := LostItem.description item;
                DeliveredItem.category := LostItem.category item;
                DeliveredItem.foundBy := default "" (refId foundBy);
                DeliveredItem.images := LostItem.images item;
                DeliveredItem.customerInfo :=
                  {| DeliveredItem.name :=
                       default "" (ReceiverInfo.receiverName customerInfo);
                     DeliveredItem.email :=
                       default "" (ReceiverInfo.receiverEmail customerInfo);
                     DeliveredItem.phone :=
                       default "" (ReceiverInfo.receiverPhone customerInfo);
                     DeliveredItem.identification :=
                       ReceiverInfo.receiverIdentification customerInfo;
                     DeliveredItem.signature := signature;
                     DeliveredItem.deliveryDate := None |};
                DeliveredItem.deliveryNotes := ReceiverInfo.notes customerInfo;
                DeliveredItem.deliveryPhotos := deliveryPhotos;
                DeliveredItem.deliveredBy := Some (AuthUser._id user);
                DeliveredItem.dateDelivered := currentDate;
                DeliveredItem.archived := false;
                DeliveredItem.createdAt := now env;
                DeliveredItem.updatedAt := now env |} in
           let* _ := save DeliveredItemModel DeliveredItem_validate newId deliveredItem in
           let* _ := deleteOne LostItemModel id in
           ret (json (DeliveredItemBody (newId, deliveredItem)))
     end)
    (λ e, status_json 500 (Failure "Error delivering item" e)).

(** The routes: [auth], then the handler wrapped by
    [createAuthenticatedHandler]. *)
Definition update (env : Env) (authorization : option string) (id : ObjectId)
    (body : gmap string string) : World → World * Reply :=
  authenticated env authorization (createAuthenticatedHandler (put_id env id body)).

Definition remove (env : Env) (authorization : option string) (id : ObjectId)
    : World → World * Reply :=
  authenticated env authorization (createAuthenticatedHandler (delete_id env id)).

Definition deliver (env : Env) (authorization : option string) (id : ObjectId)
    (req : DeliverRequest.t) : World → World * Reply :=
  authenticated env authorization (createAuthenticatedHandler (put_id_deliver env id req)).

End LostItemRoutes.

(** ** The delivered-items router ([src/unnamed/part_000]) *)

Module SearchQuery.
Record t := {
  searchTerm : option string;
  includeArchived : option string
}.
End SearchQuery.

Module DeliveredItemsRouter.

(** The filter of [GET /search]. *)
Definition searchFilter (env : Env) (query : SearchQuery.t) (user : AuthUser.t)
    (d : Doc DeliveredItem.t) : bool :=
  let item := fields d in
  let matches := regexTest env (default "" (SearchQuery.searchTerm query)) in
  (if negb (String.eqb (AuthUser.role user) "admin")
      && negb (String.eqb (AuthUser.role user) "supervisor")
   then String.eqb (DeliveredItem.foundBy item) (AuthUser._id user)
   else true)
  && (if truthy_opt (SearchQuery.searchTerm query)
      then matches (DeliveredItem.flightNumber item)
           || matches (DeliveredItem.description item)
           || matches (DeliveredItem.name (DeliveredItem.customerInfo item))
           || matches (DeliveredItem.email (DeliveredItem.customerInfo item))
           || matches (DeliveredItem.phone (DeliveredItem.customerInfo item))
      else true)
  && (if bool_decide (SearchQuery.includeArchived query = Some "true")
      then true
      else negb (DeliveredItem.archived item)).

(** One entry of [cleanedItems]. *)
Definition clean (item : Doc DeliveredItem.t) : Handler CleanedDeliveredItem.t :=
  let* foundBy0 := populated (Some (DeliveredItem.foundBy (fields item))) in
  let* deliveredBy0 := populated (DeliveredItem.deliveredBy (fields item)) in
  let* foundBy := cleanRef foundBy0 in
  let* deliveredBy := cleanRef deliveredBy0 in
  ret {| CleanedDeliveredItem.item := item;
         CleanedDeliveredItem.foundBy := foundBy;
         CleanedDeliveredItem.deliveredBy := deliveredBy |}.

(** [.sort({ dateDelivered: -1 })]. *)
Definition latestFirst (a b : Doc DeliveredItem.t) : Prop :=
  (DeliveredItem.dateDelivered (fields b) ≤ DeliveredItem.dateDelivered (fields a))%Z.

#[global] Instance latestFirst_dec a b : Decision (latestFirst a b) :=
  Z_le_dec _ _.

(** [GET /search]. *)
Definition get_search (env : Env) (query : SearchQuery.t) (user : AuthUser.t)
    : World → World * Reply :=
  try_catch
    (let* items := find DeliveredItemModel (searchFilter env query user) in
     let* cleanedItems := forEach clean (merge_sort latestFirst items) in
     ret (json (DeliveredItemsBody cleanedItems)))
    (λ e, status_json 500 (Failure "Error searching delivered items" e)).

(** [POST /:id/revert], behind [checkRole(['admin'])].  The [foundBy]
    handed to [new LostItem] is that of the found delivered item, as
    the hook populated it. *)
Definition post_id_revert (env : Env) (schema : LostItem.SchemaOptions)
    (id : ObjectId) (user : AuthUser.t) : World → World * Reply :=
  try_catch
    (let* found := findById DeliveredItemModel id in
     match found with
     | None => respond (status_json 404 (Message "Delivered item not found"))
     | Some deliveredItem =>
         let* foundBy := populated (Some (DeliveredItem.foundBy deliveredItem)) in
         let* newId := newObjectId in
         let lostItem :=
           {| LostItem.itemName := DeliveredItem.itemName deliveredItem;
              LostItem.flightNumber := DeliveredItem.flightNumber deliveredItem;
              LostItem.description := DeliveredItem.description deliveredItem;
              LostItem.location := DeliveredItem.location deliveredItem;
              LostItem.category := DeliveredItem.category deliveredItem;
              LostItem.images := DeliveredItem.images deliveredItem;
              LostItem.foundBy := default "" (refId foundBy);
              LostItem.supervisor := AuthUser._id user;
              LostItem.dateFound := Some (DeliveredItem.dateDelivered deliveredItem);
              LostItem.status := LostItem.statusDefault schema;
              LostItem.customerInfo := None;
              LostItem.deliveredBy := None;
              LostItem.deliveredAt := None;
              LostItem.createdAt := now env;
              LostItem.updatedAt := now env |} in
         let* _ := save LostItemModel (LostItem_validate schema) newId lostItem in
         let* _ := deleteOne DeliveredItemModel id in
         ret (json (RevertedBody "Item reverted successfully" (newId, lostItem)))
     end)
    (λ _, status_json 500 (Message "Error reverting item")).

(** The route: [auth, checkRole(['admin']), handler]. *)
Definition revert (env : Env) (schema : LostItem.SchemaOptions)
    (authorization : option string) (id : ObjectId) : World → World * Reply :=
  authorized env authorization ["admin"]
    (createAuthenticatedHandler (post_id_revert env schema id)).

End DeliveredItemsRouter.

(** ** The delivered-items service ([src/unnamed/part_004]) *)

(** Modelled from the spec: the declaration of [DeliveryData] is not
    among the sources.  It carries the customer name, email and phone of
    a delivery, which are the members the service reads. *)
Module DeliveryData.
Record t := {
  customerName : string;
  customerEmail : string;
  customerPhone : string
}.
End DeliveryData.

Module DeliveredItemsService.

(** [createDeliveredItem(lostItem, customerInfo)], written against the
    DeliveredItem schema with a delivery date in the customer block. *)
Definition createDeliveredItem (env : Env) (lostItem : Doc LostItem.t)
    (customerInfo : LostItem.CustomerInfo) : Handler (Doc DeliveredItem.t) :=
  let* newId := newObjectId in
  let deliveredItem :=
    {| DeliveredItem.itemName := LostItem.itemName (fields lostItem);
       DeliveredItem.description := LostItem.description (fields lostItem);
       DeliveredItem.location := LostItem.location (fields lostItem);
       DeliveredItem.category := LostItem.category (fields lostItem);
       DeliveredItem.images := LostItem.images (fields lostItem);
       DeliveredItem.foundBy := LostItem.foundBy (fields lostItem);
       DeliveredItem.flightNumber := LostItem.flightNumber (fields lostItem);
       DeliveredItem.dateFound := LostItem.dateFound (fields lostItem);
       DeliveredItem.dateDelivered := now env;
       DeliveredItem.archived := false;
       DeliveredItem.customerInfo :=
         {| DeliveredItem.name := LostItem.name customerInfo;
            DeliveredItem.email := LostItem.email customerInfo;
            DeliveredItem.phone := LostItem.phone customerInfo;
            DeliveredItem.identification := None;
            DeliveredItem.signature := None;
            DeliveredItem.deliveryDate := Some (now env) |};
       DeliveredItem.deliveredBy := None;
       DeliveredItem.deliveryNotes := None;
       DeliveredItem.deliveryPhotos := [];
       DeliveredItem.createdAt := now env;
       DeliveredItem.updatedAt := now env |} in
  let* _ := save DeliveredItemModel DeliveredItem_validate_basic newId deliveredItem in
  ret (newId, deliveredItem).

(** [LostItemModel.findByIdAndUpdate(id, { status, deliveredBy,
    deliveredAt })]: the stored item, when there is one, is rewritten in
    place. *)
Definition findByIdAndUpdate (env : Env) (id : ObjectId) (status : string)
    (deliveredBy : ObjectId) (deliveredAt : Date) : Handler unit :=
  let* found := findById LostItemModel id in
  match found with
  | None => ret tt
  | Some stored =>
      write LostItemModel id
        (LostItem_touch (now env) (LostItem_set_delivery status deliveredBy deliveredAt stored))
  end.

(** [markAsDelivered(item, deliveryInfo, deliveredBy)]; a thrown error
    is the rejection of the returned promise. *)
Definition markAsDelivered (env : Env) (item : Doc LostItem.t)
    (deliveryInfo : DeliveryData.t) (deliveredBy : ObjectId)
    : Handler (Doc DeliveredItem.t) :=
  let* deliveredItem :=
    createDeliveredItem env item
      {| LostItem.name := DeliveryData.customerName deliveryInfo;
         LostItem.email := DeliveryData.customerEmail deliveryInfo;
         LostItem.phone := DeliveryData.customerPhone deliveryInfo;
         LostItem.deliveryDate := Some (now env) |} in
  let* _ := findByIdAndUpdate env (_id item) "delivered" deliveredBy (now env) in
  ret deliveredItem.

End DeliveredItemsService.

(** ** The permission routes ([routes/permission.routes.ts]) *)

Module PermissionRoutes.

(** An entry of the [users] list of the reply. *)
Definition summary (user : Doc User.t) : UserSummary.t :=
  {| UserSummary.id := _id user;
     UserSummary.name := User.firstName (fields user) +:+ " " +:+ User.lastName (fields user);
     UserSummary.employeeNumber := User.employeeNumber (fields user) |}.

(** [!adminUser?.role || adminUser.role !== 'admin']. *)
Definition notAdmin (adminUser : option User.t) : bool :=
  match adminUser with
  | None => true
  | Some u => negb (truthy (User.role u)) || negb (String.eqb (User.role u) "admin")
  end.

(** The filter [{ permissions: permission._id }]. *)
Definition holds (permission : ObjectId) (user : Doc User.t) : bool :=
  bool_decide (permission ∈ User.permissions (fields user)).

(** [DELETE /:id]. *)
Definition delete_id (id : ObjectId) (user : AuthUser.t) : World → World * Reply :=
  try_catch
    (let* adminUser := findById UserModel (AuthUser._id user) in
     if notAdmin adminUser then
       respond (status_json 403 (Message "Only admins can delete permissions"))
     else
       let* permission := findById PermissionModel id in
       match permission with
       | None =>
           respond (status_json 404 (Coded "Permission not found" "PERMISSION_NOT_FOUND"))
       | Some _ =>
           let* usersWithPermission := find UserModel (holds id) in
           if bool_decide (0 < length usersWithPermission) then
             respond (status_json 400
                        (PermissionInUse "Permission is in use and cannot be deleted"
                           "PERMISSION_IN_USE" (summary <$> usersWithPermission)))
           else
             let* _ := deleteOne PermissionModel id in
             ret (json (Message "Permission deleted successfully"))
       end)
    (λ _, status_json 500 (Message "Error deleting permission")).

End PermissionRoutes.

(** ** The auth routers ([src/unnamed/part_002]) *)

(** [User.create(input)] and [new User(input)] followed by [save()]: the
    id is drawn when the document is built, the schema then accepts or
    rejects it, the stored password is the hash. *)
Definition createUser (env : Env) (input : UserInput.t) : Handler (Doc User.t) :=
  let* newId := newObjectId in
  if userSchemaAccepts env input then
    let user :=
      {| User.employeeNumber := default "" (UserInput.employeeNumber input);
         User.password := hashPassword env (default "" (UserInput.password input));
         User.firstName := default "" (UserInput.firstName input);
         User.lastName := default "" (UserInput.lastName input);
         User.role := UserInput.role input;
         User.permissions := UserInput.permissions input;
         User.createdAt := now env;
         User.updatedAt := now env |} in
    let* _ := write UserModel newId user in
    ret (newId, user)
  else throw (ValidationError "User").

(** The filter [{ employeeNumber }]. *)
Definition hasEmployeeNumber (employeeNumber : option string) (user : Doc User.t) : bool :=
  match employeeNumber with
  | Some n => String.eqb (User.employeeNumber (fields user)) n
  | None => false
  end.

Module AuthRoutes.

Definition defaultPermissionNames : list string :=
  [ "view_items"; "view_dashboard"; "edit_items"; "view_reports" ].

(** [POST /register] of the first router.  The validation chains of the
    route are declared and their result is never read. *)
Definition post_register (env : Env) (body : gmap string string) : World → World * Reply :=
  try_catch
    (let employeeNumber := body !! "employeeNumber" in
     let password := body !! "password" in
     let firstName := body !! "firstName" in
     let lastName := body !! "lastName" in
     let* existingUser := findOne UserModel (hasEmployeeNumber employeeNumber) in
     match existingUser with
     | Some _ => respond (status_json 400 (Message "Employee number already exists"))
     | None =>
         let* defaultPermissions :=
           find PermissionModel
             (λ p, bool_decide (Permission.name (fields p) ∈ defaultPermissionNames)) in
         if bool_decide (length defaultPermissions = 0) then
           respond (status_json 500 (Message "Error setting up user permissions"))
         else
           let* user :=
             createUser env
               {| UserInput.employeeNumber := employeeNumber;
                  UserInput.password := password;
                  UserInput.firstName := firstName;
                  UserInput.lastName := lastName;
                  UserInput.role := "employee";
                  UserInput.permissions := _id <$> defaultPermissions |} in
           let token :=
             jwt_sign env
               (PayloadId (_id user) (User.employeeNumber (fields user))
                  (User.role (fields user))) in
           ret (status_json 201
                  (RegisteredBody token
                     {| UserView._id := _id user;
                        UserView.employeeNumber := User.employeeNumber (fields user);
                        UserView.firstName := User.firstName (fields user);
                        UserView.lastName := User.lastName (fields user);
                        UserView.role := User.role (fields user);
                        UserView.permissions := Some (User.permissions (fields user));
                        UserView.populated := [] |}))
     end)
    (λ _, status_json 500 (Message "Error registering user")).

(** [populate('permissions')]: the permissions that exist. *)
Definition populatePermissions (ids : list ObjectId) : Handler (list (Doc Permission.t)) :=
  λ w, (w, Value (omap (λ id, (λ p, (id, p)) <$> permissions w !! id) ids)).

(** [User.findByIdAndUpdate(userId, { $set: { permissions } },
    { new: true })]. *)
Definition findByIdAndUpdate (userId : ObjectId) (ids : list ObjectId)
    : Handler (option User.t) :=
  let* found := findById UserModel userId in
  match found with
  | None => ret None
  | Some user =>
      let updated := User.set_permissions ids user in
      let* _ := write UserModel userId updated in
      ret (Some updated)
  end.

(** [PUT /users/:userId/permissions]; the second router has the same
    route, word for word. *)
Definition put_users_permissions (userId : ObjectId)
    (permissions : list string) (user : AuthUser.t) : World → World * Reply :=
  try_catch
    (let* requestingUser := findById UserModel (AuthUser._id user) in
     if match requestingUser with
        | None => true
        | Some u => negb (String.eqb (User.role u) "admin")
        end
     then respond (status_json 403 (Message "Access denied. Admin only."))
     else
       let* validPermissions :=
         find PermissionModel
           (λ p, bool_decide (Permission.name (fields p) ∈ permissions)) in
       if negb (Nat.eqb (length validPermissions) (length permissions)) then
         respond (status_json 400 (Message "Invalid permissions provided"))
       else
         let* updated := findByIdAndUpdate userId (_id <$> validPermissions) in
         match updated with
         | None => respond (status_json 404 (Message "User not found"))
         | Some u =>
             let* docs := populatePermissions (User.permissions u) in
             ret (json
                    (UserBody
                       {| UserView._id := userId;
                          UserView.employeeNumber := User.employeeNumber u;
                          UserView.firstName := User.firstName u;
                          UserView.lastName := User.lastName u;
                          UserView.role := User.role u;
                          UserView.permissions := None;
                          UserView.populated := docs |}))
         end)
    (λ _, status_json 500 (Message "Error updating permissions")).

End AuthRoutes.

Module AuthRoutesBasic.

(** [POST /register] of the second router. *)
Definition post_register (env : Env) (body : gmap string string) : World → World * Reply :=
  try_catch
    (let employeeNumber := body !! "employeeNumber" in
     let password := body !! "password" in
     let firstName := body !! "firstName" in
     let lastName := body !! "lastName" in
     let* existingUser := findOne UserModel (hasEmployeeNumber employeeNumber) in
     match existingUser with
     | Some _ => respond (status_json 400 (Message "Employee number already exists"))
     | None =>
         let* user :=
           createUser env
             {| UserInput.employeeNumber := employeeNumber;
                UserInput.password := password;
                UserInput.firstName := firstName;
                UserInput.lastName := lastName;
                UserInput.role := "employee";
                UserInput.permissions := [] |} in
         let token :=
           jwt_sign env
             (Payload_id (_id user) (User.employeeNumber (fields user))
                (User.role (fields user))) in
         ret (status_json 201
                (RegisteredBody token
                   {| UserView._id := _id user;
                      UserView.employeeNumber := User.employeeNumber (fields user);
                      UserView.firstName := User.firstName (fields user);
                      UserView.lastName := User.lastName (fields user);
                      UserView.role := User.role (fields user);
                      UserView.permissions := None;
                      UserView.populated := [] |}))
     end)
    (λ _, status_json 500 (Message "Error creating user")).

End AuthRoutesBasic.

(** ** The vocabulary of the properties *)


(** Two registration payloads that agree on every member other than
    [role]. *)
Definition sameRegistration (b1 b2 : gmap string string) : Prop :=
  delete "role" b1 = delete "role" b2.

(** The names of the catalog, one per stored permission. *)
Definition catalogNames (w : World) : list string :=
  (λ p : Doc Permission.t, Permission.name (fields p)) <$> map_to_list (permissions w).

(** The customer fields of a deliver request are all present. *)
Definition customerFieldsPresent (req : DeliverRequest.t) : bool :=
  match DeliverRequest.customerInfo req with
  | Some info =>
      truthy_opt (ReceiverInfo.receiverName info)
      && truthy_opt (ReceiverInfo.receiverEmail info)
      && truthy_opt (ReceiverInfo.receiverPhone info)
      && truthy_opt (ReceiverInfo.receiverIdentification info)
      && truthy_opt (DeliverRequest.signature req)
  | None => false
  end.

(** The stored item has the paths its schema requires. *)
Definition LostItem_complete (item : LostItem.t) : bool :=
  bool_decide (first_error (LostItem_required item) = None).

(** The world once the uploads of a request are on the host's log. *)
Definition uploadsLogged (files : list UploadedFile) (folder flightNumber : string)
    (w : World) : World :=
  match files with
  | [] => w
  | _ :: _ =>
      set_hostCalls (hostCalls w ++ ((λ f, Upload f folder flightNumber) <$> files)) w
  end.

(** The placeholder identity: the three fixed texts and an id that
    nothing in the world [w] has. *)
Definition isPlaceholder (w : World) (u : UserInfo.t) : Prop :=
  UserInfo.firstName u = "Unknown"
  ∧ UserInfo.lastName u = "User"
  ∧ UserInfo.employeeNumber u = "N/A"
  ∧ UserInfo._id u ∉ usedIds w.

(** How a list read shows the reference [ref] of a stored document: the
    referenced user when there is one, a placeholder otherwise. *)
Definition shownAs (w : World) (ref : option ObjectId) (u : UserInfo.t) : Prop :=
  match ref ≫= λ id, pair id <$> users w !! id with
  | Some (id, user) =>
      u = {| UserInfo._id := id;
             UserInfo.firstName := User.firstName user;
             UserInfo.lastName := User.lastName user;
             UserInfo.employeeNumber := User.employeeNumber user |}
  | None => isPlaceholder w u
  end.

(** [w'] has the collections of [w]; ids may have been handed out. *)
Definition sameStore (w w' : World) : Prop :=
  users w' = users w
  ∧ permissions w' = permissions w
  ∧ lostItems w' = lostItems w
  ∧ deliveredItems w' = deliveredItems w
  ∧ hostCalls w' = hostCalls w
  ∧ issued w ⊆ issued w'.

(** An entry of the cleaned list of lost items shows the document
    [item] of the world [w]. *)
Definition shownLostItem (w : World) (item : Doc LostItem.t) (c : CleanedLostItem.t) : Prop :=
  CleanedLostItem.item c = item
  ∧ shownAs w (Some (LostItem.foundBy (fields item))) (CleanedLostItem.foundBy c)
  ∧ shownAs w (Some (LostItem.supervisor (fields item))) (CleanedLostItem.supervisor c)
  ∧ shownAs w (LostItem.deliveredBy (fields item)) (CleanedLostItem.deliveredBy c).

(** An entry of the cleaned list of delivered items shows the document
    [item] of the world [w]. *)
Definition shownDeliveredItem (w : World) (item : Doc DeliveredItem.t)
    (c : CleanedDeliveredItem.t) : Prop :=
  CleanedDeliveredItem.item c = item
  ∧ shownAs w (Some (DeliveredItem.foundBy (fields item))) (CleanedDeliveredItem.foundBy c)
  ∧ shownAs w (DeliveredItem.deliveredBy (fields item)) (CleanedDeliveredItem.deliveredBy c).

(** ** A concrete deployment, for the examples below *)

Module Scenario.

Local Open Scope Z_scope.

Definition env : Env :=
  {| now := 1700000600000;
     parseDate := λ _, None;
     jwt_verify := λ token,
       if String.eqb token "token-of-admin" then JwtDecoded (Some "a1")
       else if String.eqb token "token-of-finder" then JwtDecoded (Some "e1")
       else if String.eqb token "token-of-other" then JwtDecoded (Some "e2")
       else if String.eqb token "token-of-gone" then JwtDecoded (Some "zz")
       else if String.eqb token "token-expired" then JwtThrows TokenExpiredError
       else JwtThrows JsonWebTokenError;
     jwt_sign := λ _, "token";
     uploadFile := λ file folder flightNumber,
       Some {| url := "https://images.example/" +:+ originalname file;
               publicId := folder +:+ "/" +:+ originalname file;
               thumbnailUrl := "" |};
     deleteFile := λ _, true;
     regexTest := λ _ _, true;
     userSchemaAccepts := λ _, true;
     hashPassword := λ p, "hashed:" +:+ p |}.

Definition account (number first last role : string) (ps : list ObjectId) : User.t :=
  {| User.employeeNumber := number; User.password := "hashed:secret";
     User.firstName := first; User.lastName := last; User.role := role;
     User.permissions := ps;
     User.createdAt := 1690000000000; User.updatedAt := 1690000000000 |}.

(** An admin, the employee who found the item, and another employee. *)
Definition admin : User.t := account "AC001" "Ada" "Admin" "admin" [].
Definition finder : User.t := account "AC002" "Eve" "Employee" "employee" ["p1"].
Definition other : User.t := account "AC003" "Otto" "Other" "employee" [].

Definition view_items : Permission.t :=
  {| Permission.name := "view_items"; Permission.description := "View items" |}.
Definition deliver_items : Permission.t :=
  {| Permission.name := "deliver_items"; Permission.description := "Mark items as delivered" |}.

Definition photo : ImageInfo :=
  {| url := "https://images.example/bag.jpg"; publicId := "lost/bag";
     thumbnailUrl := "https://images.example/bag_t.jpg" |}.

Definition bag : LostItem.t :=
  {| LostItem.itemName := "Black bag";
     LostItem.description := "Black leather bag";
     LostItem.location := "Gate 12";
     LostItem.category := "Bags";
     LostItem.status := "onHand";
     LostItem.images := [photo];
     LostItem.foundBy := "e1";
     LostItem.supervisor := "a1";
     LostItem.customerInfo := None;
     LostItem.deliveredBy := None;
     LostItem.deliveredAt := None;
     LostItem.flightNumber := "AC123";
     LostItem.dateFound := Some 1700000000000;
     LostItem.createdAt := 1700000000000;
     LostItem.updatedAt := 1700000000000 |}.

(** An item whose finder and supervisor accounts were deleted. *)
Definition orphan : LostItem.t :=
  {| LostItem.itemName := "Umbrella";
     LostItem.description := "Blue umbrella";
     LostItem.location := "Lounge";
     LostItem.category := "Other";
     LostItem.status := "onHand";
     LostItem.images := [];
     LostItem.foundBy := "x1";
     LostItem.supervisor := "x2";
     LostItem.customerInfo := None;
     LostItem.deliveredBy := None;
     LostItem.deliveredAt := None;
     LostItem.flightNumber := "AC456";
     LostItem.dateFound := Some 1700000100000;
     LostItem.createdAt := 1700000100000;
     LostItem.updatedAt := 1700000100000 |}.

(** A delivered item found on one day and delivered on a later one. *)
Definition handedOver : DeliveredItem.t :=
  {| DeliveredItem.itemName := "Black bag";
     DeliveredItem.description := "Black leather bag";
     DeliveredItem.location := "Gate 12";
     DeliveredItem.category := "Bags";
     DeliveredItem.images := [photo];
     DeliveredItem.foundBy := "e1";
     DeliveredItem.deliveredBy := Some "a1";
     DeliveredItem.flightNumber := "AC123";
     DeliveredItem.dateFound := Some 1700000000000;
     DeliveredItem.dateDelivered := 1700000500000;
     DeliveredItem.archived := false;
     DeliveredItem.customerInfo :=
       {| DeliveredItem.name := "Carla Customer";
          DeliveredItem.email := "carla@example.org";
          DeliveredItem.phone := "555-0100";
          DeliveredItem.identification := Some "P1234567";
          DeliveredItem.signature := Some "data:image/png;base64,AAAA";
          DeliveredItem.deliveryDate := None |};
     DeliveredItem.deliveryNotes := None;
     DeliveredItem.deliveryPhotos := [];
     DeliveredItem.createdAt := 1700000500000;
     DeliveredItem.updatedAt := 1700000500000 |}.

Definition world : World :=
  {| users := <["a1" := admin]> (<["e1" := finder]> (<["e2" := other]> ∅));
     permissions := <["p1" := view_items]> (<["p2" := deliver_items]> ∅);
     lostItems := <["i1" := bag]> ∅;
     deliveredItems := <["d1" := handedOver]> ∅;
     issued := ∅;
     hostCalls := [] |}.

(** The same deployment with the orphaned item as the only lost item. *)
Definition orphanage : World := set_lostItems (<["i2" := orphan]> ∅) world.

Definition asAdmin : AuthUser.t := identity "a1" admin.
Definition asFinder : AuthUser.t := identity "e1" finder.
Definition asOther : AuthUser.t := identity "e2" other.

Definition receiver : ReceiverInfo.t :=
  {| ReceiverInfo.receiverName := Some "Carla Customer";
     ReceiverInfo.receiverEmail := Some "carla@example.org";
     ReceiverInfo.receiverPhone := Some "555-0100";
     ReceiverInfo.receiverIdentification := Some "P1234567";
     ReceiverInfo.notes := Some "Picked up at the desk" |}.

Definition handover : DeliverRequest.t :=
  {| DeliverRequest.customerInfo := Some receiver;
     DeliverRequest.signature := Some "data:image/png;base64,AAAA";
     DeliverRequest.files :=
       [ {| buffer := "..."; mimetype := "image/jpeg"; originalname := "handover.jpg" |} ] |}.

(** What the image host answers for the photograph of [handover]. *)
Definition handoverPhoto : ImageInfo :=
  {| url := "https://images.example/handover.jpg";
     publicId := "delivered/handover.jpg";
     thumbnailUrl := "" |}.

(** The delivered item that the service writes for [bag]. *)
Definition deliveredBag : DeliveredItem.t :=
  {| DeliveredItem.itemName := "Black bag";
     DeliveredItem.description := "Black leather bag";
     DeliveredItem.location := "Gate 12";
     DeliveredItem.category := "Bags";
     DeliveredItem.images := [photo];
     DeliveredItem.foundBy := "e1";
     DeliveredItem.deliveredBy := None;
     DeliveredItem.flightNumber := "AC123";
     DeliveredItem.dateFound := Some 1700000000000;
     DeliveredItem.dateDelivered := 1700000600000;
     DeliveredItem.archived := false;
     DeliveredItem.customerInfo :=
       {| DeliveredItem.name := "Carla Customer";
          DeliveredItem.email := "carla@example.org";
          DeliveredItem.phone := "555-0100";
          DeliveredItem.identification := None;
          DeliveredItem.signature := None;
          DeliveredItem.deliveryDate := Some 1700000600000 |};
     DeliveredItem.deliveryNotes := None;
     DeliveredItem.deliveryPhotos := [];
     DeliveredItem.createdAt := 1700000600000;
     DeliveredItem.updatedAt := 1700000600000 |}.

(** Two registration payloads that differ in the [role] member only. *)
Definition application : gmap string string :=
  <["employeeNumber" := "AC009"]>
    (<["password" := "secret1"]>
       (<["firstName" := "Nina"]> (<["lastName" := "New"]> ∅))).
Definition applicationAsAdmin : gmap string string :=
  <["role" := "admin"]> application.

Definition delivery : DeliveryData.t :=
  {| DeliveryData.customerName := "Carla Customer";
     DeliveryData.customerEmail := "carla@example.org";
     DeliveryData.customerPhone := "555-0100" |}.

End Scenario.

(** ** Further routes of the same routers *)

(** [POST /] of the lost-items router with the inline guards: the item is
    built from the body with the acting user as finder and without a
    supervisor. *)
Definition LostItemsRouter_post (env : Env) (schema : LostItem.SchemaOptions)
    (body : gmap string string) (files : list UploadedFile)
    (user : option AuthUser.t) : World → World * Reply :=
  match user with
  | None => λ w, (w, status_json 401 (Message "User not authenticated"))
  | Some user =>
      try_catch
        (let flightNumber := default "" (body !! "flightNumber") in
         let* images := uploadIfAny env files "lost" flightNumber in
         let* newId := newObjectId in
         let* dateFound :=
           match body !! "dateFound" with
           | Some text =>
               if truthy text then
                 await (parseDate env text) (CastError "dateFound")
               else ret (now env)
           | None => ret (now env)
           end in
         let item :=
           {| LostItem.itemName := default "" (body !! "itemName");
              LostItem.description := default "" (body !! "description");
              LostItem.location := default "" (body !! "location");
              LostItem.category := default "" (body !! "category");
              LostItem.flightNumber := flightNumber;
              LostItem.dateFound := Some dateFound;
              LostItem.foundBy := AuthUser._id user;
              LostItem.supervisor := "";
              LostItem.images := images;
              LostItem.status := "onHand";
              LostItem.customerInfo := None;
              LostItem.deliveredBy := None;
              LostItem.deliveredAt := None;
              LostItem.createdAt := now env;
              LostItem.updatedAt := now env |} in
         let* _ := save LostItemModel (LostItem_validate schema) newId item in
         let* stored := findById LostItemModel newId in
         match stored with
         | None => ret (status_json 201 Null)
         | Some stored =>
             let* refs := LostItem_populated stored in
             ret (status_json 201 (LostItemBody (newId, stored) refs))
         end)
        (λ _, status_json 500 (Message "Error creating item"))
  end.

(** [POST /] of the lost-items router with the deliver route: finder and
    supervisor are members of the body.  The request is multipart, so
    that [req.files] is an array. *)
Definition LostItemRoutes_post (env : Env) (schema : LostItem.SchemaOptions)
    (body : gmap string string) (files : list UploadedFile)
    (user : AuthUser.t) : World → World * Reply :=
  try_catch
    (let flightNumber := default "" (body !! "flightNumber") in
     let* images := uploadFiles env files "lost" flightNumber in
     let* newId := newObjectId in
     let* dateFound :=
       await (body !! "dateFound" ≫= parseDate env) (CastError "dateFound") in
     let item :=
       {| LostItem.itemName := default "" (body !! "itemName");
          LostItem.flightNumber := flightNumber;
          LostItem.dateFound := Some dateFound;
          LostItem.location := default "" (body !! "location");
          LostItem.description := default "" (body !! "description");
          LostItem.category := default "" (body !! "category");
          LostItem.images := images;
          LostItem.foundBy := default "" (body !! "foundBy");
          LostItem.supervisor := default "" (body !! "supervisor");
          LostItem.status := "onHand";
          LostItem.customerInfo := None;
          LostItem.deliveredBy := None;
          LostItem.deliveredAt := None;
          LostItem.createdAt := now env;
          LostItem.updatedAt := now env |} in
     let* _ := save LostItemModel (LostItem_validate schema) newId item in
     let* stored := findById LostItemModel newId in
     match stored with
     | None => ret (status_json 201 Null)
     | Some stored =>
         let* refs := LostItem_populated stored in
         ret (status_json 201 (LostItemBody (newId, stored) refs))
     end)
    (λ e, status_json 500 (Failure "Error creating item" e)).

(** [DELETE /:id] of the delivered-items router. *)
Definition DeliveredItemsRouter_delete_id (id : ObjectId) (user : AuthUser.t)
    : World → World * Reply :=
  try_catch
    (let* found := findById DeliveredItemModel id in
     match found with
     | None => respond (status_json 404 (Message "Delivered item not found"))
     | Some item =>
         let* foundBy := populated (Some (DeliveredItem.foundBy item)) in
         let* refused := notAuthorized user foundBy in
         if refused then
           respond (status_json 403 (Message "Not authorized to delete this item"))
         else
           let* _ := deleteImagesQuietly (DeliveredItem.images item) in
           let* _ := deleteOne DeliveredItemModel id in
           ret (json (Message "Item deleted successfully"))
     end)
    (λ e, status_json 500 (Failure "Error deleting item" e)).

(** [POST /login] of the first auth router.  [comparePassword] is the
    method of the User model, which is not among the sources: given the
    stored hash and the candidate it answers whether they match, or
    rejects ([None]). *)
Definition AuthRoutes_post_login (env : Env)
    (comparePassword : string → option string → option bool)
    (body : gmap string string) : World → World * Reply :=
  try_catch
    (let employeeNumber := body !! "employeeNumber" in
     let password := body !! "password" in
     let* userDoc := findOne UserModel (hasEmployeeNumber employeeNumber) in
     match userDoc with
     | None => respond (status_json 401 (Message "Invalid credentials"))
     | Some user =>
         let* isMatch :=
           await (comparePassword (User.password (fields user)) password)
                 (ValidationError "password") in
         if negb isMatch then
           respond (status_json 401 (Message "Invalid credentials"))
         else
           let token :=
             jwt_sign env
               (PayloadId (_id user) (User.employeeNumber (fields user))
                  (User.role (fields user))) in
           ret (json
                  (RegisteredBody token
                     {| UserView._id := _id user;
                        UserView.employeeNumber := User.employeeNumber (fields user);
                        UserView.firstName := User.firstName (fields user);
                        UserView.lastName := User.lastName (fields user);
                        UserView.role := User.role (fields user);
                        UserView.permissions := Some (User.permissions (fields user));
                        UserView.populated := [] |}))
     end)
    (λ _, status_json 500 (Message "Server error during login")).

(** The users router (third router of [src/unnamed/part_002]). *)
Module UsersRouter.

(** The handler of [DELETE /:id]: nothing that references the user is
    touched. *)
Definition delete_id (id : ObjectId) : World → World * Reply :=
  try_catch
    (let* found := findById UserModel id in
     match found with
     | None => respond (status_json 404 (Message "User not found"))
     | Some _ =>
         let* _ := deleteOne UserModel id in
         ret (json (Message "User deleted successfully"))
     end)
    (λ _, status_json 500 (Message "Error deleting user")).

(** The route: [auth, checkRole(['admin'])], then the handler. *)
Definition remove (env : Env) (authorization : option string) (id : ObjectId)
    : World → World * Reply :=
  authorized env authorization ["admin"] (λ _, delete_id id).

End UsersRouter.

(** ** The vocabulary of the further properties *)

(** The members of a report that the LostItem schemas require as
    texts. *)
Definition reportFields : list string :=
  [ "itemName"; "description"; "location"; "category"; "flightNumber";
    "foundBy"; "supervisor" ].


(** The body of a report has every one of them, none empty. *)
Definition reportComplete (body : gmap string string) : bool :=
  forallb (λ path, truthy_opt (body !! path)) reportFields.

(** The text [s] holds the text [p] somewhere. *)
Fixpoint occurs (p s : string) : bool :=
  match strip_prefix p s with
  | Some _ => true
  | None =>
      match s with
      | EmptyString => false
      | String _ s' => occurs p s'
      end
  end.

(** The [id] member of a signed payload, as [auth] reads it back. *)
Definition payloadId (p : TokenPayload) : option ObjectId :=
  match p with
  | PayloadId id _ _ => Some id
  | Payload_id _ _ _ => None
  end.

(** The server's secret is set: [jwt.verify], which the gate calls with
    [JWT_SECRET], decodes what [jwt.sign] signed (the routes sign with
    [JWT_SECRET || 'your-secret-key']), and a token is never the empty
    text. *)
Definition verifiesOwnTokens (env : Env) : Prop :=
  ∀ p, jwt_verify env (jwt_sign env p) = JwtDecoded (payloadId p)
       ∧ truthy (jwt_sign env p) = true.

(** A second deployment: its token library writes the payload into the
    token. *)
Module Cases.

Local Open Scope Z_scope.

Definition sign (p : TokenPayload) : string :=
  match p with
  | PayloadId id _ _ => "id=" +:+ id
  | Payload_id id _ _ => "_id=" +:+ id
  end.

Definition verify (token : string) : JwtOutcome :=
  match strip_prefix "id=" token with
  | Some id => JwtDecoded (Some id)
  | None =>
      match strip_prefix "_id=" token with
      | Some _ => JwtDecoded None
      | None => JwtThrows JsonWebTokenError
      end
  end.

Definition env : Env :=
  {| now := 1700000600000;
     parseDate := λ text, if String.eqb text "2023-11-14" then Some 1699920000000 else None;
     jwt_verify := verify;
     jwt_sign := sign;
     uploadFile := λ file folder flightNumber,
       Some {| url := "https://images.example/" +:+ originalname file;
               publicId := folder +:+ "/" +:+ originalname file;
               thumbnailUrl := "" |};
     deleteFile := λ _, false;
     regexTest := λ _ _, true;
     userSchemaAccepts := λ _, true;
     hashPassword := λ p, "hashed:" +:+ p |}.

(** The stored hash matches the candidate it was made from. *)
Definition comparePassword (stored : string) (candidate : option string) : option bool :=
  match candidate with
  | Some text => Some (String.eqb stored ("hashed:" +:+ text))
  | None => None
  end.

(** The report of a found suitcase. *)
Definition report : gmap string string :=
  <["itemName" := "Suitcase"]>
    (<["description" := "Red suitcase"]>
       (<["location" := "Carousel 3"]>
          (<["category" := "Bags"]>
             (<["flightNumber" := "AC789"]>
                (<["dateFound" := "2023-11-14"]>
                   (<["foundBy" := "e1"]> (<["supervisor" := "a1"]> ∅))))))).

(** The finder's credentials, and the same with another password. *)
Definition credentials : gmap string string :=
  <["employeeNumber" := "AC002"]> (<["password" := "secret"]> ∅).
Definition wrongPassword : gmap string string :=
  <["employeeNumber" := "AC002"]> (<["password" := "guess"]> ∅).

(** A deliver request that lacks the signature. *)
Definition unsigned : DeliverRequest.t :=
  {| DeliverRequest.customerInfo := Some Scenario.receiver;
     DeliverRequest.signature := None;
     DeliverRequest.files := [] |}.

End Cases.

(** * Properties *)

(** Unfolding the plumbing of a handler. *)
Ltac run :=
  unfold try_catch, bind, ret, respond, throw, await, findById, find, findOne,
    write, deleteOne, save, saveFound, populated, newObjectId, logCalls in *;
  simpl in *.

#[local] Arguments populate : simpl never.

(** ** Status normalization *)

(** C6: the hyphenated external vocabulary and the internal tokens
    normalize to the same internal token: ["on-hand"] and ["onHand"] both
    give ["onHand"], ["in-process"] and ["inProcess"] both give
    ["inProcess"], and ["delivered"] gives ["delivered"]. *)
Theorem C6_normalizeStatus_vocabulary :
  normalizeStatus "on-hand" = StatusText "onHand"
  ∧ normalizeStatus "onHand" = StatusText "onHand"
  ∧ normalizeStatus "in-process" = StatusText "inProcess"
  ∧ normalizeStatus "inProcess" = StatusText "inProcess"
  ∧ normalizeStatus "delivered" = StatusText "delivered".
Proof. repeat split; reflexivity. Qed.

(** ** The authentication gate *)






(** ** Registration *)

Lemma sameRegistration_member (b1 b2 : gmap string string) (k : string) :
  sameRegistration b1 b2 → k ≠ "role" → b1 !! k = b2 !! k.
Proof.
  intros Hsame Hk.
  rewrite <- (lookup_delete_ne b1 "role" k), <- (lookup_delete_ne b2 "role" k) by done.
  by rewrite Hsame.
Qed.

Lemma createUser_role env input w w' user :
  createUser env input w = (w', Value user) →
  User.role (fields user) = UserInput.role input
  ∧ users w' = <[_id user := fields user]> (users w).
Proof.
  unfold createUser. run. intros H.
  destruct (userSchemaAccepts env input); simplify_eq. by split.
Qed.

Lemma createUser_users env input w w' o :
  createUser env input w = (w', o) →
  (∃ user, o = Value user) ∨ users w' = users w.
Proof.
  unfold createUser. run. intros H.
  destruct (userSchemaAccepts env input); simplify_eq; eauto.
Qed.

Lemma register_created_role (input : UserInput.t) env w w' o id u :
  createUser env input w = (w', o) →
  users w' !! id = Some u → users w !! id = None →
  User.role u = UserInput.role input.
Proof.
  intros Hcreate Hafter Hbefore.
  destruct (createUser_users _ _ _ _ _ Hcreate) as [[user ->]|Hsame].
  - destruct (createUser_role _ _ _ _ _ Hcreate) as [Hrole Husers].
    rewrite Husers in Hafter.
    destruct (decide (_id user = id)) as [<-|Hne].
    + rewrite lookup_insert_eq in Hafter. by simplify_eq.
    + rewrite lookup_insert_ne in Hafter; [congruence|done].
  - congruence.
Qed.

(** C9: a user created by either register route has role ['employee'],
    and two registration requests that differ only in a [role] member get
    the same answer and leave the same world: the payload cannot choose
    the role. *)
Theorem C9_register_role env (b1 b2 : gmap string string) w :
  sameRegistration b1 b2 →
  AuthRoutes.post_register env b1 w = AuthRoutes.post_register env b2 w
  ∧ AuthRoutesBasic.post_register env b1 w = AuthRoutesBasic.post_register env b2 w
  ∧ (∀ id u, users (AuthRoutes.post_register env b1 w).1 !! id = Some u →
             users w !! id = None → User.role u = "employee")
  ∧ (∀ id u, users (AuthRoutesBasic.post_register env b1 w).1 !! id = Some u →
             users w !! id = None → User.role u = "employee").
Proof.
  intros Hsame.
  assert (b1 !! "employeeNumber" = b2 !! "employeeNumber") as He by by apply sameRegistration_member.
  assert (b1 !! "password" = b2 !! "password") as Hp by by apply sameRegistration_member.
  assert (b1 !! "firstName" = b2 !! "firstName") as Hf by by apply sameRegistration_member.
  assert (b1 !! "lastName" = b2 !! "lastName") as Hl by by apply sameRegistration_member.
  split; [|split; [|split]].
  - unfold AuthRoutes.post_register. by rewrite He, Hp, Hf, Hl.
  - unfold AuthRoutesBasic.post_register. by rewrite He, Hp, Hf, Hl.
  - intros id u. unfold AuthRoutes.post_register. run.
    repeat case_match; simplify_eq; simpl; try congruence;
      intros Hafter Hbefore;
      match goal with
      | H : createUser _ _ _ = _ |- _ =>
          apply (register_created_role _ _ _ _ _ _ _ H Hafter Hbefore)
      end.
  - intros id u. unfold AuthRoutesBasic.post_register. run.
    repeat case_match; simplify_eq; simpl; try congruence;
      intros Hafter Hbefore;
      match goal with
      | H : createUser _ _ _ = _ |- _ =>
          apply (register_created_role _ _ _ _ _ _ _ H Hafter Hbefore)
      end.
Qed.

(** ** The permission catalog *)

Lemma filter_fmap_NoDup {A B} (g : A → B) (f : A → bool) (l : list A) :
  NoDup (g <$> l) → NoDup (g <$> List.filter f l).
Proof.
  induction l as [|x l IH]; simpl; [done|].
  intros [Hx Hl]%NoDup_cons.
  destruct (f x); simpl; [|by apply IH].
  apply NoDup_cons. split; [|by apply IH].
  intros (y & Hy & Hin)%list_elem_of_fmap.
  apply Hx, list_elem_of_fmap. exists y. split; [done|].
  apply list_elem_of_In. apply list_elem_of_In, filter_In in Hin. tauto.
Qed.

(** When as many catalog permissions match a list of names as the list is
    long, the list has no repetition and every name of it is in the
    catalog. *)
Lemma matched_names_exact (w : World) (names : list string) :
  NoDup (catalogNames w) →
  length (List.filter
            (λ p : Doc Permission.t, bool_decide (Permission.name (fields p) ∈ names))
            (map_to_list (permissions w))) = length names →
  NoDup names
  ∧ ∀ n, n ∈ names → ∃ id p, permissions w !! id = Some p ∧ Permission.name p = n.
Proof.
  intros Hcatalog Hlength.
  set (matching := List.filter _ _) in Hlength.
  set (matched := (λ p : Doc Permission.t, Permission.name (fields p)) <$> matching).
  assert (NoDup matched) as Hnodup by by apply filter_fmap_NoDup.
  assert (∀ n, n ∈ matched → n ∈ names) as Hsub.
  { intros n (p & -> & Hp)%list_elem_of_fmap.
    apply list_elem_of_In, filter_In in Hp as [_ Hp].
    by apply bool_decide_eq_true in Hp. }
  assert (matched ≡ₚ names) as Hperm.
  { apply submseteq_length_Permutation.
    - by apply NoDup_submseteq.
    - unfold matched. rewrite length_fmap. lia. }
  split.
  - by rewrite <- Hperm.
  - intros n Hn. rewrite <- Hperm in Hn.
    apply list_elem_of_fmap in Hn as ([id p] & -> & Hp).
    apply list_elem_of_In, filter_In in Hp as [Hp _].
    apply list_elem_of_In, elem_of_map_to_list in Hp. by exists id, p.
Qed.

(** C10: an update of a user's permissions whose list of names repeats a
    name, or holds a name that no catalog permission has, is answered
    400 by an admin's request and leaves the world as it was: the number
    of catalog permissions that match must equal the length of the
    list. *)
Theorem C10_permissions_rejected (userId : ObjectId) (names : list string)
    (user : AuthUser.t) (w : World) (requester : User.t) :
  users w !! AuthUser._id user = Some requester →
  User.role requester = "admin" →
  NoDup (catalogNames w) →
  (¬ NoDup names
   ∨ ∃ n, n ∈ names ∧ ∀ id p, permissions w !! id = Some p → Permission.name p ≠ n) →
  AuthRoutes.put_users_permissions userId names user w
  = (w, status_json 400 (Message "Invalid permissions provided")).
Proof.
  intros Hrequester Hrole Hcatalog Hbad.
  unfold AuthRoutes.put_users_permissions. run.
  rewrite Hrequester, Hrole. simpl.
  destruct (Nat.eqb _ _) eqn:Hlength; [|done].
  apply Nat.eqb_eq, matched_names_exact in Hlength as [Hnodup Hall]; [|done].
  destruct Hbad as [Hdup|(n & Hn & Habsent)]; [done|].
  destruct (Hall n Hn) as (id & p & Hp & Hname). by destruct (Habsent id p).
Qed.

(** A request that is not an admin's is turned away before the list is
    looked at. *)
Lemma permissions_admin_only (userId : ObjectId) (names : list string)
    (user : AuthUser.t) (w : World) :
  (∀ requester, users w !! AuthUser._id user = Some requester →
                User.role requester ≠ "admin") →
  AuthRoutes.put_users_permissions userId names user w
  = (w, status_json 403 (Message "Access denied. Admin only.")).
Proof.
  intros Hrole. unfold AuthRoutes.put_users_permissions. run.
  destruct (users w !! AuthUser._id user) as [requester|] eqn:Hrequester; [|done].
  destruct (String.eqb_spec (User.role requester) "admin") as [Heq|]; [|done].
  by destruct (Hrole requester).
Qed.

(** ** Deleting a permission *)



(** ** Delivering an item *)

Lemma first_error_None (checks : list (option Error)) :
  first_error checks = None ↔ Forall (λ c, c = None) checks.
Proof.
  unfold first_error. induction checks as [|[e|] checks IH]; simpl.
  - split; [constructor|done].
  - split; [done|]. by intros [? _]%Forall_cons.
  - rewrite IH. split; [by constructor|]. by intros [_ ?]%Forall_cons.
Qed.

Lemma required_None path value : required path value = None ↔ truthy value = true.
Proof. unfold required. by destruct (truthy value). Qed.

Lemma required_opt_None path value :
  required_opt path value = None ↔ truthy_opt value = true.
Proof. unfold required_opt. by destruct (truthy_opt value). Qed.

Lemma truthy_opt_default value : truthy_opt value = true → truthy (default "" value) = true.
Proof. by destruct value. Qed.

Lemma newObjectId_fresh (w : World) : fresh (usedIds w) ∉ usedIds w.
Proof. apply is_fresh. Qed.

Lemma fresh_not_stored {A} (s : gset string) (m : gmap string A) (i : string) :
  i ∉ s → dom m ⊆ s → m !! i = None.
Proof. intros Hi Hsub. apply not_elem_of_dom. set_solver. Qed.

Lemma DeliveredItem_validate_None (d : DeliveredItem.t) :
  truthy (DeliveredItem.itemName d) = true →
  truthy (DeliveredItem.description d) = true →
  truthy (DeliveredItem.location d) = true →
  truthy (DeliveredItem.category d) = true →
  truthy (DeliveredItem.foundBy d) = true →
  truthy (DeliveredItem.flightNumber d) = true →
  required_date "dateFound" (DeliveredItem.dateFound d) = None →
  truthy (DeliveredItem.name (DeliveredItem.customerInfo d)) = true →
  truthy (DeliveredItem.email (DeliveredItem.customerInfo d)) = true →
  truthy (DeliveredItem.phone (DeliveredItem.customerInfo d)) = true →
  truthy_opt (DeliveredItem.identification (DeliveredItem.customerInfo d)) = true →
  truthy_opt (DeliveredItem.signature (DeliveredItem.customerInfo d)) = true →
  DeliveredItem_validate d = None.
Proof.
  intros. apply first_error_None.
  unfold DeliveredItem_required. simpl.
  repeat (apply Forall_cons; split);
    try (by apply required_None); try (by apply required_opt_None); done.
Qed.

Lemma uploadIfAny_accepted env files folder flightNumber photos w :
  all (λ f, uploadFile env f folder flightNumber) files = Some photos →
  uploadIfAny env files folder flightNumber w
  = (uploadsLogged files folder flightNumber w, Value photos).
Proof.
  unfold uploadIfAny, uploadFiles, uploadsLogged. run. intros Hall.
  destruct files; [simpl in Hall; by simplify_eq|]. by rewrite Hall.
Qed.

Lemma uploadsLogged_store files folder flightNumber w :
  users (uploadsLogged files folder flightNumber w) = users w
  ∧ permissions (uploadsLogged files folder flightNumber w) = permissions w
  ∧ lostItems (uploadsLogged files folder flightNumber w) = lostItems w
  ∧ deliveredItems (uploadsLogged files folder flightNumber w) = deliveredItems w
  ∧ issued (uploadsLogged files folder flightNumber w) = issued w.
Proof. by destruct files. Qed.

Lemma or_else_truthy (a b : string) : truthy a = true → or_else a b = a.
Proof. unfold or_else. by intros ->. Qed.

(** What a constructor keeps of the populated [foundBy] of a found
    document whose finder is a stored user: the stored id. *)
Lemma foundBy_kept (w : World) (id : ObjectId) (user : User.t) :
  users w !! id = Some user → default "" (refId (populate w (Some id))) = id.
Proof. intros Huser. unfold populate. by rewrite Huser. Qed.


(** ** Delivery migrates the record, the service marks it *)

Lemma deliver_all_or_nothing (env : Env) (id : ObjectId) (req : DeliverRequest.t)
    (user : AuthUser.t) (w : World) :
  let result := LostItemRoutes.put_id_deliver env id req user w in
  (status result.2 = 200
   ∧ lostItems result.1 = delete id (lostItems w)
   ∧ ∃ newId d, deliveredItems w !! newId = None
                ∧ deliveredItems result.1 = <[newId := d]> (deliveredItems w))
  ∨ (status result.2 ≠ 200
     ∧ lostItems result.1 = lostItems w
     ∧ deliveredItems result.1 = deliveredItems w).
Proof.
  unfold LostItemRoutes.put_id_deliver, uploadIfAny, uploadFiles. run.
  destruct (lostItems w !! id) as [item|]; [|by right].
  destruct (DeliverRequest.customerInfo req) as [info|]; simpl; [|by right].
  destruct (negb _ || _ || _ || _ || _); simpl; [by right|].
  destruct (DeliverRequest.files req) as [|file files]; simpl.
  - destruct (DeliveredItem_validate _); simpl; [by right|].
    left. repeat split; [done..|]. eexists _, _. split; [|done].
    eapply fresh_not_stored; [apply is_fresh|]. unfold usedIds. set_solver.
  - destruct (match uploadFile env file _ _ with Some _ => _ | None => _ end);
      simpl; [|by right].
    destruct (DeliveredItem_validate _); simpl; [by right|].
    left. repeat split; [done..|]. eexists _, _. split; [|done].
    eapply fresh_not_stored; [apply is_fresh|]. unfold usedIds. simpl. set_solver.
Qed.

Lemma markAsDelivered_keeps (env : Env) (item : Doc LostItem.t) (info : DeliveryData.t)
    (by_ : ObjectId) (w w' : World) (d : Doc DeliveredItem.t) (stored : LostItem.t) :
  lostItems w !! _id item = Some stored →
  DeliveredItemsService.markAsDelivered env item info by_ w = (w', Value d) →
  lostItems w' !! _id item
    = Some (LostItem_touch (now env) (LostItem_set_delivery "delivered" by_ (now env) stored))
  ∧ deliveredItems w !! _id d = None
  ∧ deliveredItems w' = <[_id d := fields d]> (deliveredItems w)
  ∧ DeliveredItem.itemName (fields d) = LostItem.itemName (fields item)
  ∧ DeliveredItem.description (fields d) = LostItem.description (fields item)
  ∧ DeliveredItem.flightNumber (fields d) = LostItem.flightNumber (fields item)
  ∧ DeliveredItem.dateFound (fields d) = LostItem.dateFound (fields item)
  ∧ DeliveredItem.images (fields d) = LostItem.images (fields item).
Proof.
  intros Hstored.
  unfold DeliveredItemsService.markAsDelivered, DeliveredItemsService.createDeliveredItem,
    DeliveredItemsService.findByIdAndUpdate.
  run. destruct (DeliveredItem_validate_basic _); simpl; [done|].
  rewrite Hstored. simpl. intros ?; simplify_eq. simpl.
  rewrite lookup_insert_eq. repeat split; try done.
  eapply fresh_not_stored; [apply is_fresh|]. unfold usedIds. set_solver.
Qed.

(** C2 (as amended): the deliver route is all or nothing — either it
    answers 200, the lost item is gone from its id and exactly one
    delivered item was added, or it answers otherwise and both
    collections are as before — whereas the service's [markAsDelivered],
    when it succeeds on a stored item, adds the delivered item and keeps
    the lost item, stored with status ['delivered']. *)
Theorem C2_deliver_migrates_service_marks (env : Env) (id : ObjectId)
    (req : DeliverRequest.t) (user : AuthUser.t) (w : World)
    (item : Doc LostItem.t) (info : DeliveryData.t) (by_ : ObjectId)
    (stored : LostItem.t) (w' : World) (d : Doc DeliveredItem.t) :
  lostItems w !! _id item = Some stored →
  DeliveredItemsService.markAsDelivered env item info by_ w = (w', Value d) →
  (let result := LostItemRoutes.put_id_deliver env id req user w in
   (status result.2 = 200
    ∧ lostItems result.1 !! id = None
    ∧ ∃ newId new, deliveredItems w !! newId = None
                   ∧ deliveredItems result.1 = <[newId := new]> (deliveredItems w))
   ∨ (status result.2 ≠ 200
      ∧ lostItems result.1 = lostItems w
      ∧ deliveredItems result.1 = deliveredItems w))
  ∧ (∃ kept, lostItems w' !! _id item = Some kept
             ∧ LostItem.status kept = "delivered"
             ∧ LostItem.deliveredBy kept = Some by_
             ∧ LostItem.deliveredAt kept = Some (now env))
  ∧ deliveredItems w !! _id d = None
  ∧ deliveredItems w' !! _id d = Some (fields d)
  ∧ DeliveredItem.itemName (fields d) = LostItem.itemName (fields item)
  ∧ DeliveredItem.flightNumber (fields d) = LostItem.flightNumber (fields item).
Proof.
  intros Hstored Hmarked.
  split.
  - destruct (deliver_all_or_nothing env id req user w)
      as [(Hok & Hlost & Hnew)|Hfailed]; [left|by right].
    split; [done|]. split; [|done]. simpl in Hlost. rewrite Hlost.
    apply lookup_delete_eq.
  - destruct (markAsDelivered_keeps _ _ _ _ _ _ _ _ Hstored Hmarked)
      as (Hkept & Hfresh & Hadded & Hname & _ & Hflight & _).
    split; [by eexists|]. rewrite Hadded, lookup_insert_eq. done.
Qed.

(** ** Reverting a delivery *)

(** What the revert handler does with a delivered item that has the paths
    its schema requires and whose finder is a stored user: the new lost
    item takes the owner, the
    descriptive fields and the images, the schema's default status, the
    acting user as supervisor, and as [dateFound] the date of
    delivery. *)
Lemma post_id_revert_dateDelivered (env : Env) (schema : LostItem.SchemaOptions)
    (id : ObjectId) (user : AuthUser.t) (w : World) (d : DeliveredItem.t)
    (finder : User.t) :
  deliveredItems w !! id = Some d →
  users w !! DeliveredItem.foundBy d = Some finder →
  DeliveredItem_validate d = None →
  LostItem.statusDefault schema ∈ LostItem.statusEnum schema →
  truthy (AuthUser._id user) = true →
  ∃ w' newId lostItem,
    DeliveredItemsRouter.post_id_revert env schema id user w
      = (w', json (RevertedBody "Item reverted successfully" (newId, lostItem)))
    ∧ lostItems w !! newId = None
    ∧ lostItems w' = <[newId := lostItem]> (lostItems w)
    ∧ deliveredItems w' = delete id (deliveredItems w)
    ∧ LostItem.foundBy lostItem = DeliveredItem.foundBy d
    ∧ LostItem.itemName lostItem = DeliveredItem.itemName d
    ∧ LostItem.description lostItem = DeliveredItem.description d
    ∧ LostItem.location lostItem = DeliveredItem.location d
    ∧ LostItem.category lostItem = DeliveredItem.category d
    ∧ LostItem.flightNumber lostItem = DeliveredItem.flightNumber d
    ∧ LostItem.images lostItem = DeliveredItem.images d
    ∧ LostItem.supervisor lostItem = AuthUser._id user
    ∧ LostItem.status lostItem = LostItem.statusDefault schema
    ∧ LostItem.dateFound lostItem = Some (DeliveredItem.dateDelivered d).
Proof.
  intros Hstored Hfinder Hvalid Hdefault Huser.
  apply first_error_None in Hvalid. unfold DeliveredItem_required in Hvalid. simpl in Hvalid.
  repeat (apply Forall_cons in Hvalid as [? Hvalid]).
  repeat match goal with H : required _ _ = None |- _ => apply required_None in H end.
  unfold DeliveredItemsRouter.post_id_revert. run. rewrite Hstored. simpl.
  rewrite (foundBy_kept w _ finder Hfinder).
  assert (LostItem_validate schema
            {| LostItem.itemName := DeliveredItem.itemName d;
               LostItem.description := DeliveredItem.description d;
               LostItem.location := DeliveredItem.location d;
               LostItem.category := DeliveredItem.category d;
               LostItem.status := LostItem.statusDefault schema;
               LostItem.images := DeliveredItem.images d;
               LostItem.foundBy := DeliveredItem.foundBy d;
               LostItem.supervisor := AuthUser._id user;
               LostItem.customerInfo := None;
               LostItem.deliveredBy := None;
               LostItem.deliveredAt := None;
               LostItem.flightNumber := DeliveredItem.flightNumber d;
               LostItem.dateFound := Some (DeliveredItem.dateDelivered d);
               LostItem.createdAt := now env;
               LostItem.updatedAt := now env |} = None) as ->.
  { apply first_error_None. unfold LostItem_required. simpl.
    repeat (apply Forall_cons; split); try (by apply required_None); try done.
    by rewrite bool_decide_eq_true_2. }
  simpl. eexists _, _, _. split; [reflexivity|]. simpl.
  repeat split; try done.
  eapply fresh_not_stored; [apply is_fresh|]. unfold usedIds. set_solver.
Qed.

(** ** The guard of the write routes *)

(** An admin and a supervisor pass the guard, whatever the item. *)
Lemma notAuthorized_staff (user : AuthUser.t) (foundBy : Ref) (w : World) :
  AuthUser.role user = "admin" ∨ AuthUser.role user = "supervisor" →
  notAuthorized user foundBy w = (w, Value false).
Proof.
  intros [Hrole|Hrole]; unfold notAuthorized; by rewrite Hrole.
Qed.

(** Anybody else is refused on an item whose finder is a stored user,
    the finder included: the populated [foundBy] never prints as an
    id. *)
Lemma notAuthorized_employee (user : AuthUser.t) (w : World) (id : ObjectId)
    (finder : User.t) :
  AuthUser.role user ≠ "admin" →
  AuthUser.role user ≠ "supervisor" →
  users w !! id = Some finder →
  notAuthorized user (populate w (Some id)) w = (w, Value true).
Proof.
  intros Hadmin Hsupervisor Hfinder. unfold notAuthorized, populate.
  destruct (String.eqb_spec (AuthUser.role user) "admin"); [done|].
  destruct (String.eqb_spec (AuthUser.role user) "supervisor"); [done|].
  by rewrite Hfinder.
Qed.

(** On an item whose finder is no longer stored the guard throws. *)
Lemma notAuthorized_finder_gone (user : AuthUser.t) (w : World) (id : ObjectId) :
  AuthUser.role user ≠ "admin" →
  AuthUser.role user ≠ "supervisor" →
  users w !! id = None →
  notAuthorized user (populate w (Some id)) w = (w, Throw TypeError).
Proof.
  intros Hadmin Hsupervisor Hfinder. unfold notAuthorized, populate.
  destruct (String.eqb_spec (AuthUser.role user) "admin"); [done|].
  destruct (String.eqb_spec (AuthUser.role user) "supervisor"); [done|].
  by rewrite Hfinder.
Qed.

(** The router with the inline guards turns an employee away, whatever
    the payload, and changes nothing. *)
Lemma LostItemsRouter_put_id_forbidden (env : Env) (schema : LostItem.SchemaOptions)
    (id : ObjectId) (body : gmap string string) (files : list UploadedFile)
    (user : AuthUser.t) (w : World) (item : LostItem.t) (finder : User.t) :
  lostItems w !! id = Some item →
  users w !! LostItem.foundBy item = Some finder →
  AuthUser.role user ≠ "admin" →
  AuthUser.role user ≠ "supervisor" →
  LostItemsRouter.put_id env schema id body files (Some user) w
  = (w, status_json 403 (Message "Not authorized to update this item")).
Proof.
  intros Hitem Hfinder Hadmin Hsupervisor.
  unfold LostItemsRouter.put_id. run.
  rewrite Hitem. simpl. by rewrite (notAuthorized_employee user w _ finder).
Qed.

(** So does the image upload of the router with the deliver route, the
    only write of that router that is guarded. *)
Lemma LostItemRoutes_post_id_images_forbidden (env : Env) (schema : LostItem.SchemaOptions)
    (id : ObjectId) (files : list UploadedFile) (user : AuthUser.t) (w : World)
    (item : LostItem.t) (finder : User.t) :
  lostItems w !! id = Some item →
  users w !! LostItem.foundBy item = Some finder →
  AuthUser.role user ≠ "admin" →
  AuthUser.role user ≠ "supervisor" →
  LostItemRoutes.post_id_images env schema id files user w
  = (w, status_json 403 (Message "Not authorized to update this item")).
Proof.
  intros Hitem Hfinder Hadmin Hsupervisor.
  unfold LostItemRoutes.post_id_images. run.
  rewrite Hitem. simpl. by rewrite (notAuthorized_employee user w _ finder).
Qed.

(** The update and the delete of that router do not read [req.user]:
    whoever is authenticated gets the answer the owner would get. *)
Lemma LostItemRoutes_writes_ignore_user (env : Env) (id : ObjectId)
    (body : gmap string string) (user owner : AuthUser.t) (w : World) :
  LostItemRoutes.put_id env id body user w = LostItemRoutes.put_id env id body owner w
  ∧ LostItemRoutes.delete_id env id user w = LostItemRoutes.delete_id env id owner w.
Proof. split; reflexivity. Qed.

Lemma LostItemsRouter_delete_id_forbidden (env : Env) (id : ObjectId)
    (user : AuthUser.t) (w : World) (item : LostItem.t) (finder : User.t) :
  lostItems w !! id = Some item →
  users w !! LostItem.foundBy item = Some finder →
  AuthUser.role user ≠ "admin" →
  AuthUser.role user ≠ "supervisor" →
  LostItemsRouter.delete_id env id (Some user) w
  = (w, status_json 403 (Message "Not authorized to delete this item")).
Proof.
  intros Hitem Hfinder Hadmin Hsupervisor.
  unfold LostItemsRouter.delete_id. run.
  rewrite Hitem. simpl. by rewrite (notAuthorized_employee user w _ finder).
Qed.

(** ** Dangling references in the list reads *)

Lemma sameStore_refl w : sameStore w w.
Proof. by repeat split. Qed.

Lemma sameStore_trans w1 w2 w3 : sameStore w1 w2 → sameStore w2 w3 → sameStore w1 w3.
Proof.
  intros (? & ? & ? & ? & ? & ?) (? & ? & ? & ? & ? & ?).
  repeat split; try congruence. set_solver.
Qed.

Lemma sameStore_usedIds w w' : sameStore w w' → usedIds w ⊆ usedIds w'.
Proof.
  intros (Hu & Hp & Hl & Hd & _ & Hi). unfold usedIds.
  rewrite Hu, Hp, Hl, Hd. by repeat apply union_mono_r.
Qed.

Lemma isPlaceholder_earlier w w' u :
  sameStore w w' → isPlaceholder w' u → isPlaceholder w u.
Proof.
  intros Hsame (? & ? & ? & Hfresh). repeat split; try done.
  apply sameStore_usedIds in Hsame. intros Hin. by apply Hfresh, Hsame.
Qed.

Lemma shownAs_earlier w w' ref u :
  sameStore w w' → shownAs w' ref u → shownAs w ref u.
Proof.
  intros Hsame. unfold shownAs.
  destruct Hsame as (Hu & Hrest). rewrite Hu.
  destruct (ref ≫= _) as [[id user]|]; [done|].
  apply isPlaceholder_earlier. by split.
Qed.

Lemma createPlaceholderUser_spec w :
  ∃ w' u, createPlaceholderUser w = (w', Value u) ∧ sameStore w w' ∧ isPlaceholder w u.
Proof.
  unfold createPlaceholderUser. run. eexists _, _. split; [done|].
  split; [|by repeat split; try apply is_fresh].
  repeat split; simpl; try done. set_solver.
Qed.

(** A missing reference and a bare identifier both get a placeholder. *)
Lemma cleanRef_spec (ref : Ref) (w : World) :
  ∃ w' u, cleanRef ref w = (w', Value u)
          ∧ sameStore w w'
          ∧ match ref with
            | RefDoc resolved => u = resolved
            | _ => isPlaceholder w u
            end.
Proof.
  destruct ref as [|id|resolved]; simpl; try apply createPlaceholderUser_spec.
  exists w, resolved. by repeat split.
Qed.

Lemma cleanRef_populate (ref : option ObjectId) (w0 w : World) :
  sameStore w0 w →
  ∃ w' u, cleanRef (populate w ref) w = (w', Value u)
          ∧ sameStore w0 w' ∧ shownAs w0 ref u.
Proof.
  intros Hsame.
  destruct (cleanRef_spec (populate w ref) w) as (w' & u & Hrun & Hsame' & Hu).
  exists w', u. split; [done|]. split; [by eapply sameStore_trans|].
  apply (shownAs_earlier w0 w); [done|].
  unfold shownAs, populate in *.
  destruct ref as [id|]; simpl; [|done].
  by destruct (users w !! id).
Qed.

#[local] Arguments cleanRef : simpl never.

Lemma LostItemRoutes_clean_spec (item : Doc LostItem.t) (w0 w : World) :
  sameStore w0 w →
  ∃ w' c, LostItemRoutes.clean item w = (w', Value c)
          ∧ sameStore w0 w' ∧ shownLostItem w0 item c.
Proof.
  intros Hsame. unfold LostItemRoutes.clean. run.
  destruct (cleanRef_populate (Some (LostItem.foundBy (fields item))) w0 w Hsame)
    as (w1 & u1 & -> & Hsame1 & Hu1).
  destruct Hsame as (Hu & _), Hsame1 as (Hv & Hrest1).
  assert (sameStore w0 w1) as Hsame1 by by split.
  assert (populate w (Some (LostItem.supervisor (fields item)))
          = populate w1 (Some (LostItem.supervisor (fields item)))) as ->
    by (unfold populate; by rewrite Hu, Hv).
  destruct (cleanRef_populate (Some (LostItem.supervisor (fields item))) w0 w1 Hsame1)
    as (w2 & u2 & -> & Hsame2 & Hu2).
  assert (populate w (LostItem.deliveredBy (fields item))
          = populate w2 (LostItem.deliveredBy (fields item))) as ->.
  { destruct Hsame2 as (Hw2 & _). unfold populate. by rewrite Hu, Hw2. }
  destruct (cleanRef_populate (LostItem.deliveredBy (fields item)) w0 w2 Hsame2)
    as (w3 & u3 & -> & Hsame3 & Hu3).
  eexists _, _. split; [reflexivity|]. split; [done|]. by repeat split.
Qed.

Lemma DeliveredItemsRouter_clean_spec (item : Doc DeliveredItem.t) (w0 w : World) :
  sameStore w0 w →
  ∃ w' c, DeliveredItemsRouter.clean item w = (w', Value c)
          ∧ sameStore w0 w' ∧ shownDeliveredItem w0 item c.
Proof.
  intros Hsame. unfold DeliveredItemsRouter.clean. run.
  destruct (cleanRef_populate (Some (DeliveredItem.foundBy (fields item))) w0 w Hsame)
    as (w1 & u1 & -> & Hsame1 & Hu1).
  assert (populate w (DeliveredItem.deliveredBy (fields item))
          = populate w1 (DeliveredItem.deliveredBy (fields item))) as ->.
  { destruct Hsame as (Hu & _), Hsame1 as (Hv & _). unfold populate. by rewrite Hu, Hv. }
  destruct (cleanRef_populate (DeliveredItem.deliveredBy (fields item)) w0 w1 Hsame1)
    as (w2 & u2 & -> & Hsame2 & Hu2).
  eexists _, _. split; [reflexivity|]. split; [done|]. by repeat split.
Qed.

(** Cleaning a list: one entry per document, in order. *)
Lemma forEach_clean {A C} (clean : Doc A → Handler C) (shown : World → Doc A → C → Prop)
    (w0 : World) :
  (∀ item w, sameStore w0 w →
     ∃ w' c, clean item w = (w', Value c) ∧ sameStore w0 w' ∧ shown w0 item c) →
  ∀ items w, sameStore w0 w →
    ∃ w' cleaned, forEach clean items w = (w', Value cleaned)
                  ∧ sameStore w0 w' ∧ Forall2 (shown w0) items cleaned.
Proof.
  intros Hclean items. induction items as [|item items IH]; intros w Hsame; simpl.
  - exists w, []. split; [done|]. split; [done|]. constructor.
  - run. destruct (Hclean item w Hsame) as (w1 & c & -> & Hsame1 & Hc).
    destruct (IH w1 Hsame1) as (w2 & cs & -> & Hsame2 & Hcs).
    exists w2, (c :: cs). split; [done|]. split; [done|]. by constructor.
Qed.

Lemma shown_items {A C} (shown : Doc A → C → Prop) (item : C → Doc A)
    (items : list (Doc A)) (cleaned : list C) :
  (∀ i c, shown i c → item c = i) →
  Forall2 shown items cleaned →
  item <$> cleaned = items ∧ ∀ c, c ∈ cleaned → shown (item c) c.
Proof.
  intros Hitem. induction 1 as [|i c items cleaned Hc _ [IH1 IH2]].
  - split; [done|]. by intros c ?%elem_of_nil.
  - split.
    + rewrite fmap_cons. f_equal; [by apply Hitem|done].
    + intros c' [->|Hc']%elem_of_cons; [|by apply IH2].
      by rewrite (Hitem i c Hc).
Qed.


(** * The claims on the concrete deployment *)

(** The registration theorem at two payloads of which one asks for the
    admin role. *)
Lemma C9_register_role_witness :
  sameRegistration Scenario.applicationAsAdmin Scenario.application
  ∧ AuthRoutes.post_register Scenario.env Scenario.applicationAsAdmin Scenario.world
    = AuthRoutes.post_register Scenario.env Scenario.application Scenario.world
  ∧ AuthRoutesBasic.post_register Scenario.env Scenario.applicationAsAdmin Scenario.world
    = AuthRoutesBasic.post_register Scenario.env Scenario.application Scenario.world.
Proof.
  assert (sameRegistration Scenario.applicationAsAdmin Scenario.application) as Hsame
    by (vm_compute; reflexivity).
  split; [exact Hsame|].
  destruct (C9_register_role Scenario.env Scenario.applicationAsAdmin Scenario.application
              Scenario.world Hsame) as (Hfirst & Hsecond & _).
  split; [exact Hfirst|exact Hsecond].
Defined.

(** The permission-list theorem at a list that repeats a name. *)
Lemma C10_permissions_rejected_witness :
  AuthRoutes.put_users_permissions "e2" ["view_items"; "view_items"]
    Scenario.asAdmin Scenario.world
  = (Scenario.world, status_json 400 (Message "Invalid permissions provided")).
Proof.
  apply (C10_permissions_rejected "e2" ["view_items"; "view_items"]
           Scenario.asAdmin Scenario.world Scenario.admin).
  - vm_compute; reflexivity.
  - reflexivity.
  - apply (bool_decide_eq_true_1 (NoDup (catalogNames Scenario.world))).
    vm_compute; reflexivity.
  - left. apply (bool_decide_eq_true_1 (¬ NoDup ["view_items"; "view_items"])).
    vm_compute; reflexivity.
Defined.




(** Nor need its finder still be a user: for the orphaned item, complete
    as it is, the populated [foundBy] is [null], the new DeliveredItem
    fails its validation, the request is answered 500 and nothing is
    migrated. *)
Lemma deliver_finder_gone :
  ∃ w',
    lostItems Scenario.orphanage !! "i2" = Some Scenario.orphan
    ∧ LostItem_complete Scenario.orphan = true
    ∧ customerFieldsPresent Scenario.handover = true
    ∧ users Scenario.orphanage !! LostItem.foundBy Scenario.orphan = None
    ∧ LostItemRoutes.put_id_deliver Scenario.env "i2" Scenario.handover
        Scenario.asAdmin Scenario.orphanage
      = (w', status_json 500
               (Failure "Error delivering item" (ValidationError "foundBy")))
    ∧ lostItems w' = lostItems Scenario.orphanage
    ∧ deliveredItems w' = deliveredItems Scenario.orphanage.
Proof.
  eexists. repeat split; vm_compute; reflexivity.
Qed.

(** The amended delivery theorem at the service's delivery of the bag. *)
Lemma C2_deliver_migrates_service_marks_witness :
  ∃ kept,
    lostItems
      (DeliveredItemsService.markAsDelivered Scenario.env ("i1", Scenario.bag)
         Scenario.delivery "a1" Scenario.world).1 !! "i1" = Some kept
    ∧ LostItem.status kept = "delivered"
    ∧ LostItem.deliveredBy kept = Some "a1"
    ∧ LostItem.deliveredAt kept = Some (now Scenario.env).
Proof.
  refine (proj1 (proj2
    (C2_deliver_migrates_service_marks Scenario.env "i1" Scenario.handover
       Scenario.asAdmin Scenario.world ("i1", Scenario.bag) Scenario.delivery "a1"
       Scenario.bag
       (DeliveredItemsService.markAsDelivered Scenario.env ("i1", Scenario.bag)
          Scenario.delivery "a1" Scenario.world).1
       ("0", Scenario.deliveredBag) _ _))).
  - vm_compute; reflexivity.
  - vm_compute; reflexivity.
Defined.

(** C2, as stated, fails: after the service has marked the stored bag as
    delivered, the lost items still hold the bag, with status
    ['delivered'], next to the delivered item made from it. *)
Lemma C2_service_keeps_lost_item :
  ∃ w' d kept,
    DeliveredItemsService.markAsDelivered Scenario.env ("i1", Scenario.bag)
      Scenario.delivery "a1" Scenario.world = (w', Value d)
    ∧ lostItems w' !! "i1" = Some kept
    ∧ LostItem.status kept = "delivered"
    ∧ deliveredItems w' !! _id d = Some (fields d)
    ∧ DeliveredItem.itemName (fields d) = LostItem.itemName kept
    ∧ DeliveredItem.flightNumber (fields d) = LostItem.flightNumber kept
    ∧ DeliveredItem.dateFound (fields d) = LostItem.dateFound kept.
Proof.
  eexists _, _, _. split; [vm_compute; reflexivity|].
  split; [vm_compute; reflexivity|]. by vm_compute.
Qed.

(** C3 at a delivered item found at 1700000000000 and delivered at
    1700000500000: the admin's revert removes it and stores a lost item
    with the owner and status ['onHand'], whose [dateFound] is the date
    of delivery and not the date the item was found. *)
Theorem C3_revert_dateFound_is_delivery_date :
  ∃ w' newId lostItem,
    DeliveredItemsRouter.revert Scenario.env LostItemSchema
      (Some "Bearer token-of-admin") "d1" Scenario.world
    = (w', json (RevertedBody "Item reverted successfully" (newId, lostItem)))
    ∧ lostItems w' !! newId = Some lostItem
    ∧ deliveredItems w' !! "d1" = None
    ∧ LostItem.foundBy lostItem = DeliveredItem.foundBy Scenario.handedOver
    ∧ LostItem.status lostItem = "onHand"
    ∧ DeliveredItem.dateFound Scenario.handedOver = Some 1700000000000%Z
    ∧ DeliveredItem.dateDelivered Scenario.handedOver = 1700000500000%Z
    ∧ LostItem.dateFound lostItem = Some 1700000500000%Z.
Proof.
  eexists _, _, _. split; [vm_compute; reflexivity|].
  split; [vm_compute; reflexivity|]. by vm_compute.
Qed.

(** Under the schema of [models/LostItem.ts] the reverted item has the
    status ['pending'], that schema's default. *)
Lemma revert_status_under_pending_schema :
  ∃ w' newId lostItem,
    DeliveredItemsRouter.revert Scenario.env LostItemSchema_pending
      (Some "Bearer token-of-admin") "d1" Scenario.world
    = (w', json (RevertedBody "Item reverted successfully" (newId, lostItem)))
    ∧ LostItem.status lostItem = "pending"
    ∧ LostItem.dateFound lostItem = Some 1700000500000%Z.
Proof.
  eexists _, _, _. split; [vm_compute; reflexivity|]. by vm_compute.
Qed.

(** C4 at an employee who did not find the bag: the router with the
    deliver route lets the employee rewrite the bag and delete it. *)
Theorem C4_second_router_writes_unguarded :
  User.role Scenario.other = "employee"
  ∧ LostItem.foundBy Scenario.bag ≠ "e2"
  ∧ auth Scenario.env (Some "Bearer token-of-other") Scenario.world
    = Next Scenario.asOther
  ∧ (∃ w' changed refs,
       LostItemRoutes.update Scenario.env (Some "Bearer token-of-other") "i1"
         (<["description" := "tampered"]> ∅) Scenario.world
       = (w', json (LostItemBody ("i1", changed) refs))
       ∧ lostItems w' !! "i1" = Some changed
       ∧ LostItem.description changed = "tampered"
       ∧ LostItem.description Scenario.bag = "Black leather bag")
  ∧ (∃ w',
       LostItemRoutes.remove Scenario.env (Some "Bearer token-of-other") "i1"
         Scenario.world
       = (w', json (Message "Item deleted successfully"))
       ∧ lostItems w' !! "i1" = None).
Proof.
  split; [reflexivity|]. split; [by vm_compute|]. split; [by vm_compute|].
  split.
  - eexists _, _, _. split; [vm_compute; reflexivity|]. by vm_compute.
  - eexists. split; [vm_compute; reflexivity|]. by vm_compute.
Qed.


(** * Further properties *)

(** ** Status normalization, for every text *)

Lemma lower_ascii_idempotent (c : Ascii.ascii) :
  lower_ascii (lower_ascii c) = lower_ascii c.
Proof. destruct c as [[] [] [] [] [] [] [] []]; reflexivity. Qed.

Lemma toLowerCase_idempotent (s : string) :
  toLowerCase (toLowerCase s) = toLowerCase s.
Proof.
  induction s as [|c s IH]; simpl; [done|].
  by rewrite lower_ascii_idempotent, IH.
Qed.

(** The members of [Object.prototype] that a lower-cased key can name. *)
Lemma lowercase_prototype_member (key : string) :
  key ∈ objectPrototype → toLowerCase key = key →
  key = "constructor" ∨ key = "__proto__".
Proof.
  unfold objectPrototype. intros Hin Hlower.
  repeat (apply elem_of_cons in Hin as [->|Hin]; [by (left + right + discriminate)|]).
  by apply elem_of_nil in Hin.
Qed.

Lemma assoc_statusMap (key value : string) :
  assoc key statusMap = Some value →
  (key = "on-hand" ∧ value = "onHand")
  ∨ (key = "in-process" ∧ value = "inProcess")
  ∨ (key = "delivered" ∧ value = "delivered").
Proof.
  unfold statusMap, assoc.
  destruct (String.eqb_spec "on-hand" key); [intros; simplify_eq; tauto|].
  destruct (String.eqb_spec "in-process" key); [intros; simplify_eq; tauto|].
  destruct (String.eqb_spec "delivered" key); [intros; simplify_eq; tauto|].
  done.
Qed.

(** X1: normalizing twice is normalizing once: a text that
    [normalizeStatus] returns is returned unchanged when it is normalized
    again. *)
Theorem normalizeStatus_idempotent (status text : string) :
  normalizeStatus status = StatusText text →
  normalizeStatus text = StatusText text.
Proof.
  unfold normalizeStatus, read_property.
  destruct (assoc (toLowerCase status) statusMap) as [value|] eqn:Hassoc.
  - apply assoc_statusMap in Hassoc as [[_ ->]|[[_ ->]|[_ ->]]];
      simpl; intros; by simplify_eq.
  - destruct (bool_decide _) eqn:Hin; [done|].
    intros; simplify_eq. by rewrite Hassoc, Hin.
Qed.

Lemma normalizeStatus_idempotent_witness :
  normalizeStatus "IN-Process" = StatusText "inProcess"
  ∧ normalizeStatus "inProcess" = StatusText "inProcess".
Proof.
  split; [reflexivity|].
  apply (normalizeStatus_idempotent "IN-Process" "inProcess"). reflexivity.
Defined.

(** X2: the keys of the status table are matched without regard to the
    case of the letters: a status whose lower case is a key is mapped to
    the token of that key. *)
Theorem normalizeStatus_ignores_case (status external internal : string) :
  assoc external statusMap = Some internal →
  toLowerCase status = external →
  normalizeStatus status = StatusText internal.
Proof.
  intros Hassoc Hlower. unfold normalizeStatus, read_property.
  rewrite Hlower, Hassoc.
  by apply assoc_statusMap in Hassoc as [[_ ->]|[[_ ->]|[_ ->]]].
Qed.

Lemma normalizeStatus_ignores_case_witness :
  normalizeStatus "On-Hand" = StatusText "onHand".
Proof.
  apply (normalizeStatus_ignores_case "On-Hand" "on-hand" "onHand"); reflexivity.
Defined.

(** X3: [normalizeStatus] returns something that is not a text exactly
    for the statuses whose lower case is ["constructor"] or
    ["__proto__"], the two members of [Object.prototype] with a
    lower-case name; every other status gets a text. *)
Theorem normalizeStatus_prototype_members (status : string) :
  (∃ member, normalizeStatus status = PrototypeMember member)
  ↔ toLowerCase status = "constructor" ∨ toLowerCase status = "__proto__".
Proof.
  unfold normalizeStatus, read_property. split.
  - intros [member Hmember].
    destruct (assoc (toLowerCase status) statusMap) as [value|];
      [by destruct (truthy value)|].
    destruct (bool_decide _) eqn:Hin; [|done].
    apply bool_decide_eq_true in Hin.
    apply lowercase_prototype_member; [done|apply toLowerCase_idempotent].
  - intros [->| ->]; eexists; reflexivity.
Qed.

(** ** The bearer token *)

Lemma replace_unfold (pat rep s : string) :
  replace pat rep s
  = match strip_prefix pat s with
    | Some rest => rep +:+ rest
    | None =>
        match s with
        | EmptyString => EmptyString
        | String c s' => String c (replace pat rep s')
        end
    end.
Proof. by destruct s. Qed.

Lemma strip_prefix_app (p t : string) : strip_prefix p (p +:+ t) = Some t.
Proof.
  induction p as [|c p IH]; simpl; [by destruct t|].
  by rewrite Ascii.eqb_refl.
Qed.

Lemma bearerToken_prefix (token : string) :
  bearerToken (Some ("Bearer " +:+ token)) = Some token.
Proof.
  unfold bearerToken, fmap, option_fmap, option_map.
  by rewrite replace_unfold, (strip_prefix_app "Bearer " token).
Qed.

(** X4: [replace] takes a leading pattern off: the header
    ["Bearer " ++ token] yields exactly [token], whatever the token
    holds. *)
Theorem bearerToken_strips_prefix (token : string) :
  bearerToken (Some ("Bearer " +:+ token)) = Some token.
Proof.
  unfold bearerToken, fmap, option_fmap, option_map.
  rewrite replace_unfold.
  by rewrite (strip_prefix_app "Bearer " token).
Qed.

Lemma replace_absent (pat rep s : string) :
  occurs pat s = false → replace pat rep s = s.
Proof.
  induction s as [|c s IH]; intros Hocc; rewrite replace_unfold.
  - simpl in Hocc. by destruct (strip_prefix pat "").
  - simpl in Hocc. destruct (strip_prefix pat (String c s)); [done|].
    by rewrite IH.
Qed.

(** X5: a header that holds no ["Bearer "] anywhere is taken whole as
    the token: the scheme is not required. *)
Theorem bearerToken_without_scheme (header : string) :
  occurs "Bearer " header = false →
  bearerToken (Some header) = Some header.
Proof.
  intros Hocc. unfold bearerToken. simpl. f_equal. by apply replace_absent.
Qed.

Lemma bearerToken_without_scheme_witness :
  bearerToken (Some "token-of-admin") = Some "token-of-admin".
Proof. apply bearerToken_without_scheme. reflexivity. Defined.

(** X6: a verified token whose user is stored is let through when it
    comes as ["Bearer " ++ token], with the identity of that user. *)
Theorem auth_accepts_bearer (env : Env) (w : World) (token : string)
    (id : ObjectId) (user : User.t) :
  truthy token = true →
  jwt_verify env token = JwtDecoded (Some id) →
  users w !! id = Some user →
  auth env (Some ("Bearer " +:+ token)) w = Next (identity id user).
Proof.
  intros Htruthy Hverify Huser. unfold auth.
  rewrite bearerToken_prefix, Htruthy. simpl.
  by rewrite Hverify, Huser.
Qed.

Lemma auth_accepts_bearer_witness :
  auth Scenario.env (Some "Bearer token-of-finder") Scenario.world
  = Next Scenario.asFinder.
Proof.
  apply (auth_accepts_bearer Scenario.env Scenario.world "token-of-finder" "e1"
           Scenario.finder); vm_compute; reflexivity.
Defined.

(** ** Routes behind [checkRole] *)

(** X7: the two routes behind [checkRole(['admin'])], reverting a
    delivery and deleting a user, answer an authenticated user of any
    other role with 403 ACCESS_DENIED and change nothing. *)
Theorem admin_routes_denied (env : Env) (schema : LostItem.SchemaOptions)
    (authorization : option string) (id : ObjectId) (w : World) (user : AuthUser.t) :
  auth env authorization w = Next user →
  AuthUser.role user ≠ "admin" →
  DeliveredItemsRouter.revert env schema authorization id w
  = (w, status_json 403 (Coded "Access denied" "ACCESS_DENIED"))
  ∧ UsersRouter.remove env authorization id w
    = (w, status_json 403 (Coded "Access denied" "ACCESS_DENIED")).
Proof.
  intros Hauth Hrole.
  unfold DeliveredItemsRouter.revert, UsersRouter.remove, authorized, checkRole.
  rewrite Hauth.
  rewrite bool_decide_eq_false_2; [done|].
  intros Hin. apply elem_of_cons in Hin as [?|Hin]; [done|].
  by apply elem_of_nil in Hin.
Qed.

Lemma admin_routes_denied_witness :
  DeliveredItemsRouter.revert Scenario.env LostItemSchema
    (Some "Bearer token-of-finder") "d1" Scenario.world
  = (Scenario.world, status_json 403 (Coded "Access denied" "ACCESS_DENIED"))
  ∧ UsersRouter.remove Scenario.env (Some "Bearer token-of-finder") "e2" Scenario.world
    = (Scenario.world, status_json 403 (Coded "Access denied" "ACCESS_DENIED")).
Proof.
  apply (admin_routes_denied Scenario.env LostItemSchema
           (Some "Bearer token-of-finder") "d1" Scenario.world Scenario.asFinder).
  - vm_compute; reflexivity.
  - vm_compute; discriminate.
Defined.

(** ** The lost-items router with the inline guards *)

Lemma LostItem_validate_status (schema : LostItem.SchemaOptions) (item : LostItem.t) :
  LostItem_validate schema item = None →
  LostItem.status item ∈ LostItem.statusEnum schema.
Proof.
  intros Hvalid. apply first_error_None, Forall_app in Hvalid as [_ Hstatus].
  apply Forall_cons in Hstatus as [Hstatus _].
  by destruct (decide (LostItem.status item ∈ LostItem.statusEnum schema));
    [|rewrite bool_decide_eq_false_2 in Hstatus].
Qed.

Lemma LostItem_validate_supervisor (schema : LostItem.SchemaOptions) (item : LostItem.t) :
  LostItem_validate schema item = None →
  truthy (LostItem.supervisor item) = true.
Proof.
  intros Hvalid. apply first_error_None, Forall_app in Hvalid as [Hrequired _].
  unfold LostItem_required in Hrequired.
  repeat (apply Forall_cons in Hrequired as [? Hrequired]).
  by apply (required_None "supervisor").
Qed.

Lemma LostItem_validate_None (schema : LostItem.SchemaOptions) (item : LostItem.t) :
  first_error (LostItem_required item) = None →
  LostItem.status item ∈ LostItem.statusEnum schema →
  LostItem_validate schema item = None.
Proof.
  intros Hrequired Hstatus. apply first_error_None, Forall_app. split.
  - by apply first_error_None.
  - apply Forall_cons. split; [by rewrite bool_decide_eq_true_2|done].
Qed.

Lemma LostItem_assign_empty (item : LostItem.t) : LostItem_assign ∅ item = item.
Proof.
  destruct item. unfold LostItem_assign, assigned, assigned_opt. simpl.
  by rewrite !lookup_empty.
Qed.

Lemma LostItem_set_status_same (text : string) (item : LostItem.t) :
  LostItem_set_status text item = item ↔ text = LostItem.status item.
Proof.
  destruct item. unfold LostItem_set_status. simpl. split.
  - intros Heq. by injection Heq.
  - by intros ->.
Qed.

Lemma LostItem_set_same (item : LostItem.t) :
  LostItem_set_images (LostItem.images item)
    (LostItem_set_dateFound (LostItem.dateFound item) item) = item.
Proof. by destruct item. Qed.

(** X8: [PUT /:id] with a status, by an admin or a supervisor, stores
    the normalized status: on a stored item that has its required
    paths and whose finder is a stored user, the body [{ status }]
    leaves every other path alone; when the
    normalized status is the stored one nothing is written and no time
    stamp moves, otherwise [updatedAt] is stamped; the reply is the
    stored item. *)
Theorem LostItemsRouter_put_id_status (env : Env) (schema : LostItem.SchemaOptions)
    (id : ObjectId) (status text : string) (user : AuthUser.t) (w : World)
    (item : LostItem.t) (finder : User.t) :
  lostItems w !! id = Some item →
  users w !! LostItem.foundBy item = Some finder →
  AuthUser.role user = "admin" ∨ AuthUser.role user = "supervisor" →
  LostItem_complete item = true →
  truthy status = true →
  normalizeStatus status = StatusText text →
  text ∈ LostItem.statusEnum schema →
  let stored :=
    if bool_decide (text = LostItem.status item) then item
    else LostItem_touch (now env) (LostItem_set_status text item) in
  ∃ w' refs,
    LostItemsRouter.put_id env schema id {[ "status" := status ]} [] (Some user) w
    = (w', json (LostItemBody (id, stored) refs))
    ∧ lostItems w' = <[id := stored]> (lostItems w)
    ∧ users w' = users w
    ∧ deliveredItems w' = deliveredItems w.
Proof.
  intros Hitem _ Hrole Hcomplete Htruthy Hnormal Henum.
  apply bool_decide_eq_true in Hcomplete.
  unfold LostItemsRouter.put_id, LostItemsRouter.dateFoundUpdate,
    LostItemsRouter.statusUpdate, LostItem_populated, refAssigned.
  rewrite lookup_singleton_eq, lookup_singleton_ne by done.
  rewrite delete_singleton_ne, delete_singleton_eq by done.
  rewrite !lookup_empty.
  run. rewrite Hitem. simpl.
  rewrite (notAuthorized_staff user _ w Hrole).
  rewrite Htruthy, Hnormal. simpl.
  rewrite LostItem_assign_empty, LostItem_set_same.
  rewrite LostItem_validate_None; [|by destruct item|done].
  destruct (decide (text = LostItem.status item)) as [Hsame|Hother].
  - rewrite (bool_decide_eq_true_2 (text = _)) by done.
    rewrite (bool_decide_eq_false_2 (LostItem_set_status text item ≠ item))
      by (intros Hne; by apply Hne, LostItem_set_status_same).
    run. rewrite Hitem. simpl.
    eexists _, _. split; [reflexivity|]. split; [|done].
    symmetry. by apply insert_id.
  - rewrite (bool_decide_eq_false_2 (text = _)) by done.
    rewrite (bool_decide_eq_true_2 (LostItem_set_status text item ≠ item))
      by (by rewrite LostItem_set_status_same).
    run. rewrite lookup_insert_eq. simpl.
    eexists _, _. split; [reflexivity|]. done.
Qed.

Lemma LostItemsRouter_put_id_status_witness :
  ∃ w' refs,
    LostItemsRouter.put_id Scenario.env LostItemSchema "i1" {[ "status" := "DELIVERED" ]} []
      (Some Scenario.asAdmin) Scenario.world
    = (w', json (LostItemBody
                   ("i1", LostItem_touch (now Scenario.env)
                            (LostItem_set_status "delivered" Scenario.bag)) refs))
    ∧ lostItems w'
      = <["i1" := LostItem_touch (now Scenario.env)
                    (LostItem_set_status "delivered" Scenario.bag)]>
          (lostItems Scenario.world).
Proof.
  destruct (LostItemsRouter_put_id_status Scenario.env LostItemSchema "i1" "DELIVERED"
              "delivered" Scenario.asAdmin Scenario.world Scenario.bag Scenario.finder)
    as (w' & refs & Hrun & Hstore & _).
  - vm_compute; reflexivity.
  - vm_compute; reflexivity.
  - left. vm_compute; reflexivity.
  - vm_compute; reflexivity.
  - vm_compute; reflexivity.
  - vm_compute; reflexivity.
  - apply (bool_decide_eq_true_1 ("delivered" ∈ LostItem.statusEnum LostItemSchema)).
    vm_compute; reflexivity.
  - exists w', refs. split; [exact Hrun|exact Hstore].
Defined.

(** X9: a status that does not normalize to a member of the schema's
    enumeration is never stored: an admin's or a supervisor's update
    with such a status is answered 500 whatever else the request
    carries, and the collection of lost items is as it was.
    ["in-process"] is such a status. *)
Theorem LostItemsRouter_put_id_status_rejected (env : Env)
    (schema : LostItem.SchemaOptions) (id : ObjectId) (body : gmap string string)
    (files : list UploadedFile) (status : string) (user : AuthUser.t) (w : World)
    (item : LostItem.t) :
  lostItems w !! id = Some item →
  AuthUser.role user = "admin" ∨ AuthUser.role user = "supervisor" →
  body !! "status" = Some status →
  truthy status = true →
  (∀ text, normalizeStatus status = StatusText text →
           text ∉ LostItem.statusEnum schema) →
  let result := LostItemsRouter.put_id env schema id body files (Some user) w in
  result.2 = status_json 500 (Message "Error updating item")
  ∧ lostItems result.1 = lostItems w
  ∧ users result.1 = users w
  ∧ deliveredItems result.1 = deliveredItems w.
Proof.
  intros Hitem Hrole Hstatus Htruthy Hnormal.
  unfold LostItemsRouter.put_id, LostItemsRouter.dateFoundUpdate,
    LostItemsRouter.statusUpdate.
  rewrite Hstatus, Htruthy.
  destruct (normalizeStatus status) as [text|member] eqn:Htext.
  - specialize (Hnormal text eq_refl).
    run. rewrite Hitem. simpl.
    rewrite (notAuthorized_staff user _ w Hrole).
    repeat case_match; run; simplify_eq; simpl; try done;
      match goal with
      | H : LostItem_validate _ _ = None |- _ =>
          apply LostItem_validate_status in H; simpl in H; done
      end.
  - run. rewrite Hitem. simpl.
    rewrite (notAuthorized_staff user _ w Hrole).
    repeat case_match; run; simplify_eq; simpl; done.
Qed.

Lemma LostItemsRouter_put_id_status_rejected_witness :
  let result :=
    LostItemsRouter.put_id Scenario.env LostItemSchema "i1"
      {[ "status" := "in-process" ]} [] (Some Scenario.asAdmin) Scenario.world in
  result.2 = status_json 500 (Message "Error updating item")
  ∧ lostItems result.1 = lostItems Scenario.world
  ∧ users result.1 = users Scenario.world
  ∧ deliveredItems result.1 = deliveredItems Scenario.world.
Proof.
  apply (LostItemsRouter_put_id_status_rejected Scenario.env LostItemSchema "i1"
           {[ "status" := "in-process" ]} [] "in-process" Scenario.asAdmin
           Scenario.world Scenario.bag).
  - vm_compute; reflexivity.
  - left. vm_compute; reflexivity.
  - vm_compute; reflexivity.
  - vm_compute; reflexivity.
  - intros text Htext. vm_compute in Htext. injection Htext as <-.
    apply (bool_decide_eq_false_1 _). vm_compute; reflexivity.
Defined.

(** X10: [DELETE /:id] by an admin or a supervisor removes the item and
    nothing else: the other lost items, the users and the delivered
    items stay, and the image host is asked to delete every image that
    has a public id, whether or not it did so. *)
Theorem LostItemsRouter_delete_id_effect (env : Env) (id : ObjectId)
    (user : AuthUser.t) (w : World) (item : LostItem.t) :
  lostItems w !! id = Some item →
  AuthUser.role user = "admin" ∨ AuthUser.role user = "supervisor" →
  let result := LostItemsRouter.delete_id env id (Some user) w in
  result.2 = json (Message "Item deleted successfully")
  ∧ lostItems result.1 !! id = None
  ∧ (∀ other, other ≠ id → lostItems result.1 !! other = lostItems w !! other)
  ∧ users result.1 = users w
  ∧ deliveredItems result.1 = deliveredItems w
  ∧ hostCalls result.1
    = (hostCalls w ++ (Delete <$> hostedIds (LostItem.images item)))%list.
Proof.
  intros Hitem Hrole. unfold LostItemsRouter.delete_id, deleteImagesQuietly.
  run. rewrite Hitem. simpl.
  rewrite (notAuthorized_staff user _ w Hrole). simpl.
  split; [done|]. split; [apply lookup_delete_eq|].
  split; [|done]. intros other Hother. by apply lookup_delete_ne.
Qed.

Lemma LostItemsRouter_delete_id_effect_witness :
  let result :=
    LostItemsRouter.delete_id Scenario.env "i1" (Some Scenario.asAdmin) Scenario.world in
  result.2 = json (Message "Item deleted successfully")
  ∧ lostItems result.1 !! "i1" = None
  ∧ hostCalls result.1 = [Delete "lost/bag"].
Proof.
  destruct (LostItemsRouter_delete_id_effect Scenario.env "i1" Scenario.asAdmin
              Scenario.world Scenario.bag) as (Hreply & Hgone & _ & _ & _ & Hcalls);
    [vm_compute; reflexivity|left; vm_compute; reflexivity|].
  split; [exact Hreply|]. split; [exact Hgone|]. exact Hcalls.
Defined.

(** X11: [POST /] of this router never stores an item: the document it
    builds has no supervisor, which both schemas require, so every
    authenticated request is answered 500 and the collections are as
    they were, although the photographs of the request were sent to the
    image host. *)
Theorem LostItemsRouter_post_never_stores (env : Env) (schema : LostItem.SchemaOptions)
    (body : gmap string string) (files : list UploadedFile) (user : AuthUser.t)
    (w : World) :
  let result := LostItemsRouter_post env schema body files (Some user) w in
  result.2 = status_json 500 (Message "Error creating item")
  ∧ lostItems result.1 = lostItems w
  ∧ users result.1 = users w
  ∧ deliveredItems result.1 = deliveredItems w
  ∧ hostCalls result.1
    = (hostCalls w
       ++ ((λ f, Upload f "lost" (default "" (body !! "flightNumber"))) <$> files))%list.
Proof.
  unfold LostItemsRouter_post, uploadIfAny, uploadFiles, save. run.
  assert (∀ l : list HostCall, (l ++ [])%list = l) as Hnil by apply app_nil_r.
  repeat case_match; run; simplify_eq; simpl; rewrite ?Hnil; try done;
    match goal with
    | H : LostItem_validate _ _ = None |- _ =>
        apply LostItem_validate_supervisor in H; simpl in H; done
    end.
Qed.

(** ** The lost-items router with the deliver route *)



Lemma reportComplete_fields (body : gmap string string) (path : string) :
  reportComplete body = true → path ∈ reportFields →
  truthy (default "" (body !! path)) = true.
Proof.
  unfold reportComplete. intros Hall Hpath.
  apply truthy_opt_default.
  rewrite forallb_forall in Hall. apply Hall. by apply list_elem_of_In.
Qed.

Lemma LostItemRoutes_post_run (env : Env) (schema : LostItem.SchemaOptions)
    (body : gmap string string) (files : list UploadedFile) (user : AuthUser.t)
    (w : World) (date : Date) (images : list ImageInfo) :
  reportComplete body = true →
  body !! "dateFound" ≫= parseDate env = Some date →
  all (λ f, uploadFile env f "lost" (default "" (body !! "flightNumber"))) files
    = Some images →
  "onHand" ∈ LostItem.statusEnum schema →
  ∃ w' newId stored refs,
    LostItemRoutes_post env schema body files user w
    = (w', status_json 201 (LostItemBody (newId, stored) refs))
    ∧ lostItems w !! newId = None
    ∧ lostItems w' = <[newId := stored]> (lostItems w)
    ∧ users w' = users w
    ∧ deliveredItems w' = deliveredItems w
    ∧ LostItem_complete stored = true
    ∧ LostItem.status stored = "onHand"
    ∧ Some (LostItem.foundBy stored) = body !! "foundBy"
    ∧ Some (LostItem.supervisor stored) = body !! "supervisor"
    ∧ LostItem.dateFound stored = Some date
    ∧ LostItem.images stored = images
    ∧ LostItem.flightNumber stored = default "" (body !! "flightNumber").
Proof.
  intros Hcomplete Hdate Himages Henum.
  assert (∀ path, path ∈ reportFields → truthy (default "" (body !! path)) = true)
    as Hfield by (intros; by apply reportComplete_fields).
  assert (first_error
            (LostItem_required
               {| LostItem.itemName := default "" (body !! "itemName");
                  LostItem.description := default "" (body !! "description");
                  LostItem.location := default "" (body !! "location");
                  LostItem.category := default "" (body !! "category");
                  LostItem.status := "onHand";
                  LostItem.images := images;
                  LostItem.foundBy := default "" (body !! "foundBy");
                  LostItem.supervisor := default "" (body !! "supervisor");
                  LostItem.customerInfo := None;
                  LostItem.deliveredBy := None;
                  LostItem.deliveredAt := None;
                  LostItem.flightNumber := default "" (body !! "flightNumber");
                  LostItem.dateFound := Some date;
                  LostItem.createdAt := now env;
                  LostItem.updatedAt := now env |}) = None) as Hrequired.
  { apply first_error_None. unfold LostItem_required. simpl.
    repeat (apply Forall_cons; split); try done;
      apply required_None, Hfield; unfold reportFields; set_solver. }
  unfold LostItemRoutes_post, uploadFiles. run.
  rewrite Himages, Hdate. simpl.
  rewrite LostItem_validate_None; [|done|done].
  simpl. rewrite lookup_insert_eq. simpl.
  eexists _, _, _, _. split; [reflexivity|]. simpl.
  split.
  { eapply fresh_not_stored; [apply is_fresh|]. unfold usedIds. simpl. set_solver. }
  split; [done|]. split; [done|]. split; [done|].
  split; [by apply bool_decide_eq_true|]. split; [done|].
  cut (Some (default "" (body !! "foundBy")) = body !! "foundBy"
       ∧ Some (default "" (body !! "supervisor")) = body !! "supervisor"); [tauto|].
  assert (truthy (default "" (body !! "foundBy")) = true) as HfoundBy
    by (apply Hfield; unfold reportFields; set_solver).
  assert (truthy (default "" (body !! "supervisor")) = true) as Hsupervisor
    by (apply Hfield; unfold reportFields; set_solver).
  by destruct (body !! "foundBy"), (body !! "supervisor").
Qed.

(** X13: [POST /] of this router stores a complete report under a fresh
    id with the status ['onHand'], when the schema's enumeration has
    that status: the stored item has every required path, its finder
    and supervisor are the ones the body names (not the acting user)
    and its images are the uploaded ones. *)
Theorem LostItemRoutes_post_stores (env : Env) (schema : LostItem.SchemaOptions)
    (body : gmap string string) (files : list UploadedFile) (user : AuthUser.t)
    (w : World) (date : Date) (images : list ImageInfo) :
  reportComplete body = true →
  body !! "dateFound" ≫= parseDate env = Some date →
  all (λ f, uploadFile env f "lost" (default "" (body !! "flightNumber"))) files
    = Some images →
  "onHand" ∈ LostItem.statusEnum schema →
  ∃ w' newId stored refs,
    LostItemRoutes_post env schema body files user w
    = (w', status_json 201 (LostItemBody (newId, stored) refs))
    ∧ lostItems w !! newId = None
    ∧ lostItems w' = <[newId := stored]> (lostItems w)
    ∧ users w' = users w
    ∧ deliveredItems w' = deliveredItems w
    ∧ LostItem_complete stored = true
    ∧ LostItem.status stored = "onHand"
    ∧ Some (LostItem.foundBy stored) = body !! "foundBy"
    ∧ Some (LostItem.supervisor stored) = body !! "supervisor"
    ∧ LostItem.dateFound stored = Some date
    ∧ LostItem.images stored = images.
Proof.
  intros Hcomplete Hdate Himages Henum.
  destruct (LostItemRoutes_post_run env schema body files user w date images)
    as (w' & newId & stored & refs & Hrun & Hrest); [done..|].
  exists w', newId, stored, refs. split; [done|]. tauto.
Qed.

Lemma LostItemRoutes_post_stores_witness :
  ∃ w' newId stored refs,
    LostItemRoutes_post Cases.env LostItemSchema Cases.report [] Scenario.asOther
      Scenario.world
    = (w', status_json 201 (LostItemBody (newId, stored) refs))
    ∧ lostItems w' = <[newId := stored]> (lostItems Scenario.world)
    ∧ LostItem.status stored = "onHand"
    ∧ LostItem.foundBy stored = "e1".
Proof.
  destruct (LostItemRoutes_post_stores Cases.env LostItemSchema Cases.report []
              Scenario.asOther Scenario.world 1699920000000%Z [])
    as (w' & newId & stored & refs & Hrun & _ & Hstore & _ & _ & _ & Hstatus & Hfinder & _);
    [vm_compute; reflexivity|vm_compute; reflexivity|vm_compute; reflexivity| |].
  - apply (bool_decide_eq_true_1 _). vm_compute; reflexivity.
  - exists w', newId, stored, refs.
    split; [exact Hrun|]. split; [exact Hstore|]. split; [exact Hstatus|].
    vm_compute in Hfinder. by injection Hfinder.
Defined.

(** X14: under a schema whose enumeration has no ['onHand'], as the one
    of [models/LostItem.ts], [POST /] of this router stores nothing:
    every request is answered 500 and the collections are as they
    were. *)
Theorem LostItemRoutes_post_status_outside_enum (env : Env)
    (schema : LostItem.SchemaOptions) (body : gmap string string)
    (files : list UploadedFile) (user : AuthUser.t) (w : World) :
  "onHand" ∉ LostItem.statusEnum schema →
  let result := LostItemRoutes_post env schema body files user w in
  status result.2 = 500
  ∧ lostItems result.1 = lostItems w
  ∧ users result.1 = users w
  ∧ deliveredItems result.1 = deliveredItems w.
Proof.
  intros Henum. unfold LostItemRoutes_post, uploadFiles, save. run.
  repeat case_match; run; simplify_eq; simpl; try done;
    match goal with
    | H : LostItem_validate _ _ = None |- _ =>
        apply LostItem_validate_status in H; simpl in H; done
    end.
Qed.

Lemma LostItemRoutes_post_status_outside_enum_witness :
  let result :=
    LostItemRoutes_post Cases.env LostItemSchema_pending Cases.report []
      Scenario.asOther Scenario.world in
  status result.2 = 500
  ∧ lostItems result.1 = lostItems Scenario.world
  ∧ users result.1 = users Scenario.world
  ∧ deliveredItems result.1 = deliveredItems Scenario.world.
Proof.
  apply (LostItemRoutes_post_status_outside_enum Cases.env LostItemSchema_pending
           Cases.report [] Scenario.asOther Scenario.world).
  apply (bool_decide_eq_false_1 _). vm_compute; reflexivity.
Defined.

(** X15: a deliver request without all the customer fields changes
    nothing: it is answered 404 when the item is not stored, 500 when
    the customer block of the request does not parse, 400 when a field
    is missing or empty. *)
Theorem put_id_deliver_rejected (env : Env) (id : ObjectId) (req : DeliverRequest.t)
    (user : AuthUser.t) (w : World) :
  customerFieldsPresent req = false →
  LostItemRoutes.put_id_deliver env id req user w
  = (w, match lostItems w !! id with
        | None => status_json 404 (Message "Item not found")
        | Some _ =>
            match DeliverRequest.customerInfo req with
            | None => status_json 500 (Failure "Error delivering item" SyntaxError)
            | Some _ => status_json 400 (Message "Missing required fields")
            end
        end).
Proof.
  intros Hfields. unfold customerFieldsPresent in Hfields.
  unfold LostItemRoutes.put_id_deliver. run.
  destruct (lostItems w !! id) as [item|]; [|done]. simpl.
  destruct (DeliverRequest.customerInfo req) as [info|]; [|done]. simpl.
  destruct (truthy_opt (ReceiverInfo.receiverName info)),
    (truthy_opt (ReceiverInfo.receiverEmail info)),
    (truthy_opt (ReceiverInfo.receiverPhone info)),
    (truthy_opt (ReceiverInfo.receiverIdentification info)),
    (truthy_opt (DeliverRequest.signature req)); done.
Qed.

Lemma put_id_deliver_rejected_witness :
  LostItemRoutes.put_id_deliver Scenario.env "i1" Cases.unsigned Scenario.asAdmin
    Scenario.world
  = (Scenario.world, status_json 400 (Message "Missing required fields")).
Proof.
  apply (put_id_deliver_rejected Scenario.env "i1" Cases.unsigned Scenario.asAdmin
           Scenario.world).
  reflexivity.
Defined.

(** ** Round trips through delivery *)

Lemma put_id_deliver_run (env : Env) (id : ObjectId) (req : DeliverRequest.t)
    (user : AuthUser.t) (w : World) (item : LostItem.t) (finder : User.t)
    (photos : list ImageInfo) :
  lostItems w !! id = Some item →
  users w !! LostItem.foundBy item = Some finder →
  LostItem_complete item = true →
  customerFieldsPresent req = true →
  all (λ f, uploadFile env f "delivered" (LostItem.flightNumber item))
      (DeliverRequest.files req) = Some photos →
  ∃ newId d w',
    LostItemRoutes.put_id_deliver env id req user w
      = (w', json (DeliveredItemBody (newId, d)))
    ∧ deliveredItems w !! newId = None
    ∧ deliveredItems w' = <[newId := d]> (deliveredItems w)
    ∧ lostItems w' = delete id (lostItems w)
    ∧ users w' = users w
    ∧ DeliveredItem_validate d = None
    ∧ DeliveredItem.itemName d = LostItem.itemName item
    ∧ DeliveredItem.description d = LostItem.description item
    ∧ DeliveredItem.location d = LostItem.location item
    ∧ DeliveredItem.category d = LostItem.category item
    ∧ DeliveredItem.flightNumber d = LostItem.flightNumber item
    ∧ DeliveredItem.foundBy d = LostItem.foundBy item
    ∧ DeliveredItem.images d = LostItem.images item
    ∧ DeliveredItem.dateFound d = LostItem.dateFound item
    ∧ DeliveredItem.dateDelivered d = now env.
Proof.
  intros Hitem Hfinder Hcomplete Hfields Hphotos.
  apply bool_decide_eq_true, first_error_None in Hcomplete.
  unfold LostItem_required in Hcomplete.
  repeat (apply Forall_cons in Hcomplete as [? Hcomplete]).
  repeat match goal with H : required _ _ = None |- _ => apply required_None in H end.
  unfold customerFieldsPresent in Hfields.
  destruct (DeliverRequest.customerInfo req) as [info|] eqn:Hinfo; [|done].
  repeat (apply andb_true_iff in Hfields as [Hfields ?]).
  unfold LostItemRoutes.put_id_deliver, uploadFiles. run.
  rewrite Hitem, Hinfo. simpl.
  repeat match goal with H : truthy_opt _ = true |- _ => rewrite H end.
  simpl.
  rewrite (uploadIfAny_accepted _ _ _ _ _ _ Hphotos).
  rewrite (foundBy_kept w _ finder Hfinder).
  match goal with
  | |- context [DeliveredItem_validate ?d] =>
      assert (DeliveredItem_validate d = None) as Hvalid
        by (apply DeliveredItem_validate_None; simpl;
            rewrite ?or_else_truthy; auto using truthy_opt_default)
  end.
  rewrite Hvalid. simpl.
  eexists _, _, _. split; [reflexivity|]. simpl.
  destruct (uploadsLogged_store (DeliverRequest.files req) "delivered"
              (LostItem.flightNumber item) w) as (Hu & Hp & Hl & Hd & _).
  rewrite Hu, Hl, Hd.
  split.
  { eapply fresh_not_stored; [apply is_fresh|].
    unfold usedIds. rewrite Hd. set_solver. }
  split; [done|]. split; [done|]. split; [done|]. split; [exact Hvalid|].
  split; [by apply or_else_truthy|]. done.
Qed.

Lemma auth_users (env : Env) (authorization : option string) (w w' : World) :
  users w' = users w → auth env authorization w' = auth env authorization w.
Proof.
  intros Husers. unfold auth, findUser. by rewrite Husers.
Qed.

(** X16: a report that names a stored user as finder and is created
    and then delivered leaves the collection of lost items as it was
    before the report: the item is stored under a fresh id, the
    delivery moves it to the delivered items with the finder that the
    report named. *)
Theorem create_then_deliver (env : Env) (schema : LostItem.SchemaOptions)
    (body : gmap string string) (files : list UploadedFile) (reporter clerk : AuthUser.t)
    (req : DeliverRequest.t) (w : World) (date : Date) (images photos : list ImageInfo)
    (finderId : ObjectId) (finder : User.t) :
  reportComplete body = true →
  body !! "foundBy" = Some finderId →
  users w !! finderId = Some finder →
  body !! "dateFound" ≫= parseDate env = Some date →
  all (λ f, uploadFile env f "lost" (default "" (body !! "flightNumber"))) files
    = Some images →
  "onHand" ∈ LostItem.statusEnum schema →
  customerFieldsPresent req = true →
  all (λ f, uploadFile env f "delivered" (default "" (body !! "flightNumber")))
      (DeliverRequest.files req) = Some photos →
  ∃ w1 newId stored refs w2 deliveredId d,
    LostItemRoutes_post env schema body files reporter w
    = (w1, status_json 201 (LostItemBody (newId, stored) refs))
    ∧ LostItemRoutes.put_id_deliver env newId req clerk w1
      = (w2, json (DeliveredItemBody (deliveredId, d)))
    ∧ lostItems w2 = lostItems w
    ∧ deliveredItems w2 = <[deliveredId := d]> (deliveredItems w)
    ∧ deliveredItems w !! deliveredId = None
    ∧ Some (DeliveredItem.foundBy d) = body !! "foundBy"
    ∧ DeliveredItem.dateFound d = Some date
    ∧ DeliveredItem.images d = images.
Proof.
  intros Hcomplete HfinderId Hfinder0 Hdate Himages Henum Hfields Hphotos.
  destruct (LostItemRoutes_post_run env schema body files reporter w date images)
    as (w1 & newId & stored & refs & Hpost & Hfresh & Hlost1 & Husers1 & Hdelivered1
        & Hstored & _ & HfoundBy & _ & HdateFound & Himgs & Hflight); [done..|].
  destruct (put_id_deliver_run env newId req clerk w1 stored finder photos)
    as (deliveredId & d & w2 & Hdeliver & Hfresh2 & Hdelivered2 & Hlost2 & _ & _
        & _ & _ & _ & _ & _ & Hfinder & Himages2 & Hdate2 & _).
  { rewrite Hlost1. apply lookup_insert_eq. }
  { rewrite Husers1. rewrite HfinderId in HfoundBy. by simplify_eq. }
  { done. }
  { done. }
  { by rewrite Hflight. }
  exists w1, newId, stored, refs, w2, deliveredId, d.
  split; [done|]. split; [done|].
  split. { rewrite Hlost2, Hlost1. by apply delete_insert_id. }
  split; [by rewrite Hdelivered2, Hdelivered1|].
  split; [by rewrite <- Hdelivered1|].
  by rewrite Hfinder, Hdate2, Himages2.
Qed.

Lemma create_then_deliver_witness :
  ∃ w1 newId stored refs w2 deliveredId d,
    LostItemRoutes_post Cases.env LostItemSchema Cases.report [] Scenario.asFinder
      Scenario.world
    = (w1, status_json 201 (LostItemBody (newId, stored) refs))
    ∧ LostItemRoutes.put_id_deliver Cases.env newId Scenario.handover Scenario.asAdmin w1
      = (w2, json (DeliveredItemBody (deliveredId, d)))
    ∧ lostItems w2 = lostItems Scenario.world
    ∧ deliveredItems w2 = <[deliveredId := d]> (deliveredItems Scenario.world).
Proof.
  destruct (create_then_deliver Cases.env LostItemSchema Cases.report []
              Scenario.asFinder Scenario.asAdmin Scenario.handover Scenario.world
              1699920000000%Z [] [Scenario.handoverPhoto] "e1" Scenario.finder)
    as (w1 & newId & stored & refs & w2 & deliveredId & d & Hpost & Hdeliver
        & Hlost & Hdelivered & _);
    [vm_compute; reflexivity|vm_compute; reflexivity|vm_compute; reflexivity|
     vm_compute; reflexivity|vm_compute; reflexivity| |
     vm_compute; reflexivity|vm_compute; reflexivity|].
  - apply (bool_decide_eq_true_1 _). vm_compute; reflexivity.
  - exists w1, newId, stored, refs, w2, deliveredId, d.
    split; [exact Hpost|]. split; [exact Hdeliver|]. split; [exact Hlost|exact Hdelivered].
Defined.

(** X17: delivering an item whose finder is a stored user and
    reverting the delivery, as an admin, does not give the item back as
    it was: the delivered items are as
    before, the lost item is stored again under a new id with its name,
    description, location, category, flight number, images and finder,
    but its date found is the instant of the delivery, its supervisor
    is the admin who reverted and its status is the schema's default. *)
Theorem deliver_then_revert (env : Env) (schema : LostItem.SchemaOptions)
    (id : ObjectId) (req : DeliverRequest.t) (clerk admin : AuthUser.t)
    (authorization : option string) (w : World) (item : LostItem.t)
    (finder : User.t) (photos : list ImageInfo) :
  lostItems w !! id = Some item →
  users w !! LostItem.foundBy item = Some finder →
  LostItem_complete item = true →
  customerFieldsPresent req = true →
  all (λ f, uploadFile env f "delivered" (LostItem.flightNumber item))
      (DeliverRequest.files req) = Some photos →
  auth env authorization w = Next admin →
  AuthUser.role admin = "admin" →
  truthy (AuthUser._id admin) = true →
  LostItem.statusDefault schema ∈ LostItem.statusEnum schema →
  ∃ w1 deliveredId d w2 lostId lostItem,
    LostItemRoutes.put_id_deliver env id req clerk w
    = (w1, json (DeliveredItemBody (deliveredId, d)))
    ∧ DeliveredItemsRouter.revert env schema authorization deliveredId w1
      = (w2, json (RevertedBody "Item reverted successfully" (lostId, lostItem)))
    ∧ deliveredItems w2 = deliveredItems w
    ∧ lostItems w2 = <[lostId := lostItem]> (delete id (lostItems w))
    ∧ LostItem.itemName lostItem = LostItem.itemName item
    ∧ LostItem.description lostItem = LostItem.description item
    ∧ LostItem.location lostItem = LostItem.location item
    ∧ LostItem.category lostItem = LostItem.category item
    ∧ LostItem.flightNumber lostItem = LostItem.flightNumber item
    ∧ LostItem.images lostItem = LostItem.images item
    ∧ LostItem.foundBy lostItem = LostItem.foundBy item
    ∧ LostItem.dateFound lostItem = Some (now env)
    ∧ LostItem.supervisor lostItem = AuthUser._id admin
    ∧ LostItem.status lostItem = LostItem.statusDefault schema.
Proof.
  intros Hitem Hfinder Hcomplete Hfields Hphotos Hauth Hrole Hid Hdefault.
  destruct (put_id_deliver_run env id req clerk w item finder photos)
    as (deliveredId & d & w1 & Hdeliver & Hfresh & Hdelivered1 & Hlost1 & Husers1
        & Hvalid & HitemName & Hdescription & Hlocation & Hcategory & Hflight
        & HfoundBy & Himages & _ & HdateDelivered); [done..|].
  destruct (post_id_revert_dateDelivered env schema deliveredId admin w1 d finder)
    as (w2 & lostId & lostItem & Hrevert & _ & Hlost2 & Hdelivered2 & H1 & H2 & H3
        & H4 & H5 & H6 & H7 & H8 & H9 & H10); [|by rewrite Husers1, HfoundBy|done..|].
  { rewrite Hdelivered1. apply lookup_insert_eq. }
  exists w1, deliveredId, d, w2, lostId, lostItem.
  split; [done|].
  split.
  { unfold DeliveredItemsRouter.revert, authorized, checkRole, createAuthenticatedHandler.
    rewrite (auth_users env authorization w w1 Husers1), Hauth, Hrole.
    by rewrite bool_decide_eq_true_2 by set_solver. }
  split. { rewrite Hdelivered2, Hdelivered1. by apply delete_insert_id. }
  split; [by rewrite Hlost2, Hlost1|].
  rewrite H1, H2, H3, H4, H5, H6, H7, H8, H9, H10.
  by rewrite HitemName, Hdescription, Hlocation, Hcategory, Hflight, HfoundBy,
    Himages, HdateDelivered.
Qed.

Lemma deliver_then_revert_witness :
  ∃ w1 deliveredId d w2 lostId lostItem,
    LostItemRoutes.put_id_deliver Scenario.env "i1" Scenario.handover Scenario.asFinder
      Scenario.world
    = (w1, json (DeliveredItemBody (deliveredId, d)))
    ∧ DeliveredItemsRouter.revert Scenario.env LostItemSchema
        (Some "Bearer token-of-admin") deliveredId w1
      = (w2, json (RevertedBody "Item reverted successfully" (lostId, lostItem)))
    ∧ deliveredItems w2 = deliveredItems Scenario.world
    ∧ LostItem.dateFound Scenario.bag = Some 1700000000000%Z
    ∧ LostItem.dateFound lostItem = Some 1700000600000%Z
    ∧ LostItem.supervisor lostItem = "a1".
Proof.
  destruct (deliver_then_revert Scenario.env LostItemSchema "i1" Scenario.handover
              Scenario.asFinder Scenario.asAdmin (Some "Bearer token-of-admin")
              Scenario.world Scenario.bag Scenario.finder [Scenario.handoverPhoto])
    as (w1 & deliveredId & d & w2 & lostId & lostItem & Hdeliver & Hrevert & Hdelivered
        & _ & _ & _ & _ & _ & _ & _ & _ & Hdate & Hsupervisor & _);
    [vm_compute; reflexivity..| |].
  - apply (bool_decide_eq_true_1
             (LostItem.statusDefault LostItemSchema ∈ LostItem.statusEnum LostItemSchema)).
    vm_compute; reflexivity.
  - exists w1, deliveredId, d, w2, lostId, lostItem.
    split; [exact Hdeliver|]. split; [exact Hrevert|]. split; [exact Hdelivered|].
    split; [reflexivity|]. split; [exact Hdate|exact Hsupervisor].
Defined.

(** ** The lists *)

Lemma get_all_run (user : AuthUser.t) (w : World) :
  ∃ w' cleaned,
    LostItemRoutes.get_all user w = (w', json (LostItemsBody cleaned))
    ∧ sameStore w w'
    ∧ CleanedLostItem.item <$> cleaned
      = merge_sort LostItemRoutes.newestFirst (map_to_list (lostItems w))
    ∧ ∀ c, c ∈ cleaned → shownLostItem w (CleanedLostItem.item c) c.
Proof.
  unfold LostItemRoutes.get_all, try_catch, bind, find. cbv beta iota.
  change (collection LostItemModel w) with (lostItems w).
  rewrite forallb_filter_id by by apply forallb_forall.
  set (items := merge_sort _ _).
  destruct (forEach_clean LostItemRoutes.clean shownLostItem w
              (λ item w1, LostItemRoutes_clean_spec item w w1)
              items w (sameStore_refl w))
    as (w' & cleaned & Hrun & Hsame & Hshown).
  rewrite Hrun.
  destruct (shown_items (shownLostItem w) CleanedLostItem.item items cleaned
              (λ i c H, proj1 H) Hshown) as [Hitems Hentries].
  by exists w', cleaned.
Qed.

Lemma get_search_run (env : Env) (query : SearchQuery.t) (user : AuthUser.t) (w : World) :
  ∃ w' cleaned,
    DeliveredItemsRouter.get_search env query user w
      = (w', json (DeliveredItemsBody cleaned))
    ∧ sameStore w w'
    ∧ CleanedDeliveredItem.item <$> cleaned
      = merge_sort DeliveredItemsRouter.latestFirst
          (List.filter (DeliveredItemsRouter.searchFilter env query user)
             (map_to_list (deliveredItems w)))
    ∧ ∀ c, c ∈ cleaned → shownDeliveredItem w (CleanedDeliveredItem.item c) c.
Proof.
  unfold DeliveredItemsRouter.get_search, try_catch, bind, find. cbv beta iota.
  change (collection DeliveredItemModel w) with (deliveredItems w).
  set (items := merge_sort _ _).
  destruct (forEach_clean DeliveredItemsRouter.clean shownDeliveredItem w
              (λ item w1, DeliveredItemsRouter_clean_spec item w w1)
              items w (sameStore_refl w))
    as (w' & cleaned & Hrun & Hsame & Hshown).
  rewrite Hrun.
  destruct (shown_items (shownDeliveredItem w) CleanedDeliveredItem.item items cleaned
              (λ i c H, proj1 H) Hshown) as [Hitems Hentries].
  by exists w', cleaned.
Qed.

Lemma newestFirst_order :
  Transitive LostItemRoutes.newestFirst ∧ Total LostItemRoutes.newestFirst.
Proof.
  unfold LostItemRoutes.newestFirst. split.
  - intros a b c. lia.
  - intros a b. lia.
Qed.

Lemma latestFirst_order :
  Transitive DeliveredItemsRouter.latestFirst ∧ Total DeliveredItemsRouter.latestFirst.
Proof.
  unfold DeliveredItemsRouter.latestFirst. split.
  - intros a b c. lia.
  - intros a b. lia.
Qed.

(** X18: the two lists come sorted: in the list of lost items every
    entry was created no earlier than every entry after it, in the
    search result every entry was delivered no earlier than every entry
    after it. *)
Theorem lists_sorted (env : Env) (query : SearchQuery.t) (user : AuthUser.t) (w : World) :
  (∃ w' cleaned,
     LostItemRoutes.get_all user w = (w', json (LostItemsBody cleaned))
     ∧ StronglySorted LostItemRoutes.newestFirst (CleanedLostItem.item <$> cleaned))
  ∧ (∃ w' cleaned,
       DeliveredItemsRouter.get_search env query user w
         = (w', json (DeliveredItemsBody cleaned))
       ∧ StronglySorted DeliveredItemsRouter.latestFirst
           (CleanedDeliveredItem.item <$> cleaned)).
Proof.
  split.
  - destruct (get_all_run user w) as (w' & cleaned & Hrun & _ & Hitems & _).
    exists w', cleaned. split; [done|]. rewrite Hitems.
    destruct newestFirst_order. by apply StronglySorted_merge_sort.
  - destruct (get_search_run env query user w) as (w' & cleaned & Hrun & _ & Hitems & _).
    exists w', cleaned. split; [done|]. rewrite Hitems.
    destruct latestFirst_order. by apply StronglySorted_merge_sort.
Qed.

(** X19: what a search shows: every entry is a stored delivered item;
    a user who is neither admin nor supervisor is shown only items that
    the user found; archived items are shown only when the query says
    [includeArchived=true]; and every stored item that passes the
    filter is shown. *)
Theorem get_search_visibility (env : Env) (query : SearchQuery.t) (user : AuthUser.t)
    (w : World) :
  ∃ w' cleaned,
    DeliveredItemsRouter.get_search env query user w
      = (w', json (DeliveredItemsBody cleaned))
    ∧ (∀ c, c ∈ cleaned →
         let d := CleanedDeliveredItem.item c in
         deliveredItems w !! _id d = Some (fields d)
         ∧ (AuthUser.role user ≠ "admin" → AuthUser.role user ≠ "supervisor" →
            DeliveredItem.foundBy (fields d) = AuthUser._id user)
         ∧ (SearchQuery.includeArchived query ≠ Some "true" →
            DeliveredItem.archived (fields d) = false))
    ∧ (∀ id d, deliveredItems w !! id = Some d →
         DeliveredItemsRouter.searchFilter env query user (id, d) = true →
         (id, d) ∈ CleanedDeliveredItem.item <$> cleaned).
Proof.
  destruct (get_search_run env query user w) as (w' & cleaned & Hrun & _ & Hitems & _).
  exists w', cleaned. split; [done|]. split.
  - intros c Hc d.
    assert (d ∈ CleanedDeliveredItem.item <$> cleaned) as Hd
      by (apply list_elem_of_fmap; by exists c).
    rewrite Hitems, merge_sort_Permutation in Hd.
    apply list_elem_of_In, filter_In in Hd as [Hstored Hfilter].
    apply list_elem_of_In in Hstored. destruct d as [id item].
    apply elem_of_map_to_list in Hstored.
    split; [done|].
    unfold DeliveredItemsRouter.searchFilter in Hfilter. simpl in Hfilter.
    apply andb_true_iff in Hfilter as [Hfilter Harchived].
    apply andb_true_iff in Hfilter as [Howner _].
    split.
    + intros Hadmin Hsupervisor. simpl.
      destruct (String.eqb_spec (AuthUser.role user) "admin"); [done|].
      destruct (String.eqb_spec (AuthUser.role user) "supervisor"); [done|].
      simpl in Howner. by apply String.eqb_eq.
    + intros Hinclude. simpl.
      rewrite bool_decide_eq_false_2 in Harchived by done.
      by destruct (DeliveredItem.archived item).
  - intros id d Hstored Hfilter.
    rewrite Hitems, merge_sort_Permutation.
    apply list_elem_of_In, filter_In. split; [|done].
    apply list_elem_of_In. by apply elem_of_map_to_list.
Qed.

(** ** Deleting a delivered item *)

(** X20: [DELETE /:id] of the delivered items.  A user who is neither
    admin nor supervisor, the finder included, deletes nothing: the
    request is answered 403 when the finder of the item is a stored
    user, and 500 when it is not.  An admin or a supervisor removes the
    item and nothing else, and the image host is asked to delete its
    images. *)
Theorem DeliveredItemsRouter_delete_id_guarded (id : ObjectId) (user : AuthUser.t)
    (w : World) (item : DeliveredItem.t) :
  deliveredItems w !! id = Some item →
  (AuthUser.role user ≠ "admin" → AuthUser.role user ≠ "supervisor" →
     DeliveredItemsRouter_delete_id id user w
     = (w, match users w !! DeliveredItem.foundBy item with
           | Some _ => status_json 403 (Message "Not authorized to delete this item")
           | None => status_json 500 (Failure "Error deleting item" TypeError)
           end))
  ∧ (AuthUser.role user = "admin" ∨ AuthUser.role user = "supervisor" →
       let result := DeliveredItemsRouter_delete_id id user w in
       result.2 = json (Message "Item deleted successfully")
       ∧ deliveredItems result.1 = delete id (deliveredItems w)
       ∧ lostItems result.1 = lostItems w
       ∧ users result.1 = users w
       ∧ hostCalls result.1
         = (hostCalls w ++ (Delete <$> hostedIds (DeliveredItem.images item)))%list).
Proof.
  intros Hitem. unfold DeliveredItemsRouter_delete_id, deleteImagesQuietly.
  run. rewrite Hitem. simpl. split.
  - intros Hadmin Hsupervisor.
    destruct (users w !! DeliveredItem.foundBy item) as [finder|] eqn:Hfinder.
    + by rewrite (notAuthorized_employee user w _ finder).
    + by rewrite (notAuthorized_finder_gone user w).
  - intros Hrole. by rewrite (notAuthorized_staff user _ w Hrole).
Qed.

Lemma DeliveredItemsRouter_delete_id_guarded_witness :
  DeliveredItemsRouter_delete_id "d1" Scenario.asFinder Scenario.world
  = (Scenario.world, status_json 403 (Message "Not authorized to delete this item"))
  ∧ deliveredItems (DeliveredItemsRouter_delete_id "d1" Scenario.asAdmin Scenario.world).1
    = delete "d1" (deliveredItems Scenario.world).
Proof.
  split.
  - apply (DeliveredItemsRouter_delete_id_guarded "d1" Scenario.asFinder Scenario.world
             Scenario.handedOver);
      [vm_compute; reflexivity|vm_compute; discriminate..].
  - apply (DeliveredItemsRouter_delete_id_guarded "d1" Scenario.asAdmin Scenario.world
             Scenario.handedOver); [vm_compute; reflexivity|left; vm_compute; reflexivity].
Defined.

(** ** Employees and the guarded routes *)

(** X21: a user who is neither admin nor supervisor cannot change a
    stored lost item through the guarded routes, not even the finder of
    the item: the update and the deletion of the router with the inline
    guards and the image upload of the other router change nothing,
    whatever the payload; they answer 403 when the finder of the item
    is a stored user and 500 when it is not. *)
Theorem employee_refused (env : Env) (schema : LostItem.SchemaOptions) (id : ObjectId)
    (body : gmap string string) (files : list UploadedFile) (user : AuthUser.t)
    (w : World) (item : LostItem.t) :
  lostItems w !! id = Some item →
  AuthUser.role user ≠ "admin" →
  AuthUser.role user ≠ "supervisor" →
  let answer (forbidden failed : string) : Reply :=
    match users w !! LostItem.foundBy item with
    | Some _ => status_json 403 (Message forbidden)
    | None => status_json 500 (Message failed)
    end in
  LostItemsRouter.put_id env schema id body files (Some user) w
  = (w, answer "Not authorized to update this item" "Error updating item")
  ∧ LostItemsRouter.delete_id env id (Some user) w
    = (w, answer "Not authorized to delete this item" "Error deleting item")
  ∧ LostItemRoutes.post_id_images env schema id files user w
    = (w, answer "Not authorized to update this item" "Error uploading images").
Proof.
  intros Hitem Hadmin Hsupervisor. simpl.
  destruct (users w !! LostItem.foundBy item) as [finder|] eqn:Hfinder.
  - split; [|split].
    + by apply (LostItemsRouter_put_id_forbidden env schema id body files user w item finder).
    + by apply (LostItemsRouter_delete_id_forbidden env id user w item finder).
    + by apply (LostItemRoutes_post_id_images_forbidden env schema id files user w item finder).
  - unfold LostItemsRouter.put_id, LostItemsRouter.delete_id,
      LostItemRoutes.post_id_images.
    run. rewrite Hitem. simpl.
    by rewrite (notAuthorized_finder_gone user w).
Qed.

Lemma employee_refused_witness :
  LostItemsRouter.put_id Scenario.env LostItemSchema "i1"
    {[ "description" := "Black leather bag, one strap" ]} [] (Some Scenario.asFinder)
    Scenario.world
  = (Scenario.world, status_json 403 (Message "Not authorized to update this item"))
  ∧ LostItemsRouter.delete_id Scenario.env "i1" (Some Scenario.asFinder) Scenario.world
    = (Scenario.world, status_json 403 (Message "Not authorized to delete this item"))
  ∧ LostItemRoutes.post_id_images Scenario.env LostItemSchema "i1" [] Scenario.asFinder
      Scenario.world
    = (Scenario.world, status_json 403 (Message "Not authorized to update this item")).
Proof.
  apply (employee_refused Scenario.env LostItemSchema "i1"
           {[ "description" := "Black leather bag, one strap" ]} [] Scenario.asFinder
           Scenario.world Scenario.bag);
    [vm_compute; reflexivity|vm_compute; discriminate..].
Defined.

(** ** Granting and revoking permissions *)

Lemma matching_names_length (w : World) (names : list string) :
  NoDup (catalogNames w) →
  NoDup names →
  (∀ n, n ∈ names → ∃ id p, permissions w !! id = Some p ∧ Permission.name p = n) →
  length (List.filter
            (λ p : Doc Permission.t, bool_decide (Permission.name (fields p) ∈ names))
            (map_to_list (permissions w))) = length names.
Proof.
  intros Hcatalog Hnames Hall.
  set (matching := List.filter _ _).
  set (matched := (λ p : Doc Permission.t, Permission.name (fields p)) <$> matching).
  assert (NoDup matched) as Hnodup by by apply filter_fmap_NoDup.
  assert (matched ≡ₚ names) as Hperm.
  { apply NoDup_Permutation; [done|done|]. intros n. split.
    - intros (p & -> & Hp)%list_elem_of_fmap.
      apply list_elem_of_In, filter_In in Hp as [_ Hp].
      by apply bool_decide_eq_true in Hp.
    - intros Hn. destruct (Hall n Hn) as (id & p & Hp & Hname).
      apply list_elem_of_fmap. exists (id, p). split; [done|].
      apply list_elem_of_In, filter_In. split.
      + apply list_elem_of_In. by apply elem_of_map_to_list.
      + apply bool_decide_eq_true. simpl. by rewrite Hname. }
  rewrite <- Hperm. unfold matched. by rewrite length_fmap.
Qed.

Lemma populate_stored (m : gmap string Permission.t) (ids : list ObjectId) :
  (∀ id, id ∈ ids → is_Some (m !! id)) →
  fst <$> omap (λ id, (λ p, (id, p)) <$> m !! id) ids = ids.
Proof.
  induction ids as [|id ids IH]; intros Hstored; [done|].
  destruct (Hstored id) as [p Hp]; [left|].
  simpl. rewrite Hp. simpl. f_equal. apply IH. intros ? ?. apply Hstored. by right.
Qed.

(** X22: an admin's update of a user's permissions with a list of
    distinct catalog names replaces the references of that user by the
    ids of exactly the permissions so named, whatever the user held
    before, and answers with those permissions; nothing else in the
    world changes. *)
Theorem put_users_permissions_replaces (userId : ObjectId) (names : list string)
    (user : AuthUser.t) (w : World) (requester target : User.t) :
  users w !! AuthUser._id user = Some requester →
  User.role requester = "admin" →
  NoDup (catalogNames w) →
  NoDup names →
  (∀ n, n ∈ names → ∃ id p, permissions w !! id = Some p ∧ Permission.name p = n) →
  users w !! userId = Some target →
  ∃ ids view,
    AuthRoutes.put_users_permissions userId names user w
    = (set_users (<[userId := User.set_permissions ids target]> (users w)) w,
       json (UserBody view))
    ∧ length ids = length names
    ∧ (∀ id, id ∈ ids ↔
             ∃ p, permissions w !! id = Some p ∧ Permission.name p ∈ names)
    ∧ _id <$> UserView.populated view = ids.
Proof.
  intros Hrequester Hrole Hcatalog Hnames Hall Htarget.
  unfold AuthRoutes.put_users_permissions, AuthRoutes.findByIdAndUpdate,
    AuthRoutes.populatePermissions.
  run. rewrite Hrequester, Hrole. simpl.
  rewrite (matching_names_length w names Hcatalog Hnames Hall), Nat.eqb_refl. simpl.
  rewrite Htarget. simpl.
  assert (∀ id,
            id ∈ _id <$> List.filter
                   (λ p : Doc Permission.t,
                      bool_decide (Permission.name (fields p) ∈ names))
                   (map_to_list (permissions w))
            ↔ ∃ p, permissions w !! id = Some p ∧ Permission.name p ∈ names) as Hids.
  { intros id. rewrite list_elem_of_fmap. split.
    - intros ([id' p] & -> & Hp).
      apply list_elem_of_In, filter_In in Hp as [Hp Hname].
      apply list_elem_of_In, elem_of_map_to_list in Hp.
      apply bool_decide_eq_true in Hname. by exists p.
    - intros (p & Hp & Hname). exists (id, p). split; [done|].
      apply list_elem_of_In, filter_In. split.
      + apply list_elem_of_In. by apply elem_of_map_to_list.
      + by apply bool_decide_eq_true. }
  eexists _, _. split; [reflexivity|]. simpl.
  split; [rewrite length_fmap; by apply matching_names_length|].
  split; [done|].
  apply populate_stored. intros id Hid. apply Hids in Hid as (p & Hp & _). by exists p.
Qed.

Lemma put_users_permissions_replaces_witness :
  ∃ ids view,
    AuthRoutes.put_users_permissions "e1" ["deliver_items"] Scenario.asAdmin Scenario.world
    = (set_users (<["e1" := User.set_permissions ids Scenario.finder]>
                    (users Scenario.world)) Scenario.world,
       json (UserBody view))
    ∧ length ids = 1.
Proof.
  destruct (put_users_permissions_replaces "e1" ["deliver_items"] Scenario.asAdmin
              Scenario.world Scenario.admin Scenario.finder)
    as (ids & view & Hrun & Hlength & _).
  - vm_compute; reflexivity.
  - reflexivity.
  - apply (bool_decide_eq_true_1 (NoDup (catalogNames Scenario.world))).
    vm_compute; reflexivity.
  - apply (bool_decide_eq_true_1 (NoDup ["deliver_items"])). vm_compute; reflexivity.
  - intros n Hn. exists "p2", Scenario.deliver_items.
    apply elem_of_cons in Hn as [->|Hn]; [|by apply elem_of_nil in Hn].
    split; [vm_compute; reflexivity|reflexivity].
  - vm_compute; reflexivity.
  - exists ids, view. split; [exact Hrun|exact Hlength].
Defined.

Lemma filter_none {A} (f : A → bool) (l : list A) :
  (∀ x, x ∈ l → f x = false) → List.filter f l = [].
Proof.
  induction l as [|x l IH]; intros Hf; [done|].
  simpl. rewrite (Hf x) by left. apply IH. intros ? ?. apply Hf. by right.
Qed.

(** X23: a permission that only one user holds can be deleted once an
    admin has emptied that user's permissions: the update with the
    empty list is answered 200, and the deletion that would have been
    refused as PERMISSION_IN_USE then removes the permission. *)
Theorem revoke_then_delete (permission userId : ObjectId) (user : AuthUser.t)
    (w : World) (requester target : User.t) (p : Permission.t) :
  users w !! AuthUser._id user = Some requester →
  User.role requester = "admin" →
  users w !! userId = Some target →
  permissions w !! permission = Some p →
  (∀ uid u, users w !! uid = Some u → permission ∈ User.permissions u → uid = userId) →
  ∃ w1 view,
    AuthRoutes.put_users_permissions userId [] user w = (w1, json (UserBody view))
    ∧ PermissionRoutes.delete_id permission user w1
      = (set_permissions (delete permission (permissions w)) w1,
         json (Message "Permission deleted successfully")).
Proof.
  intros Hrequester Hrole Htarget Hp Honly.
  unfold AuthRoutes.put_users_permissions, AuthRoutes.findByIdAndUpdate,
    AuthRoutes.populatePermissions.
  run. rewrite Hrequester, Hrole. simpl.
  rewrite filter_none; [|done].
  simpl. rewrite Htarget. simpl.
  eexists _, _. split; [reflexivity|].
  unfold PermissionRoutes.delete_id. run.
  assert (∃ acting, <[userId := User.set_permissions [] target]> (users w)
                      !! AuthUser._id user = Some acting
                    ∧ User.role acting = "admin") as (acting & Hacting & Hadmin).
  { destruct (decide (userId = AuthUser._id user)) as [->|Hother].
    - rewrite lookup_insert_eq. eexists. split; [done|]. simpl. by simplify_eq.
    - rewrite lookup_insert_ne by done. by exists requester. }
  rewrite Hacting. unfold PermissionRoutes.notAdmin. rewrite Hadmin.
  simpl. rewrite Hp. simpl.
  rewrite filter_none; [done|].
  intros [uid u] Hu. apply elem_of_map_to_list in Hu.
  unfold PermissionRoutes.holds. apply bool_decide_eq_false_2. simpl. intros Hin.
  apply lookup_insert_Some in Hu as [[<- <-]|[Hother Hu]].
  - simpl in Hin. by apply elem_of_nil in Hin.
  - by destruct Hother; symmetry; apply (Honly uid u).
Qed.

Lemma revoke_then_delete_witness :
  ∃ w1 view,
    AuthRoutes.put_users_permissions "e1" [] Scenario.asAdmin Scenario.world
    = (w1, json (UserBody view))
    ∧ PermissionRoutes.delete_id "p1" Scenario.asAdmin w1
      = (set_permissions (delete "p1" (permissions Scenario.world)) w1,
         json (Message "Permission deleted successfully")).
Proof.
  apply (revoke_then_delete "p1" "e1" Scenario.asAdmin Scenario.world Scenario.admin
           Scenario.finder Scenario.view_items);
    try (vm_compute; reflexivity).
  intros uid u Hu Hin. unfold Scenario.world in Hu. simpl in Hu.
  apply lookup_insert_Some in Hu as [[<- <-]|[_ Hu]];
    [by apply elem_of_nil in Hin|].
  apply lookup_insert_Some in Hu as [[<- <-]|[_ Hu]]; [done|].
  apply lookup_insert_Some in Hu as [[<- <-]|[_ Hu]];
    [by apply elem_of_nil in Hin|].
  by rewrite lookup_empty in Hu.
Defined.

(** ** Logging in and registering *)

Lemma findOne_member {A} (f : Doc A → bool) (m : gmap string A) (d : Doc A) :
  head (List.filter f (map_to_list m)) = Some d → m !! _id d = Some (fields d) ∧ f d = true.
Proof.
  intros Hhead. apply head_Some_elem_of in Hhead as Hd.
  apply list_elem_of_In, filter_In in Hd as [Hd Hf]. split; [|done].
  destruct d. by apply list_elem_of_In, elem_of_map_to_list in Hd.
Qed.

Lemma findOne_found {A} (f : Doc A → bool) (m : gmap string A) (id : string) (a : A) :
  m !! id = Some a → f (id, a) = true →
  ∃ d, head (List.filter f (map_to_list m)) = Some d.
Proof.
  intros Hstored Hf.
  assert ((id, a) ∈ List.filter f (map_to_list m)) as Hin.
  { apply list_elem_of_In, filter_In. split; [|done].
    apply list_elem_of_In. by apply elem_of_map_to_list. }
  destruct (List.filter f (map_to_list m)) as [|d rest]; [by apply elem_of_nil in Hin|].
  by exists d.
Qed.

Lemma hasEmployeeNumber_true (n : option string) (d : Doc User.t) :
  hasEmployeeNumber n d = true ↔ n = Some (User.employeeNumber (fields d)).
Proof.
  unfold hasEmployeeNumber. destruct n as [n|]; [|done].
  rewrite String.eqb_eq. split; intros; by simplify_eq.
Qed.

(** X24: a login is answered 401 "Invalid credentials", the same reply
    in both cases and with nothing changed, when no stored user has the
    employee number and when the password does not match the stored
    one. *)
Theorem login_invalid_credentials (env : Env)
    (comparePassword : string → option string → option bool)
    (body : gmap string string) (w : World) :
  (∀ id u, users w !! id = Some u →
           body !! "employeeNumber" = Some (User.employeeNumber u) →
           comparePassword (User.password u) (body !! "password") = Some false) →
  AuthRoutes_post_login env comparePassword body w
  = (w, status_json 401 (Message "Invalid credentials")).
Proof.
  intros Hmismatch. unfold AuthRoutes_post_login. run.
  destruct (head _) as [[id u]|] eqn:Hfound; [|done].
  apply findOne_member in Hfound as [Hstored Hnumber].
  apply hasEmployeeNumber_true in Hnumber. simpl in *.
  by rewrite (Hmismatch id u Hstored Hnumber).
Qed.

Lemma login_invalid_credentials_witness :
  AuthRoutes_post_login Cases.env Cases.comparePassword Cases.wrongPassword Scenario.world
  = (Scenario.world, status_json 401 (Message "Invalid credentials")).
Proof.
  apply (login_invalid_credentials Cases.env Cases.comparePassword Cases.wrongPassword
           Scenario.world).
  intros id u Hu Hnumber. unfold Scenario.world in Hu. simpl in Hu.
  apply lookup_insert_Some in Hu as [[<- <-]|[_ Hu]]; [vm_compute; reflexivity|].
  apply lookup_insert_Some in Hu as [[<- <-]|[_ Hu]]; [vm_compute; reflexivity|].
  apply lookup_insert_Some in Hu as [[<- <-]|[_ Hu]]; [vm_compute; reflexivity|].
  by rewrite lookup_empty in Hu.
Defined.

(** X25: the token of a successful login is one that the authentication
    gate lets through, as the user who logged in: with unique employee
    numbers and a matching password the login is answered 200, and
    [auth] on the header ["Bearer " ++ token] yields that user's
    identity. *)
Theorem login_then_auth (env : Env)
    (comparePassword : string → option string → option bool)
    (body : gmap string string) (w : World) (id : ObjectId) (user : User.t) :
  verifiesOwnTokens env →
  users w !! id = Some user →
  body !! "employeeNumber" = Some (User.employeeNumber user) →
  (∀ id' user', users w !! id' = Some user' →
                User.employeeNumber user' = User.employeeNumber user → id' = id) →
  comparePassword (User.password user) (body !! "password") = Some true →
  ∃ token view,
    AuthRoutes_post_login env comparePassword body w
    = (w, json (RegisteredBody token view))
    ∧ UserView._id view = id
    ∧ auth env (Some ("Bearer " +:+ token)) w = Next (identity id user).
Proof.
  intros Hverify Hstored Hnumber Hunique Hmatch.
  unfold AuthRoutes_post_login. run.
  destruct (findOne_found (hasEmployeeNumber (body !! "employeeNumber")) (users w) id user)
    as [[id' user'] Hfound]; [done|by apply hasEmployeeNumber_true|].
  rewrite Hfound. simpl.
  apply findOne_member in Hfound as [Hstored' Hnumber'].
  apply hasEmployeeNumber_true in Hnumber'. simpl in *.
  assert (id' = id) as -> by (apply (Hunique id' user'); [done|congruence]).
  assert (user' = user) as -> by congruence.
  rewrite Hmatch. simpl.
  eexists _, _. split; [reflexivity|]. split; [done|].
  destruct (Hverify (PayloadId id (User.employeeNumber user) (User.role user)))
    as [Hdecoded Htruthy].
  unfold auth, findUser.
  rewrite (bearerToken_prefix _), Htruthy. simpl.
  rewrite Hdecoded. simpl. by rewrite Hstored.
Qed.

Lemma login_then_auth_witness :
  ∃ token view,
    AuthRoutes_post_login Cases.env Cases.comparePassword Cases.credentials Scenario.world
    = (Scenario.world, json (RegisteredBody token view))
    ∧ UserView._id view = "e1"
    ∧ auth Cases.env (Some ("Bearer " +:+ token)) Scenario.world = Next Scenario.asFinder.
Proof.
  apply (login_then_auth Cases.env Cases.comparePassword Cases.credentials Scenario.world
           "e1" Scenario.finder).
  - intros []; split; reflexivity.
  - vm_compute; reflexivity.
  - vm_compute; reflexivity.
  - intros id u Hu Hnumber. unfold Scenario.world in Hu. simpl in Hu.
    apply lookup_insert_Some in Hu as [[<- <-]|[_ Hu]]; [discriminate Hnumber|].
    apply lookup_insert_Some in Hu as [[<- <-]|[_ Hu]]; [reflexivity|].
    apply lookup_insert_Some in Hu as [[<- <-]|[_ Hu]]; [discriminate Hnumber|].
    by rewrite lookup_empty in Hu.
  - vm_compute; reflexivity.
Defined.

Lemma no_user_found (n : option string) (w : World) :
  (∀ id u, users w !! id = Some u → n ≠ Some (User.employeeNumber u)) →
  head (List.filter (hasEmployeeNumber n) (map_to_list (users w))) = None.
Proof.
  intros Hnew. destruct (head _) as [[id u]|] eqn:Hfound; [|done].
  apply findOne_member in Hfound as [Hstored Hnumber].
  apply hasEmployeeNumber_true in Hnumber. by destruct (Hnew id u).
Qed.

(** X26: the token that the first router's registration answers with
    is one that the authentication gate lets through: the new user is
    stored as an employee, and [auth] on ["Bearer " ++ token] yields
    the identity of that user. *)
Theorem register_then_auth (env : Env) (body : gmap string string) (w : World)
    (permission : ObjectId) (p : Permission.t) :
  verifiesOwnTokens env →
  (∀ input, userSchemaAccepts env input = true) →
  (∀ id u, users w !! id = Some u →
           body !! "employeeNumber" ≠ Some (User.employeeNumber u)) →
  permissions w !! permission = Some p →
  Permission.name p ∈ AuthRoutes.defaultPermissionNames →
  ∃ w' token view user,
    AuthRoutes.post_register env body w
    = (w', status_json 201 (RegisteredBody token view))
    ∧ users w !! UserView._id view = None
    ∧ users w' = <[UserView._id view := user]> (users w)
    ∧ User.role user = "employee"
    ∧ permission ∈ User.permissions user
    ∧ auth env (Some ("Bearer " +:+ token)) w'
      = Next (identity (UserView._id view) user).
Proof.
  intros Hverify Haccepts Hnew Hp Hdefault.
  unfold AuthRoutes.post_register, createUser. run.
  rewrite (no_user_found _ w Hnew). simpl.
  assert ((permission, p)
          ∈ List.filter
              (λ p0 : Doc Permission.t,
                 bool_decide (Permission.name (fields p0) ∈ AuthRoutes.defaultPermissionNames))
              (map_to_list (permissions w))) as Hin.
  { apply list_elem_of_In, filter_In. split.
    - apply list_elem_of_In. by apply elem_of_map_to_list.
    - by apply bool_decide_eq_true. }
  rewrite bool_decide_eq_false_2;
    [|intros Hlength; apply nil_length_inv in Hlength; rewrite Hlength in Hin;
      by apply elem_of_nil in Hin].
  simpl. rewrite Haccepts. simpl.
  eexists _, _, _, _. split; [reflexivity|]. simpl.
  split. { eapply fresh_not_stored; [apply is_fresh|]. clear. unfold usedIds. set_solver. }
  split; [done|]. split; [done|].
  split. { apply list_elem_of_fmap. by exists (permission, p). }
  match goal with
  | |- auth env (Some ("Bearer " +:+ jwt_sign env ?payload)) _ = _ =>
      destruct (Hverify payload) as [Hdecoded Htruthy]
  end.
  unfold auth, findUser. rewrite (bearerToken_prefix _), Htruthy. simpl.
  rewrite Hdecoded. simpl. by rewrite lookup_insert_eq.
Qed.

Lemma application_is_new (w : World) (body : gmap string string) :
  forallb (λ d : Doc User.t, negb (hasEmployeeNumber (body !! "employeeNumber") d))
    (map_to_list (users w)) = true →
  ∀ id u, users w !! id = Some u → body !! "employeeNumber" ≠ Some (User.employeeNumber u).
Proof.
  intros Hall id u Hu Hnumber. rewrite forallb_forall in Hall.
  specialize (Hall (id, u)). rewrite negb_true_iff in Hall.
  assert (hasEmployeeNumber (body !! "employeeNumber") (id, u) = true) as Htrue
    by by apply hasEmployeeNumber_true.
  rewrite Hall in Htrue; [done|].
  apply list_elem_of_In. by apply elem_of_map_to_list.
Qed.

Lemma register_then_auth_witness :
  ∃ w' token view user,
    AuthRoutes.post_register Cases.env Scenario.application Scenario.world
    = (w', status_json 201 (RegisteredBody token view))
    ∧ User.role user = "employee"
    ∧ auth Cases.env (Some ("Bearer " +:+ token)) w'
      = Next (identity (UserView._id view) user).
Proof.
  destruct (register_then_auth Cases.env Scenario.application Scenario.world "p1"
              Scenario.view_items)
    as (w' & token & view & user & Hrun & _ & _ & Hrole & _ & Hauth).
  - intros []; split; reflexivity.
  - intros input. reflexivity.
  - apply application_is_new. vm_compute; reflexivity.
  - vm_compute; reflexivity.
  - apply (bool_decide_eq_true_1
             (Permission.name Scenario.view_items ∈ AuthRoutes.defaultPermissionNames)).
    vm_compute; reflexivity.
  - exists w', token, view, user.
    split; [exact Hrun|]. split; [exact Hrole|exact Hauth].
Defined.

(** X27: the token that the second router's registration answers with
    is one that the authentication gate turns away: its payload carries
    the user's id as [_id], the gate reads [id], and although the new
    user is stored the request is answered 401 USER_NOT_FOUND. *)
Theorem register_basic_token_rejected (env : Env) (body : gmap string string) (w : World) :
  verifiesOwnTokens env →
  (∀ input, userSchemaAccepts env input = true) →
  (∀ id u, users w !! id = Some u →
           body !! "employeeNumber" ≠ Some (User.employeeNumber u)) →
  ∃ w' token view user,
    AuthRoutesBasic.post_register env body w
    = (w', status_json 201 (RegisteredBody token view))
    ∧ users w' !! UserView._id view = Some user
    ∧ auth env (Some ("Bearer " +:+ token)) w'
      = Done (status_json 401 (Coded "User not found" "USER_NOT_FOUND")).
Proof.
  intros Hverify Haccepts Hnew.
  unfold AuthRoutesBasic.post_register, createUser. run.
  rewrite (no_user_found _ w Hnew). simpl.
  rewrite Haccepts. simpl.
  eexists _, _, _, _. split; [reflexivity|]. simpl.
  split; [apply lookup_insert_eq|].
  match goal with
  | |- auth env (Some ("Bearer " +:+ jwt_sign env ?payload)) _ = _ =>
      destruct (Hverify payload) as [Hdecoded Htruthy]
  end.
  unfold auth, findUser. rewrite (bearerToken_prefix _), Htruthy. simpl.
  by rewrite Hdecoded.
Qed.

Lemma register_basic_token_rejected_witness :
  ∃ w' token view user,
    AuthRoutesBasic.post_register Cases.env Scenario.application Scenario.world
    = (w', status_json 201 (RegisteredBody token view))
    ∧ users w' !! UserView._id view = Some user
    ∧ auth Cases.env (Some ("Bearer " +:+ token)) w'
      = Done (status_json 401 (Coded "User not found" "USER_NOT_FOUND")).
Proof.
  apply (register_basic_token_rejected Cases.env Scenario.application Scenario.world).
  - intros []; split; reflexivity.
  - intros input. reflexivity.
  - apply application_is_new. vm_compute; reflexivity.
Defined.

(** X28: both registrations refuse an employee number that a stored
    user has: the request is answered 400 and nothing changes. *)
Theorem register_duplicate (env : Env) (body : gmap string string) (w : World)
    (id : ObjectId) (user : User.t) :
  users w !! id = Some user →
  body !! "employeeNumber" = Some (User.employeeNumber user) →
  AuthRoutes.post_register env body w
  = (w, status_json 400 (Message "Employee number already exists"))
  ∧ AuthRoutesBasic.post_register env body w
    = (w, status_json 400 (Message "Employee number already exists")).
Proof.
  intros Hstored Hnumber.
  destruct (findOne_found (hasEmployeeNumber (body !! "employeeNumber")) (users w) id user)
    as [d Hfound]; [done|by apply hasEmployeeNumber_true|].
  unfold AuthRoutes.post_register, AuthRoutesBasic.post_register. run.
  by rewrite Hfound.
Qed.

Lemma register_duplicate_witness :
  AuthRoutes.post_register Scenario.env Cases.credentials Scenario.world
  = (Scenario.world, status_json 400 (Message "Employee number already exists"))
  ∧ AuthRoutesBasic.post_register Scenario.env Cases.credentials Scenario.world
    = (Scenario.world, status_json 400 (Message "Employee number already exists")).
Proof.
  apply (register_duplicate Scenario.env Cases.credentials Scenario.world "e1"
           Scenario.finder); vm_compute; reflexivity.
Defined.

(** ** Deleting a user *)

(** X29: deleting a user does not cascade: the items that the user
    found stay as they are, the list of lost items then shows them with
    a placeholder as finder, and a token of the deleted user is turned
    away 401 USER_NOT_FOUND. *)
Theorem user_deletion_orphans (env : Env) (viewer : AuthUser.t) (token : string)
    (userId itemId : ObjectId) (w : World) (user : User.t) (item : LostItem.t) :
  users w !! userId = Some user →
  lostItems w !! itemId = Some item →
  LostItem.foundBy item = userId →
  truthy token = true →
  jwt_verify env token = JwtDecoded (Some userId) →
  ∃ w1,
    UsersRouter.delete_id userId w = (w1, json (Message "User deleted successfully"))
    ∧ users w1 = delete userId (users w)
    ∧ lostItems w1 = lostItems w
    ∧ deliveredItems w1 = deliveredItems w
    ∧ auth env (Some ("Bearer " +:+ token)) w1
      = Done (status_json 401 (Coded "User not found" "USER_NOT_FOUND"))
    ∧ ∃ w2 cleaned entry,
        LostItemRoutes.get_all viewer w1 = (w2, json (LostItemsBody cleaned))
        ∧ entry ∈ cleaned
        ∧ CleanedLostItem.item entry = (itemId, item)
        ∧ isPlaceholder w1 (CleanedLostItem.foundBy entry).
Proof.
  intros Huser Hitem Hfinder Htruthy Hverify.
  unfold UsersRouter.delete_id. run. rewrite Huser. simpl.
  eexists. split; [reflexivity|]. simpl.
  split; [done|]. split; [done|]. split; [done|].
  split.
  { unfold auth, findUser. rewrite (bearerToken_prefix _), Htruthy. simpl.
    rewrite Hverify. simpl. by rewrite lookup_delete_eq. }
  set (w1 := set_users (delete userId (users w)) w).
  destruct (get_all_run viewer w1) as (w2 & cleaned & Hrun & _ & Hitems & Hshown).
  assert ((itemId, item) ∈ CleanedLostItem.item <$> cleaned) as Hlisted.
  { rewrite Hitems, merge_sort_Permutation. by apply elem_of_map_to_list. }
  apply list_elem_of_fmap in Hlisted as (entry & Hentry & Hin).
  exists w2, cleaned, entry.
  split; [done|]. split; [done|]. split; [done|].
  destruct (Hshown entry Hin) as (_ & HfoundBy & _).
  rewrite <- Hentry in HfoundBy. simpl in HfoundBy.
  unfold shownAs in HfoundBy. simpl in HfoundBy.
  by rewrite Hfinder, lookup_delete_eq in HfoundBy.
Qed.

Lemma user_deletion_orphans_witness :
  ∃ w1,
    UsersRouter.delete_id "e1" Scenario.world
    = (w1, json (Message "User deleted successfully"))
    ∧ lostItems w1 = lostItems Scenario.world
    ∧ auth Scenario.env (Some "Bearer token-of-finder") w1
      = Done (status_json 401 (Coded "User not found" "USER_NOT_FOUND")).
Proof.
  destruct (user_deletion_orphans Scenario.env Scenario.asAdmin "token-of-finder"
              "e1" "i1" Scenario.world Scenario.finder Scenario.bag)
    as (w1 & Hrun & _ & Hlost & _ & Hauth & _); try (vm_compute; reflexivity).
  exists w1. split; [exact Hrun|]. split; [exact Hlost|exact Hauth].
Defined.

(** ** The delivered-items service on an item that is not stored *)

Lemma DeliveredItem_validate_basic_None (d : DeliveredItem.t) :
  truthy (DeliveredItem.itemName d) = true →
  truthy (DeliveredItem.description d) = true →
  truthy (DeliveredItem.location d) = true →
  truthy (DeliveredItem.category d) = true →
  truthy (DeliveredItem.foundBy d) = true →
  truthy (DeliveredItem.flightNumber d) = true →
  required_date "dateFound" (DeliveredItem.dateFound d) = None →
  truthy (DeliveredItem.name (DeliveredItem.customerInfo d)) = true →
  truthy (DeliveredItem.email (DeliveredItem.customerInfo d)) = true →
  truthy (DeliveredItem.phone (DeliveredItem.customerInfo d)) = true →
  DeliveredItem_validate_basic d = None.
Proof.
  intros. apply first_error_None. unfold DeliveredItem_required.
  repeat (apply Forall_cons; split); try (by apply required_None); done.
Qed.

(** X30: the service takes the item from its caller, not from the
    store: for a complete item that is not (or no longer) stored it
    still writes the delivered item, copied from what it was handed,
    and the lost items are as they were; nothing is marked. *)
Theorem markAsDelivered_unstored (env : Env) (item : Doc LostItem.t)
    (info : DeliveryData.t) (by_ : ObjectId) (w : World) :
  lostItems w !! _id item = None →
  LostItem_complete (fields item) = true →
  truthy (DeliveryData.customerName info) = true →
  truthy (DeliveryData.customerEmail info) = true →
  truthy (DeliveryData.customerPhone info) = true →
  ∃ w' d,
    DeliveredItemsService.markAsDelivered env item info by_ w = (w', Value d)
    ∧ lostItems w' = lostItems w
    ∧ deliveredItems w !! _id d = None
    ∧ deliveredItems w' = <[_id d := fields d]> (deliveredItems w)
    ∧ DeliveredItem.itemName (fields d) = LostItem.itemName (fields item)
    ∧ DeliveredItem.foundBy (fields d) = LostItem.foundBy (fields item)
    ∧ DeliveredItem.dateFound (fields d) = LostItem.dateFound (fields item)
    ∧ DeliveredItem.dateDelivered (fields d) = now env
    ∧ DeliveredItem.deliveredBy (fields d) = None.
Proof.
  intros Hunstored Hcomplete Hname Hemail Hphone.
  apply bool_decide_eq_true, first_error_None in Hcomplete.
  unfold LostItem_required in Hcomplete.
  repeat (apply Forall_cons in Hcomplete as [? Hcomplete]).
  repeat match goal with H : required _ _ = None |- _ => apply required_None in H end.
  unfold DeliveredItemsService.markAsDelivered, DeliveredItemsService.createDeliveredItem,
    DeliveredItemsService.findByIdAndUpdate.
  run.
  rewrite DeliveredItem_validate_basic_None by done.
  simpl. rewrite Hunstored. simpl.
  eexists _, _. split; [reflexivity|]. simpl.
  split; [done|]. split; [|done].
  eapply fresh_not_stored; [apply is_fresh|]. clear. unfold usedIds. set_solver.
Qed.

Lemma markAsDelivered_unstored_witness :
  ∃ w' d,
    DeliveredItemsService.markAsDelivered Scenario.env ("gone", Scenario.bag)
      Scenario.delivery "a1" Scenario.world = (w', Value d)
    ∧ lostItems w' = lostItems Scenario.world
    ∧ deliveredItems w' = <[_id d := fields d]> (deliveredItems Scenario.world).
Proof.
  destruct (markAsDelivered_unstored Scenario.env ("gone", Scenario.bag)
              Scenario.delivery "a1" Scenario.world)
    as (w' & d & Hrun & Hlost & _ & Hdelivered & _); try (vm_compute; reflexivity).
  exists w', d. split; [exact Hrun|]. split; [exact Hlost|exact Hdelivered].
Defined.
